(** * llm-agents: provider adapters, schema inference and batch lifecycle

    A shallow embedding of the TypeScript sources
    - [src/types.ts]
    - [src/providers/openai.ts]
    - [src/providers/google.ts]
    - [src/agents.ts]
    together with the properties of single completion, structured output,
    schema inference and the batch operations.

    Conventions of the embedding.
    - A JavaScript string is the [string] of its bytes in UTF-8.  Where
      the code counts or indexes the UTF-16 code units of a string
      ([length], [s[i]]), they are computed from the bytes ([code_units]);
      [trim] removes the white space of ECMAScript, of one, two or three
      bytes.  [toLowerCase] acts on the ASCII letters, the only characters
      whose lower case holds a letter of "json"; where arbitrary keys are
      lower-cased and compared ([validateBasePrompt]), the method is the
      runtime's ([String_toLowerCase]).
    - A JavaScript number is a binary64 [float].
    - Example values ([sampleObj]) and decoded completions are [jsval]s:
      finite trees of undefined, null, booleans, numbers, strings, arrays
      and plain objects (properties in enumeration order).
    - Values whose TypeScript type is declared are records with the declared
      fields; optional fields are [option]s.  What the code obtains from
      [JSON.parse] is a [jsval] whatever type it is cast to: its properties
      are read with [get], which throws on [undefined] and [null].
    - The injected [fetchFn], [Date.now], [JSON.parse], [JSON.stringify] and
      the printing of numbers belong to the environment: the first two are
      fields of [Env], the others of the class [Runtime].  Every call of
      [fetchFn] is appended to a log that the monad [M] threads through the
      code. *)

From Stdlib Require Import Floats ZArith Ascii String.
From stdpp Require Import gmap strings list pretty.

Open Scope string_scope.

(* ================================================================= *)
(** ** JavaScript strings and values *)

Module JS.

(** [s.toLowerCase()] for a text that is searched for "json": the ASCII
    capitals become small letters.  No other character has a letter of
    "json" in its lower case, so [s.toLowerCase().includes('json')] is
    decided by this function. *)
Definition lower_ascii (c : ascii) : ascii :=
  let n := nat_of_ascii c in
  if (65 <=? n)%nat && (n <=? 90)%nat then ascii_of_nat (n + 32) else c.

Fixpoint toLowerCase (s : string) : string :=
  match s with
  | EmptyString => EmptyString
  | String c r => String (lower_ascii c) (toLowerCase r)
  end.

(** [s.startsWith(p)]. *)
Definition startsWith (s p : string) : bool := String.prefix p s.

(** [s.includes(sub)]. *)
Fixpoint includes (s sub : string) : bool :=
  String.prefix sub s ||
  match s with
  | EmptyString => false
  | String _ r => includes r sub
  end.

(** The character class [[a-zA-Z0-9]]. *)
Definition is_alnum (c : ascii) : bool :=
  let n := nat_of_ascii c in
  ((48 <=? n)%nat && (n <=? 57)%nat)
  || ((65 <=? n)%nat && (n <=? 90)%nat)
  || ((97 <=? n)%nat && (n <=? 122)%nat).

(** [s.replace(/[^a-zA-Z0-9]/g, '')]. *)
Fixpoint strip_non_alnum (s : string) : string :=
  match s with
  | EmptyString => EmptyString
  | String c r =>
      if is_alnum c then String c (strip_non_alnum r) else strip_non_alnum r
  end.

(** [s.split(sep)] for a one-character separator: the pieces between the
    separators, never an empty array. *)
Fixpoint split (sep : ascii) (s : string) : list string :=
  match s with
  | EmptyString => [EmptyString]
  | String c r =>
      if Ascii.eqb c sep then EmptyString :: split sep r
      else match split sep r with
           | [] => [String c EmptyString]
           | p :: ps => String c p :: ps
           end
  end.

(** [parts.join(sep)]. *)
Fixpoint join (sep : string) (parts : list string) : string :=
  match parts with
  | [] => EmptyString
  | [p] => p
  | p :: ps => p ++ sep ++ join sep ps
  end.

(** [parts.slice(1)]. *)
Definition slice1 {A} (l : list A) : list A := List.tl l.

(** [s.trim()]: the white space and the line terminators of ECMAScript
    are removed at both ends.  These are U+0009 to U+000D and U+0020, of one
    byte, U+00A0, of two bytes, and U+1680, U+2000 to U+200A, U+2028,
    U+2029, U+202F, U+205F, U+3000 and U+FEFF, of three bytes. *)
Definition is_space (c : ascii) : bool :=
  let n := nat_of_ascii c in
  (n =? 32)%nat || ((9 <=? n)%nat && (n <=? 13)%nat).

Definition is_space2 (a b : ascii) : bool :=
  (nat_of_ascii a =? 194)%nat && (nat_of_ascii b =? 160)%nat.

Definition is_space3 (a b c : ascii) : bool :=
  let x := nat_of_ascii a in
  let y := nat_of_ascii b in
  let z := nat_of_ascii c in
  ((x =? 225)%nat && (y =? 154)%nat && (z =? 128)%nat)
  || ((x =? 226)%nat && (y =? 128)%nat
      && (((128 <=? z)%nat && (z <=? 138)%nat)
          || (z =? 168)%nat || (z =? 169)%nat || (z =? 175)%nat))
  || ((x =? 226)%nat && (y =? 129)%nat && (z =? 159)%nat)
  || ((x =? 227)%nat && (y =? 128)%nat && (z =? 128)%nat)
  || ((x =? 239)%nat && (y =? 187)%nat && (z =? 191)%nat).

(** The string without the white space at its head; [backwards] when the
    string is read from its end, the bytes of a character in reverse. *)
Fixpoint strip_spaces (backwards : bool) (s : string) : string :=
  match s with
  | EmptyString => EmptyString
  | String a r1 =>
      if is_space a then strip_spaces backwards r1
      else
        match r1 with
        | EmptyString => s
        | String b r2 =>
            if (if backwards then is_space2 b a else is_space2 a b)
            then strip_spaces backwards r2
            else
              match r2 with
              | EmptyString => s
              | String c r3 =>
                  if (if backwards then is_space3 c b a else is_space3 a b c)
                  then strip_spaces backwards r3
                  else s
              end
        end
  end.

Definition trimStart (s : string) : string := strip_spaces false s.

Definition trimEnd (s : string) : string :=
  String.rev (strip_spaces true (String.rev s)).

Definition trim (s : string) : string := trimEnd (trimStart s).

(** The UTF-16 code units of a string, each as the string that holds it
    alone.  A character of one, two or three bytes is one unit; a character
    of four bytes is two units, its surrogates, each written in three
    bytes. *)
Definition surrogate (u : N) : string :=
  String (ascii_of_N 237)
    (String (ascii_of_N (128 + (u / 64) mod 64))
       (String (ascii_of_N (128 + u mod 64)) EmptyString)).

Fixpoint code_units (s : string) : list string :=
  match s with
  | EmptyString => []
  | String a r1 =>
      let one := String a EmptyString :: code_units r1 in
      if (N_of_ascii a <? 192)%N then one
      else
        match r1 with
        | EmptyString => one
        | String b r2 =>
            if (N_of_ascii a <? 224)%N
            then String a (String b EmptyString) :: code_units r2
            else
              match r2 with
              | EmptyString => one
              | String c r3 =>
                  if (N_of_ascii a <? 240)%N
                  then String a (String b (String c EmptyString)) :: code_units r3
                  else
                    match r3 with
                    | EmptyString => one
                    | String d r4 =>
                        let cp :=
                          ((N_of_ascii a mod 8) * 262144
                           + (N_of_ascii b mod 64) * 4096
                           + (N_of_ascii c mod 64) * 64
                           + N_of_ascii d mod 64)%N in
                        surrogate (55296 + (cp - 65536) / 1024)
                          :: surrogate (56320 + (cp - 65536) mod 1024)
                          :: code_units r4
                    end
              end
        end
  end.

(** [s.length]: the number of UTF-16 code units. *)
Definition utf16_length (s : string) : nat := length (code_units s).

(** Truthiness of a string: only the empty string is falsy. *)
Definition nonempty (s : string) : bool :=
  match s with EmptyString => false | _ => true end.

(** Truthiness of an optional string ([undefined] is falsy). *)
Definition truthy_str (o : option string) : bool :=
  match o with Some s => nonempty s | None => false end.

(** [a || b] on optional strings. *)
Definition or_str (a b : option string) : option string :=
  if truthy_str a then a else b.

(** Truthiness of a number: [0], [-0] and [NaN] are falsy. *)
Definition truthy_num (x : float) : bool :=
  negb (PrimFloat.eqb x 0%float || PrimFloat.is_nan x).

Definition truthy_optnum (o : option float) : bool :=
  match o with Some x => truthy_num x | None => false end.

(** JavaScript values of the shape an example value or a decoded JSON
    text has. *)
#[warnings="-register-all"]
Inductive jsval : Type :=
| JUndefined
| JNull
| JBool (b : bool)
| JNum (x : float)
| JStr (s : string)
| JArr (items : list jsval)
| JObj (props : list (string * jsval)).

(** The [typeof] operator. *)
Definition typeof (v : jsval) : string :=
  match v with
  | JUndefined => "undefined"
  | JNull => "object"
  | JBool _ => "boolean"
  | JNum _ => "number"
  | JStr _ => "string"
  | JArr _ => "object"
  | JObj _ => "object"
  end.

(** ToBoolean. *)
Definition truthy (v : jsval) : bool :=
  match v with
  | JUndefined | JNull => false
  | JBool b => b
  | JNum x => truthy_num x
  | JStr s => nonempty s
  | JArr _ | JObj _ => true
  end.

(** [obj[key] = v] on an ordinary object created by a literal: an existing
    own property is overwritten in place, a new one is appended.  The key
    [__proto__] is the accessor inherited from [Object.prototype]:
    assigning through it never creates an own property. *)
Fixpoint assoc_set (key : string) (v : jsval) (props : list (string * jsval))
  : list (string * jsval) :=
  match props with
  | [] => [(key, v)]
  | (k, w) :: r =>
      if String.eqb k key then (k, v) :: r else (k, w) :: assoc_set key v r
  end.

Definition prop_set (key : string) (v : jsval) (props : list (string * jsval))
  : list (string * jsval) :=
  if String.eqb key "__proto__" then props else assoc_set key v props.

(** [Number(n)] for a count. *)
Definition num_of_nat (n : nat) : float :=
  PrimFloat.of_uint63 (Uint63.of_Z (Z.of_nat n)).

(** The own property [key] of an object, [undefined] when it has none. *)
Definition own (key : string) (props : list (string * jsval)) : jsval :=
  match List.find (fun kv => String.eqb (fst kv) key) props with
  | Some kv => snd kv
  | None => JUndefined
  end.

(** The item of a list at the index that [key] is the decimal of. *)
Definition at_index {A} (key : string) (l : list A) : option A :=
  match List.find (fun i => String.eqb (pretty i) key) (seq 0 (length l)) with
  | Some i => l !! i
  | None => None
  end.

(** [value[key]] where [value] is neither [undefined] nor [null] and [key]
    is none of the names that the prototypes define (the adapters read no
    such name): the own property of an object, the item of an array or the
    code unit of a string at an index, the [length] of either, and
    [undefined] in every other case. *)
Definition member (value : jsval) (key : string) : jsval :=
  match value with
  | JObj props => own key props
  | JArr items =>
      if String.eqb key "length" then JNum (num_of_nat (length items))
      else default JUndefined (at_index key items)
  | JStr s =>
      if String.eqb key "length" then JNum (num_of_nat (utf16_length s))
      else match at_index key (code_units s) with
           | Some u => JStr u
           | None => JUndefined
           end
  | _ => JUndefined
  end.

(** [value === undefined || value === null]. *)
Definition nullish (value : jsval) : bool :=
  match value with JUndefined | JNull => true | _ => false end.

(** Library functions of the runtime.  [JSON_parse s] is [inr v] where
    [JSON.parse(s)] returns [v] and [inl e] where it throws the
    [SyntaxError] that prints as [e]; [JSON_stringify v indent] is
    [JSON.stringify(v, null, indent)]; [Number_toString x] is [String(x)]
    for a number. *)
Class Runtime := {
  JSON_parse : string -> string + jsval;
  JSON_stringify : jsval -> nat -> string;
  Number_toString : float -> string;
}.

(** [String.prototype.toLowerCase] on arbitrary text, which follows the
    case mappings of Unicode. *)
Class Casing := {
  String_toLowerCase : string -> string;
}.

(** The double quote character, as a string. *)
Definition dq : string := String "034"%char EmptyString.

(** The line feed character. *)
Definition LF : ascii := "010"%char.
Definition nl : string := String LF EmptyString.

(** [arr.findLastIndex(p)]; [None] stands for [-1]. *)
Fixpoint findLastIndex {A} (p : A -> bool) (l : list A) : option nat :=
  match l with
  | [] => None
  | x :: r =>
      match findLastIndex p r with
      | Some i => Some (S i)
      | None => if p x then Some 0%nat else None
      end
  end.

End JS.
Export JS.

(* ================================================================= *)
(** ** [src/types.ts] *)

Module Types.

Inductive Provider := Google | OpenAI.

Definition Provider_str (p : Provider) : string :=
  match p with Google => "google" | OpenAI => "openai" end.

Inductive ModelName := Gemini2Flash | Gemini15 | GPT4oMini.

Definition ModelName_str (m : ModelName) : string :=
  match m with
  | Gemini2Flash => "Gemini 2.0 Flash"
  | Gemini15 => "Gemini 1.5"
  | GPT4oMini => "GPT-4o-mini"
  end.

Definition ModelName_eqb (a b : ModelName) : bool :=
  match a, b with
  | Gemini2Flash, Gemini2Flash | Gemini15, Gemini15 | GPT4oMini, GPT4oMini => true
  | _, _ => false
  end.

Record ModelCapabilities := {
  structuredOutput : bool;
  batchRequests : bool;
}.

Record ModelInfo := {
  mi_id : string;
  mi_name : ModelName;
  mi_provider : Provider;
  capabilities : ModelCapabilities;
}.

(** [`${provider}/${model}`]. *)
Definition ModelType (p : Provider) (m : ModelName) : string :=
  Provider_str p ++ "/" ++ ModelName_str m.

Record UsageInfo := {
  promptTokens : float;
  completionTokens : float;
  totalTokens : float;
}.

Record CompletionResponse := {
  text : string;
  data : jsval;
  usage : UsageInfo;
  model : string;
  provider : Provider;
}.

(** [CompletionResponse<T>] as [retrieveBatch] fills it from a line of the
    output document: [text] and the counts of [usage] are what the parsed
    line holds there, of whatever type that is at run time. *)
Record RetrievedUsage := {
  r_promptTokens : jsval;
  r_completionTokens : jsval;
  r_totalTokens : jsval;
}.

Record RetrievedResponse := {
  r_text : jsval;
  r_data : jsval;
  r_usage : RetrievedUsage;
  r_model : string;
  r_provider : Provider;
}.

Inductive Status := pending | processing | completed | failed.

Definition Status_str (s : Status) : string :=
  match s with
  | pending => "pending"
  | processing => "processing"
  | completed => "completed"
  | failed => "failed"
  end.

Record BatchStatus := {
  bs_id : string;
  status : Status;
  outputFileId : option string;
  error : option string;
}.

Inductive Role := developer | user | assistant.

Definition Role_str (r : Role) : string :=
  match r with
  | developer => "developer"
  | user => "user"
  | assistant => "assistant"
  end.

Definition Role_eqb (a b : Role) : bool :=
  match a, b with
  | developer, developer | user, user | assistant, assistant => true
  | _, _ => false
  end.

Record PromptMessage := {
  role : Role;
  content : string;
}.

(** [LLMRequestOptions]; an absent [sampleObj] is [JUndefined].  [seed] is
    the entry [providerParams.seed] (and [options.seed], which the OpenAI
    adapter reads first). *)
Record LLMRequestOptions := {
  temperature : option float;
  topK : option float;
  topP : option float;
  maxTokens : option float;
  frequencyPenalty : option float;
  presencePenalty : option float;
  sampleObj : jsval;
  agentName : option string;
  user_ : option string;
  seed : option float;
  providerParams_seed : option float;
}.

Inductive Priority := high | normal | low.

(** [BatchRequestOptions extends LLMRequestOptions]. *)
Record BatchRequestOptions := {
  base : LLMRequestOptions;
  batchName : option string;
  priority : option Priority;
  timeoutSeconds : option float;
  failureThreshold : option float;
}.

(** Modelled from the spec: the declarations of [BatchRequest],
    [CreateBatchResponse] and [isBatchRequest] are not in [types.ts] as
    available; the fields are the ones the adapters read and write
    ([prompt.id], [prompt.messages], [requestIds], [batchId]).  An item
    without [messages], which [createBatch] tests for, has [None] there. *)
Record BatchRequest := {
  br_id : option string;
  br_messages : option (list PromptMessage);
}.

Record CreateBatchResponse := {
  requestIds : list string;
  batchId : string;
}.

(** The options object [{}] that the adapters take by default. *)
Definition no_options : LLMRequestOptions :=
  {| temperature := None; topK := None; topP := None; maxTokens := None;
     frequencyPenalty := None; presencePenalty := None;
     sampleObj := JUndefined; agentName := None; user_ := None;
     seed := None; providerParams_seed := None |}.

Definition no_batch_options : BatchRequestOptions :=
  {| base := no_options; batchName := None; priority := None;
     timeoutSeconds := None; failureThreshold := None |}.

End Types.
Export Types.

(* ================================================================= *)
(** ** Wire types of the two back ends *)

Module OpenAITypes.

Record WireMessage := {
  wm_role : string;
  wm_content : string;
}.

Inductive ResponseFormat := json_object | text_format.

Record ChatCompletionRequest := {
  cr_model : string;
  cr_messages : list WireMessage;
  cr_temperature : option float;
  max_tokens : option float;
  top_p : option float;
  frequency_penalty : option float;
  presence_penalty : option float;
  response_format : option ResponseFormat;
  cr_user : option string;
  cr_seed : option float;
}.

Record Choice := {
  ch_index : float;
  ch_message : WireMessage;
  finish_reason : string;
}.

Record Usage := {
  prompt_tokens : float;
  completion_tokens : float;
  total_tokens : float;
}.

Record ChatCompletionResponse := {
  ccr_id : string;
  choices : list Choice;
  ccr_usage : Usage;
}.

Record FileUploadResponse := {
  fu_id : string;
  fu_bytes : float;
  fu_filename : string;
}.

Record BatchRequest := {
  custom_id : string;
  br_method : string;
  br_url : string;
  br_body : ChatCompletionRequest;
}.

(** [BatchCreateResponse] and [BatchStatusResponse] declare the same
    fields. *)
Record BatchStatusResponse := {
  bsr_id : string;
  bsr_status : string;
  input_file_id : string;
  completion_window : string;
  error_file_id : option string;
  output_file_id : option string;
}.

Definition BatchCreateResponse := BatchStatusResponse.

End OpenAITypes.

Module GoogleTypes.

Record Part := { part_text : string }.

Record Content := {
  c_role : string;
  parts : list Part;
}.

Record GenerationConfig := {
  gc_temperature : option float;
  gc_topK : option float;
  gc_topP : option float;
  maxOutputTokens : option float;
  response_mime_type : option string;
  response_schema : option jsval;
}.

Record GeminiPromptRequest := {
  contents : list Content;
  generationConfig : GenerationConfig;
}.

Record CandidateContent := { cand_parts : list Part }.

Record Candidate := {
  cand_content : CandidateContent;
  finishReason : string;
}.

Record UsageMetadata := {
  promptTokenCount : float;
  candidatesTokenCount : float;
  totalTokenCount : float;
}.

Record GeminiPromptResponse := {
  candidates : list Candidate;
  usageMetadata : UsageMetadata;
}.

End GoogleTypes.

(* ================================================================= *)
(** ** The transport and the monad of the adapters *)

Module Effects.

(** What a call hands to [fetchFn] as [init.body]: the value that is
    serialised, or the form that is posted. *)
Inductive Body :=
| NoBody
| ChatBody (r : OpenAITypes.ChatCompletionRequest)
| GeminiBody (r : GoogleTypes.GeminiPromptRequest)
| BatchCreateBody (input_file_id endpoint completion_window : string)
| FormDataBody (purpose file_content file_type filename : string).

Record Request := {
  url : string;
  method : option string;
  headers : list (string * string);
  body : Body;
}.

(** The [Response] of one call: [ok] with the body that [json()] or
    [text()] resolves to, or not [ok] with the error payload. *)
Inductive Response (A : Type) :=
| HttpOk (payload : A)
| HttpFail (error : jsval).
Arguments HttpOk {A} payload.
Arguments HttpFail {A} error.

(** The injected [fetchFn], seen at the type its result is cast to at each
    call site; the answer may depend on the calls made before.  [Date_now i]
    is the reading of [Date.now()] in round [i] of the loop of
    [createBatch]. *)
Record Env := {
  fetch_chat :
    list Request -> Request -> Response OpenAITypes.ChatCompletionResponse;
  fetch_upload :
    list Request -> Request -> Response OpenAITypes.FileUploadResponse;
  fetch_batch_create :
    list Request -> Request -> Response OpenAITypes.BatchCreateResponse;
  fetch_batch_status :
    list Request -> Request -> Response OpenAITypes.BatchStatusResponse;
  fetch_batch_cancel : list Request -> Request -> Response unit;
  fetch_file_content : list Request -> Request -> Response string;
  fetch_generate :
    list Request -> Request -> Response GoogleTypes.GeminiPromptResponse;
  Date_now : nat -> N;
}.

Inductive exn :=
| Error (msg : string)
| TypeError (msg : string).

Definition message (e : exn) : string :=
  match e with Error m | TypeError m => m end.

(** [value.key] and [value[key]] on a value that was parsed at run time:
    reading a property of [undefined] or [null] throws. *)
Definition get (value : jsval) (key : string) : exn + jsval :=
  match value with
  | JUndefined =>
      inl (TypeError
             ("Cannot read properties of undefined (reading '" ++ key ++ "')"))
  | JNull =>
      inl (TypeError
             ("Cannot read properties of null (reading '" ++ key ++ "')"))
  | _ => inr (member value key)
  end.

(** [String(value)], the conversion that [JSON.parse] applies to its
    argument.  An array is the join of its items, [undefined] and [null]
    being empty there; an object prints as [[object Object]], unless it has
    a property [toString] of its own: that is no function, and the
    conversion throws. *)
#[warnings="-register-all"]
Fixpoint ToString `{Runtime} (value : jsval) : exn + string :=
  match value with
  | JUndefined => inr "undefined"
  | JNull => inr "null"
  | JBool b => inr (if b then "true" else "false")
  | JNum x => inr (Number_toString x)
  | JStr s => inr s
  | JArr items =>
      match
        (fix elements (l : list jsval) : exn + list string :=
           match l with
           | [] => inr []
           | x :: r =>
               match (if nullish x then inr "" else ToString x) with
               | inl e => inl e
               | inr t =>
                   match elements r with
                   | inl e => inl e
                   | inr ts => inr (t :: ts)
                   end
               end
           end) items
      with
      | inl e => inl e
      | inr ts => inr (join "," ts)
      end
  | JObj props =>
      if existsb (fun kv => String.eqb (fst kv) "toString") props
      then inl (TypeError "Cannot convert object to primitive value")
      else inr "[object Object]"
  end.

(** A computation reads and extends the log of [fetchFn] calls and either
    throws or returns. *)
Definition M (A : Type) : Type := list Request -> (exn + A) * list Request.

Definition ret {A} (a : A) : M A := fun log => (inr a, log).

Definition throw {A} (e : exn) : M A := fun log => (inl e, log).

Definition bind {A B} (m : M A) (k : A -> M B) : M B :=
  fun log =>
    match m log with
    | (inl e, log') => (inl e, log')
    | (inr a, log') => k a log'
    end.

#[global] Instance M_ret : MRet M := @ret.
#[global] Instance M_bind : MBind M := fun A B k m => bind m k.

(** One call of [fetchFn]. *)
Definition fetch {A} (view : list Request -> Request -> Response A)
    (req : Request) : M (Response A) :=
  fun log => (inr (view log req), (log ++ [req])%list).

(** Lifting of a pure partial result. *)
Definition lift {A} (r : exn + A) : M A :=
  match r with inl e => throw e | inr a => ret a end.

End Effects.
Export Effects.

(* ================================================================= *)
(** ** Structure instruction shared by both adapters *)

Module Structure.

(** The replacer passed to [JSON.stringify] in [enhancePromptWithStructure]:
    a non-empty array becomes an array with one representative item. *)
Definition replacer (value : jsval) : jsval :=
  match value with
  | JArr (first :: _) =>
      JArr [if String.eqb (typeof first) "object" then JObj [] else JStr "example"]
  | _ => value
  end.

(** [JSON.stringify] calls the replacer on the root and then on every
    property of what the replacer returned; on what [replacer] returns for
    an array there is nothing left to replace. *)
#[warnings="-register-all"]
Fixpoint replaced (value : jsval) : jsval :=
  match value with
  | JArr (first :: _) => replacer value
  | JObj props =>
      JObj ((fix go (l : list (string * jsval)) :=
               match l with
               | [] => []
               | (k, v) :: r => (k, replaced v) :: go r
               end) props)
  | _ => value
  end.

Definition instruction : string :=
  "Please provide the response in the following JSON structure: ".

Section WithRuntime.
Context `{Runtime}.

Definition structure (sampleObj : jsval) : string :=
  if String.eqb (typeof sampleObj) "object"
  then JSON_stringify (replaced sampleObj) 2
  else typeof sampleObj.

(** [enhancePromptWithStructure], the same text in both adapters, as a
    function of the contents of the array it is given. *)
Definition enhancePromptWithStructure (messages : list PromptMessage)
    (sampleObj : jsval) : list PromptMessage :=
  let enhancedMessages := messages in
  let structure := structure sampleObj in
  match findLastIndex (fun m => Role_eqb (role m) user) enhancedMessages with
  | Some lastUserMessageIndex =>
      match enhancedMessages !! lastUserMessageIndex with
      | Some m =>
          <[lastUserMessageIndex :=
              {| role := role m;
                 content := content m ++ nl ++ nl ++ instruction ++ structure |}]>
            enhancedMessages
      | None => enhancedMessages
      end
  | None =>
      (enhancedMessages
         ++ [{| role := user; content := instruction ++ structure |}])%list
  end.

(** [parseJsonResponse], the same text in both adapters. *)
Definition parseJsonResponse (text : string) : exn + jsval :=
  match JSON_parse text with
  | inr v => inr v
  | inl error => inl (Error ("Failed to parse JSON response: " ++ error))
  end.

End WithRuntime.

(** [options.sampleObj && typeof options.sampleObj !== 'string'], as the
    conditions that test it see it. *)
Definition needsStructuredOutput (sampleObj : jsval) : bool :=
  truthy sampleObj && negb (String.eqb (typeof sampleObj) "string").

(** The message of the error thrown when no message names JSON. *)
Definition json_required : string :=
  "A message for a structured output must contain " ++ dq ++ "json" ++ dq.

(** [m.content.toLowerCase().includes('json')]. *)
Definition mentions_json (m : PromptMessage) : bool :=
  includes (toLowerCase (content m)) "json".

End Structure.
Export Structure.

(* ================================================================= *)
(** ** [src/providers/openai.ts] *)

Module OpenAIProvider.
Import OpenAITypes.

(** The fields set by the constructor. *)
Record t := {
  apiKey : string;
  baseUrl : string;
  fetchFn : Env;
}.

Definition default_baseUrl : string := "https://api.openai.com/v1".

Definition getModels : list ModelInfo :=
  [ {| mi_id := "gpt-4o-mini";
       mi_name := GPT4oMini;
       mi_provider := OpenAI;
       capabilities := {| structuredOutput := true; batchRequests := true |} |} ].

Definition formatMessages (messages : list PromptMessage) : list WireMessage :=
  map (fun msg => {| wm_role := Role_str (role msg); wm_content := content msg |})
      messages.

(** [parseJsonResponse] and [enhancePromptWithStructure] have the same text
    in both adapters. *)
Abbreviation parseJsonResponse := Structure.parseJsonResponse (only parsing).
Abbreviation enhancePromptWithStructure :=
  Structure.enhancePromptWithStructure (only parsing).

(** The value of the [Authorization] header. *)
Definition authorization (self : t) : string :=
  (if startsWith (apiKey self) "Bearer " then "" else "Bearer ") ++ apiKey self.

(** [options.temperature ?? 0.7]; the literal is the binary64 nearest to
    0.7. *)
Definition default_temperature : float := 0x1.6666666666666p-1%float.

Definition temperature_or_default (o : option float) : option float :=
  Some (default default_temperature o).

(** The request objects as JavaScript values, for [JSON.stringify]. *)
Definition js_opt_num (o : option float) : jsval :=
  match o with Some x => JNum x | None => JUndefined end.

Definition js_opt_str (o : option string) : jsval :=
  match o with Some s => JStr s | None => JUndefined end.

Definition js_of_message (m : WireMessage) : jsval :=
  JObj [("role", JStr (wm_role m)); ("content", JStr (wm_content m))].

Definition js_of_chat (r : ChatCompletionRequest) : jsval :=
  JObj ([("model", JStr (cr_model r));
         ("messages", JArr (map js_of_message (cr_messages r)));
         ("temperature", js_opt_num (cr_temperature r));
         ("max_tokens", js_opt_num (max_tokens r));
         ("top_p", js_opt_num (top_p r));
         ("frequency_penalty", js_opt_num (frequency_penalty r));
         ("presence_penalty", js_opt_num (presence_penalty r))]
        ++ match cr_user r with Some u => [("user", JStr u)] | None => [] end
        ++ match cr_seed r with Some x => [("seed", JNum x)] | None => [] end
        ++ match response_format r with
           | Some json_object => [("response_format", JObj [("type", JStr "json_object")])]
           | Some text_format => [("response_format", JObj [("type", JStr "text")])]
           | None => []
           end)%list.

Definition js_of_batch_request (r : BatchRequest) : jsval :=
  JObj [("custom_id", JStr (custom_id r));
        ("method", JStr (br_method r));
        ("url", JStr (br_url r));
        ("body", js_of_chat (br_body r))].

Definition find_model (model : ModelName) : option ModelInfo :=
  find (fun m => ModelName_eqb (mi_name m) model) getModels.

Definition mapOpenAIBatchStatus (status : string) : Status :=
  if String.eqb status "validating" then processing
  else if String.eqb status "processing" then processing
  else if String.eqb status "completed" then completed
  else if String.eqb status "failed" then failed
  else if String.eqb status "cancelled" then failed
  else if String.eqb status "cancelling" then failed
  else if String.eqb status "expired" then failed
  else pending.

(** [batchId.includes('_') ? batchId.split('_').slice(1).join('_') : batchId]. *)
Definition actualBatchId (batchId : string) : string :=
  if includes batchId "_"
  then join "_" (slice1 (split "_"%char batchId))
  else batchId.

(** [Math.min(Math.max(Math.ceil(seconds / 3600), 1), 24)]: the least whole
    number of hours from 1 to 24 that covers the quotient, 24 when none
    does. *)
Definition hours_of (seconds : float) : nat :=
  let q := PrimFloat.div seconds 3600%float in
  default 24%nat
    (find (fun n => PrimFloat.leb q (PrimFloat.of_uint63 (Uint63.of_Z (Z.of_nat n))))
          (seq 1 24)).

Section Methods.
Context `{Runtime}.
Variable self : t.

Definition uploadFile (content : string) : M string :=
  response ← fetch (fetch_upload (fetchFn self))
    {| url := baseUrl self ++ "/files";
       method := Some "POST";
       headers := [("Authorization", authorization self)];
       body := FormDataBody "batch" content "application/jsonl" "batch.jsonl" |};
  match response with
  | HttpFail error =>
      throw (Error ("Failed to upload file: " ++ JSON_stringify error 0))
  | HttpOk data => mret (fu_id data)
  end.

Definition prompt (messages : list PromptMessage) (model : ModelName)
    (options : LLMRequestOptions) : M CompletionResponse :=
  match find_model model with
  | None => throw (Error ("Model not found: " ++ ModelName_str model))
  | Some modelInfo =>
      let needsStructuredOutput := needsStructuredOutput (sampleObj options) in
      if needsStructuredOutput && negb (existsb mentions_json messages)
      then throw (Error json_required)
      else
        let formattedMessages :=
          if needsStructuredOutput && negb (structuredOutput (capabilities modelInfo))
          then enhancePromptWithStructure messages (sampleObj options)
          else messages in
        let requestBody :=
          {| cr_model := mi_id modelInfo;
             cr_messages := formatMessages formattedMessages;
             cr_temperature := temperature_or_default (temperature options);
             max_tokens := maxTokens options;
             top_p := topP options;
             frequency_penalty := frequencyPenalty options;
             presence_penalty := presencePenalty options;
             response_format :=
               if needsStructuredOutput && structuredOutput (capabilities modelInfo)
               then Some json_object else None;
             cr_user :=
               if truthy_str (agentName options) || truthy_str (user_ options)
               then or_str (user_ options) (agentName options) else None;
             cr_seed :=
               match seed options with
               | Some s => Some s
               | None => providerParams_seed options
               end |} in
        response ← fetch (fetch_chat (fetchFn self))
          {| url := baseUrl self ++ "/chat/completions";
             method := Some "POST";
             headers := [("Content-Type", "application/json");
                         ("Authorization", authorization self)];
             body := ChatBody requestBody |};
        match response with
        | HttpFail error =>
            throw (Error ("OpenAI API error: " ++ JSON_stringify error 0))
        | HttpOk responseData =>
            match choices responseData with
            | [] =>
                throw (TypeError
                  "Cannot read properties of undefined (reading 'message')")
            | choice :: _ =>
                let text := wm_content (ch_message choice) in
                let data :=
                  if needsStructuredOutput
                  then match parseJsonResponse text with
                       | inr v => v
                       | inl _ => JStr text
                       end
                  else JStr text in
                mret {| text := text;
                        data := data;
                        usage :=
                          {| promptTokens := prompt_tokens (ccr_usage responseData);
                             completionTokens := completion_tokens (ccr_usage responseData);
                             totalTokens := total_tokens (ccr_usage responseData) |};
                        model := ModelType OpenAI model;
                        provider := OpenAI |}
            end
        end
  end.


Definition MAX_BATCH_REQUESTS : N := 50000.

(** The correlation id of item [i], read [now] being [Date.now()]. *)
Definition requestId_of (options : BatchRequestOptions) (now : N) (i : nat)
    (prompt : Types.BatchRequest) : string :=
  let requestId := pretty now ++ "_" ++ pretty i in
  let requestId :=
    match batchName options with
    | Some b => if nonempty b then strip_non_alnum b ++ "_" ++ requestId else requestId
    | None => requestId
    end in
  let requestId :=
    match agentName (base options) with
    | Some a => if nonempty a then strip_non_alnum a ++ "_" ++ requestId else requestId
    | None => requestId
    end in
  match br_id prompt with
  | Some id => if nonempty (strip_non_alnum id) then strip_non_alnum id else requestId
  | None => requestId
  end.

(** [prompts.some(m => m.messages.some(msg =>
    msg.content.toLowerCase().includes('json')))]: the items are visited in
    order until one has such a message. *)
Fixpoint some_mentions_json (prompts : list Types.BatchRequest) : exn + bool :=
  match prompts with
  | [] => inr false
  | m :: rest =>
      match br_messages m with
      | None =>
          inl (TypeError "Cannot read properties of undefined (reading 'some')")
      | Some messages =>
          if existsb mentions_json messages then inr true
          else some_mentions_json rest
      end
  end.

(** The request body of one item. *)
Definition chatRequest_of (modelInfo : ModelInfo) (options : BatchRequestOptions)
    (needsStructuredOutput : bool) (messages : list PromptMessage)
    : ChatCompletionRequest :=
  {| cr_model := mi_id modelInfo;
     cr_messages :=
       if needsStructuredOutput && negb (structuredOutput (capabilities modelInfo))
       then formatMessages
              (enhancePromptWithStructure messages (sampleObj (base options)))
       else formatMessages messages;
     cr_temperature := temperature_or_default (temperature (base options));
     max_tokens := maxTokens (base options);
     top_p := topP (base options);
     frequency_penalty := frequencyPenalty (base options);
     presence_penalty := presencePenalty (base options);
     response_format :=
       if needsStructuredOutput && structuredOutput (capabilities modelInfo)
       then Some json_object else None;
     cr_user :=
       if truthy_str (user_ (base options)) || truthy_str (agentName (base options))
       then or_str (user_ (base options)) (agentName (base options)) else None;
     cr_seed :=
       if truthy_optnum (providerParams_seed (base options))
       then providerParams_seed (base options) else None |}.

(** The loop of [createBatch] from round [i] on, with the requests and the
    document built so far. *)
Fixpoint createBatch_loop (modelInfo : ModelInfo) (options : BatchRequestOptions)
    (needsStructuredOutput : bool) (i : nat) (prompts : list Types.BatchRequest)
    (batchReqs : list BatchRequest) (jsonl : string)
    : exn + (list BatchRequest * string) :=
  match prompts with
  | [] => inr (batchReqs, jsonl)
  | prompt :: rest =>
      let requestId := requestId_of options (Date_now (fetchFn self) i) i prompt in
      let messages := default [] (br_messages prompt) in
      if (length messages =? 0)%nat
      then inl (Error ("Prompt " ++ pretty i ++ " is empty"))
      else if (2048 <? N.of_nat (length messages))%N
      then inl (Error ("Prompt " ++ pretty i
                       ++ " exceeds the maximum number of messages (2048)"))
      else
        let chatRequest :=
          chatRequest_of modelInfo options needsStructuredOutput messages in
        let batchRequest :=
          {| custom_id := requestId;
             br_method := "POST";
             br_url := "/v1/chat/completions";
             br_body := chatRequest |} in
        let batchReqs := (batchReqs ++ [batchRequest])%list in
        let jsonl :=
          jsonl ++ JSON_stringify (js_of_batch_request batchRequest) 0 ++ nl in
        if (200000000 <? N.of_nat (utf16_length jsonl))%N
        then inl (Error "The total size of the batch requests exceeds 200MB")
        else createBatch_loop modelInfo options needsStructuredOutput (S i) rest
               batchReqs jsonl
  end.

Definition createBatch (prompts : list Types.BatchRequest) (model : ModelName)
    (options : BatchRequestOptions) : M CreateBatchResponse :=
  match find_model model with
  | None => throw (Error ("Model not found: " ++ ModelName_str model))
  | Some modelInfo =>
      if negb (batchRequests (capabilities modelInfo))
      then throw (Error ("Model " ++ ModelName_str model
                         ++ " does not support batch requests"))
      else if (MAX_BATCH_REQUESTS <? N.of_nat (length prompts))%N
      then throw (Error ("Maximum number of requests in a batch is "
                         ++ pretty MAX_BATCH_REQUESTS))
      else
        let needsStructuredOutput :=
          needsStructuredOutput (sampleObj (base options)) in
        mentioned ←
          (if needsStructuredOutput then lift (some_mentions_json prompts)
           else mret true);
        if negb mentioned
        then throw (Error json_required)
        else
          '(batchReqs, jsonl) ←
            lift (createBatch_loop modelInfo options needsStructuredOutput 0
                    prompts [] "");
          fileId ← uploadFile jsonl;
          let completion_window :=
            match timeoutSeconds options with
            | Some seconds =>
                if truthy_num seconds then pretty (hours_of seconds) ++ "h"
                else "24h"
            | None => "24h"
            end in
          response ← fetch (fetch_batch_create (fetchFn self))
            {| url := baseUrl self ++ "/batches";
               method := Some "POST";
               headers := [("Content-Type", "application/json");
                           ("Authorization", authorization self)];
               body := BatchCreateBody fileId "/v1/chat/completions"
                         completion_window |};
          match response with
          | HttpFail error =>
              throw (Error ("Failed to create batch: " ++ JSON_stringify error 0))
          | HttpOk batchResponse =>
              mret {| requestIds := map custom_id batchReqs;
                      batchId := bsr_id batchResponse |}
          end
  end.

Definition checkBatch (batchId : string) (model : ModelName) : M BatchStatus :=
  let actualBatchId := actualBatchId batchId in
  response ← fetch (fetch_batch_status (fetchFn self))
    {| url := baseUrl self ++ "/batches/" ++ actualBatchId;
       method := None;
       headers := [("Authorization", authorization self)];
       body := NoBody |};
  match response with
  | HttpFail error =>
      throw (Error ("Failed to check batch status: " ++ JSON_stringify error 0))
  | HttpOk statusData =>
      mret {| bs_id := batchId;
              status := mapOpenAIBatchStatus (bsr_status statusData);
              outputFileId := output_file_id statusData;
              error :=
                match error_file_id statusData with
                | Some f => if nonempty f then Some ("Error file ID: " ++ f) else None
                | None => None
                end |}
  end.

(** What one round of the loop of [retrieveBatch] does with a line. *)
Inductive LineOutcome :=
| Skipped
| Pushed (r : RetrievedResponse)
| Thrown (e : exn).

(** The rest of a round after a property is read: a [TypeError] of the
    read leaves the loop, outside the two [try] blocks as it is. *)
Definition reading (read : exn + jsval) (rest : jsval -> LineOutcome)
    : LineOutcome :=
  match read with
  | inl e => Thrown e
  | inr value => rest value
  end.

(** [response.custom_id.split('_')]: strings alone have the method. *)
Definition custom_id_split (custom_id : jsval) : exn + list string :=
  match custom_id with
  | JStr s => inr (split "_"%char s)
  | JUndefined =>
      inl (TypeError "Cannot read properties of undefined (reading 'split')")
  | JNull =>
      inl (TypeError "Cannot read properties of null (reading 'split')")
  | _ => inl (TypeError "response.custom_id.split is not a function")
  end.

(** One round of the loop of [retrieveBatch].  [response] is what
    [JSON.parse] returns, whatever its shape.  The warnings written to the
    console and the request index, which is computed from the pieces of
    [custom_id] and never used, leave no trace in the result. *)
Definition retrieve_line (model : ModelName) (sampleObj : jsval)
    (rawResponse : string) : LineOutcome :=
  match JSON_parse rawResponse with
  | inl _ => Skipped
  | inr response =>
      reading (get response "error") (fun response_error =>
      if truthy response_error then Skipped
      else
        reading (get response "response") (fun response_response =>
        if negb (truthy response_response) then Skipped
        else
        reading (get response_response "body") (fun body =>
        reading (get body "choices") (fun choices =>
        reading (get choices "0") (fun choice =>
        reading (get choice "message") (fun message =>
        reading (get message "content") (fun responseText =>
        let push (parsedData : jsval) : LineOutcome :=
          reading (get response "custom_id") (fun custom_id =>
          match custom_id_split custom_id with
          | inl e => Thrown e
          | inr requestIdParts =>
              reading (get body "usage") (fun usage =>
              reading (get usage "prompt_tokens") (fun prompt_tokens =>
              reading (get usage "completion_tokens") (fun completion_tokens =>
              reading (get usage "total_tokens") (fun total_tokens =>
              Pushed
                {| r_text := responseText;
                   r_data := parsedData;
                   r_usage :=
                     {| r_promptTokens := prompt_tokens;
                        r_completionTokens := completion_tokens;
                        r_totalTokens := total_tokens |};
                   r_model := ModelType OpenAI model;
                   r_provider := OpenAI |}))))
          end) in
        if truthy sampleObj && String.eqb (typeof sampleObj) "object"
        then match ToString responseText with
             | inl _ => Skipped
             | inr text =>
                 match parseJsonResponse text with
                 | inr parsedData => push parsedData
                 | inl _ => Skipped
                 end
             end
        else push responseText)))))))
  end.

Fixpoint retrieve_loop (model : ModelName) (sampleObj : jsval)
    (rawResponses : list string) (responses : list RetrievedResponse)
    : exn + list RetrievedResponse :=
  match rawResponses with
  | [] => inr responses
  | rawResponse :: rest =>
      match retrieve_line model sampleObj rawResponse with
      | Skipped => retrieve_loop model sampleObj rest responses
      | Pushed r => retrieve_loop model sampleObj rest (responses ++ [r])%list
      | Thrown e => inl e
      end
  end.

Definition retrieveBatch (batchId : string) (model : ModelName)
    (sampleObj : jsval) : M (list RetrievedResponse) :=
  status ← checkBatch batchId model;
  match Types.status status with
  | completed =>
      match outputFileId status with
      | Some fileId =>
          if nonempty fileId then
            fileContentResponse ← fetch (fetch_file_content (fetchFn self))
              {| url := baseUrl self ++ "/files/" ++ fileId ++ "/content";
                 method := None;
                 headers := [("Authorization", authorization self)];
                 body := NoBody |};
            match fileContentResponse with
            | HttpFail error =>
                throw (Error ("Failed to retrieve batch results: "
                              ++ JSON_stringify error 0))
            | HttpOk jsonlContent =>
                let rawResponses := split LF (trim jsonlContent) in
                lift (retrieve_loop model sampleObj rawResponses [])
            end
          else throw (Error "No output file ID found for completed batch")
      | None => throw (Error "No output file ID found for completed batch")
      end
  | s =>
      throw (Error ("Batch " ++ batchId ++ " is not completed yet (status: "
                    ++ Status_str s ++ ")"))
  end.

Definition cancelBatch (batchId : string) (model : ModelName) : M bool :=
  let actualBatchId := actualBatchId batchId in
  response ← fetch (fetch_batch_cancel (fetchFn self))
    {| url := baseUrl self ++ "/batches/" ++ actualBatchId ++ "/cancel";
       method := Some "POST";
       headers := [("Content-Type", "application/json");
                   ("Authorization", authorization self)];
       body := NoBody |};
  match response with
  | HttpFail error =>
      throw (Error ("Failed to cancel batch: " ++ JSON_stringify error 0))
  | HttpOk _ => mret true
  end.

End Methods.

End OpenAIProvider.

(* ================================================================= *)
(** ** [src/providers/google.ts] *)

Module GoogleProvider.
Import GoogleTypes.

Record t := {
  apiKey : string;
  baseUrl : string;
  fetchFn : Env;
}.

Definition default_baseUrl : string :=
  "https://generativelanguage.googleapis.com/v1".

Definition getModels : list ModelInfo :=
  [ {| mi_id := "gemini-2.0-flash";
       mi_name := Gemini2Flash;
       mi_provider := Google;
       capabilities := {| structuredOutput := true; batchRequests := false |} |};
    {| mi_id := "gemini-1.5-pro";
       mi_name := Gemini15;
       mi_provider := Google;
       capabilities := {| structuredOutput := true; batchRequests := false |} |} ].

Definition find_model (model : ModelName) : option ModelInfo :=
  find (fun m => ModelName_eqb (mi_name m) model) getModels.

Definition formatMessages (messages : list PromptMessage) : list Content :=
  map (fun msg =>
         {| c_role := match role msg with assistant => "model" | _ => "user" end;
            parts := [{| part_text := content msg |}] |})
      messages.

Abbreviation parseJsonResponse := Structure.parseJsonResponse (only parsing).
Abbreviation enhancePromptWithStructure :=
  Structure.enhancePromptWithStructure (only parsing).

(** Map JavaScript types to Google schema types. *)
Definition getGoogleSchemaType (jsType : string) : string :=
  if String.eqb jsType "string" then "STRING"
  else if String.eqb jsType "number" then "NUMBER"
  else if String.eqb jsType "boolean" then "BOOLEAN"
  else "STRING".

(** [objectToGoogleSchema]; the result is the object literal the code
    returns, or [null]. *)
#[warnings="-register-all"]
Fixpoint objectToGoogleSchema (sampleObj : jsval) : jsval :=
  match sampleObj with
  | JNull | JUndefined => JNull
  | JBool _ | JNum _ | JStr _ =>
      JObj [("type", JStr (getGoogleSchemaType (typeof sampleObj)))]
  | JArr [] =>
      JObj [("type", JStr "ARRAY"); ("items", JObj [("type", JStr "STRING")])]
  | JArr (first :: _) =>
      JObj [("type", JStr "ARRAY"); ("items", objectToGoogleSchema first)]
  | JObj entries =>
      let properties :=
        (fix loop (entries : list (string * jsval))
             (properties : list (string * jsval)) :=
           match entries with
           | [] => properties
           | (key, value) :: rest =>
               loop rest (prop_set key (objectToGoogleSchema value) properties)
           end) entries [] in
      JObj [("type", JStr "OBJECT"); ("properties", JObj properties)]
  end.

(** [s.endsWith(suffix)]. *)
Fixpoint endsWith (s suffix : string) : bool :=
  String.eqb s suffix ||
  match s with
  | EmptyString => false
  | String _ r => endsWith r suffix
  end.

(** [baseUrl.replace(/\/v1$/, '/v1beta')]. *)
Definition v1beta (baseUrl : string) : string :=
  if endsWith baseUrl "/v1" then baseUrl ++ "beta" else baseUrl.

Definition default_temperature : float := 0x1.6666666666666p-1%float.

Section Methods.
Context `{Runtime}.
Variable self : t.

Definition prompt (messages : list PromptMessage) (model : ModelName)
    (options : LLMRequestOptions) : M CompletionResponse :=
  match find_model model with
  | None => throw (Error ("Model not found: " ++ ModelName_str model))
  | Some modelInfo =>
      let needsStructuredOutput := needsStructuredOutput (sampleObj options) in
      let supported := structuredOutput (capabilities modelInfo) in
      let formattedMessages :=
        if needsStructuredOutput && negb supported
        then enhancePromptWithStructure messages (sampleObj options)
        else messages in
      let requestBody :=
        {| contents := formatMessages formattedMessages;
           generationConfig :=
             {| gc_temperature :=
                  Some (default default_temperature (temperature options));
                gc_topK := topK options;
                gc_topP := topP options;
                maxOutputTokens := maxTokens options;
                response_mime_type :=
                  if needsStructuredOutput then Some "application/json" else None;
                response_schema :=
                  if needsStructuredOutput && supported
                  then Some (objectToGoogleSchema (sampleObj options))
                  else None |} |} in
      let baseUrl :=
        if needsStructuredOutput then v1beta (baseUrl self) else baseUrl self in
      response ← fetch (fetch_generate (fetchFn self))
        {| url := baseUrl ++ "/models/" ++ mi_id modelInfo
                    ++ ":generateContent?key=" ++ apiKey self;
           method := Some "POST";
           headers := [("Content-Type", "application/json")];
           body := GeminiBody requestBody |};
      match response with
      | HttpFail error =>
          throw (Error ("Google API error: " ++ JSON_stringify error 0))
      | HttpOk responseData =>
          match candidates responseData with
          | [] =>
              throw (TypeError
                "Cannot read properties of undefined (reading 'content')")
          | candidate :: _ =>
              match cand_parts (cand_content candidate) with
              | [] =>
                  throw (TypeError
                    "Cannot read properties of undefined (reading 'text')")
              | part :: _ =>
                  let text := part_text part in
                  let data :=
                    if needsStructuredOutput
                    then match parseJsonResponse text with
                         | inr v => v
                         | inl _ => JStr text
                         end
                    else JStr text in
                  mret {| text := text;
                          data := data;
                          usage :=
                            {| promptTokens :=
                                 promptTokenCount (usageMetadata responseData);
                               completionTokens :=
                                 candidatesTokenCount (usageMetadata responseData);
                               totalTokens :=
                                 totalTokenCount (usageMetadata responseData) |};
                          model := ModelType Google model;
                          provider := Google |}
              end
          end
      end
  end.

Definition createBatch (prompts : list (list PromptMessage)) (model : ModelName)
    (options : BatchRequestOptions) : M string :=
  match find_model model with
  | None => throw (Error ("Model not found: " ++ ModelName_str model))
  | Some modelInfo =>
      throw (Error
        ("Batch requests are not supported by the Google Gemini API for model "
         ++ ModelName_str model))
  end.

Definition checkBatch (batchId : string) (model : ModelName) : M BatchStatus :=
  match find_model model with
  | None => throw (Error ("Model not found: " ++ ModelName_str model))
  | Some modelInfo =>
      throw (Error
        ("Batch operations are not supported by the Google Gemini API for model "
         ++ ModelName_str model))
  end.

Definition retrieveBatch (batchId : string) (model : ModelName)
    (sampleObj : jsval) : M (list RetrievedResponse) :=
  match find_model model with
  | None => throw (Error ("Model not found: " ++ ModelName_str model))
  | Some modelInfo =>
      throw (Error
        ("Batch operations are not supported by the Google Gemini API for model "
         ++ ModelName_str model))
  end.

Definition cancelBatch (batchId : string) (model : ModelName) : M bool :=
  match find_model model with
  | None => throw (Error ("Model not found: " ++ ModelName_str model))
  | Some modelInfo =>
      throw (Error
        ("Batch operations are not supported by the Google Gemini API for model "
         ++ ModelName_str model))
  end.

End Methods.

End GoogleProvider.

(* ================================================================= *)
(** ** Arrays and objects shared with the caller *)

Module Heap.

(** Message arrays, message objects and request objects are JavaScript
    objects: the caller and the library hold references to them.  The store
    maps a reference to what it points to. *)
Definition loc := positive.

Inductive cell :=
| CMsg (m : PromptMessage)
| CArr (items : list loc)
| CReq (id : option string) (messages : loc).

Abbreviation heap := (gmap loc cell).

(** Computations on the store; [None] is a reference that points to nothing
    or to an object of another kind. *)
Definition H (A : Type) : Type := heap -> option (A * heap).

Definition hret {A} (a : A) : H A := fun h => Some (a, h).

Definition hbind {A B} (m : H A) (k : A -> H B) : H B :=
  fun h => match m h with Some (a, h') => k a h' | None => None end.

#[global] Instance H_ret : MRet H := @hret.
#[global] Instance H_bind : MBind H := fun A B k m => hbind m k.

(** A new object. *)
Definition alloc (c : cell) : H loc :=
  fun h => let l := fresh (dom h) in Some (l, <[l := c]> h).

Definition read_arr (l : loc) : H (list loc) :=
  fun h => match h !! l with Some (CArr items) => Some (items, h) | _ => None end.

Definition read_msg (l : loc) : H PromptMessage :=
  fun h => match h !! l with Some (CMsg m) => Some (m, h) | _ => None end.

Definition read (l : loc) : H cell :=
  fun h => match h !! l with Some c => Some (c, h) | None => None end.

(** [arr[i] = x] and [arr.push(x)] on the array at [l]. *)
Definition write_arr (l : loc) (items : list loc) : H unit :=
  fun h => match h !! l with
           | Some (CArr _) => Some (tt, <[l := CArr items]> h)
           | _ => None
           end.

Fixpoint read_msgs (ls : list loc) : H (list PromptMessage) :=
  match ls with
  | [] => mret []
  | l :: r => m ← read_msg l; ms ← read_msgs r; mret (m :: ms)
  end.

(** The messages an array reference stands for. *)
Definition deref_messages (l : loc) : H (list PromptMessage) :=
  items ← read_arr l; read_msgs items.

(** [enhancePromptWithStructure] on references: the array is copied, the
    last user message is replaced in the copy by a new object, or a new
    message is pushed onto the copy. *)
Definition enhancePromptWithStructure `{Runtime} (messages : loc)
    (sampleObj : jsval) : H loc :=
  items ← read_arr messages;
  enhancedMessages ← alloc (CArr items);
  let structure := structure sampleObj in
  msgs ← read_msgs items;
  match findLastIndex (fun m => Role_eqb (role m) user) msgs with
  | Some lastUserMessageIndex =>
      match msgs !! lastUserMessageIndex with
      | Some m =>
          replaced ← alloc (CMsg
            {| role := role m;
               content := content m ++ nl ++ nl ++ instruction ++ structure |});
          _ ← write_arr enhancedMessages (<[lastUserMessageIndex := replaced]> items);
          mret enhancedMessages
      | None => mret enhancedMessages
      end
  | None =>
      pushed ← alloc (CMsg {| role := user; content := instruction ++ structure |});
      _ ← write_arr enhancedMessages (items ++ [pushed])%list;
      mret enhancedMessages
  end.

(** The references among [ls] whose message satisfies [p], in order. *)
Fixpoint filter_refs (p : PromptMessage -> bool) (ls : list loc) : H (list loc) :=
  match ls with
  | [] => mret []
  | l :: r =>
      m ← read_msg l;
      keep ← filter_refs p r;
      mret (if p m then l :: keep else keep)
  end.

(** The reference [l] points to the message object [m]. *)
Definition points_to (h : heap) (l : loc) (m : PromptMessage) : Prop :=
  h !! l = Some (CMsg m).

(** Every object of [h] other than the one at [p] is the same in [h']. *)
Definition same_except (p : loc) (h h' : heap) : Prop :=
  forall l c, l <> p -> h !! l = Some c -> h' !! l = Some c.

End Heap.
Export Heap.

(* ================================================================= *)
(** ** [src/agents.ts] *)

Module LLMAgent.

(** An element of [PromptMessage[][] | BatchRequest[]], as the adapter sees
    it once it is read from the store. *)
Inductive Prompt :=
| PlainPrompt (messages : list PromptMessage)
| RequestPrompt (id : option string) (messages : list PromptMessage).

(** What [createBatch] of an adapter resolves to. *)
Inductive BatchCreated :=
| JobId (id : string)
| Created (r : CreateBatchResponse).

(** [providerInstance]: the operations of the interface [LLMProvider] that
    the agent calls.  The adapters read the arrays they are given and write
    to none of them, so they are given the contents. *)
Record ProviderInstance := {
  pi_prompt :
    list PromptMessage -> ModelName -> LLMRequestOptions -> M CompletionResponse;
  pi_createBatch :
    list Prompt -> ModelName -> BatchRequestOptions -> M BatchCreated;
  pi_checkBatch : string -> ModelName -> M BatchStatus;
  pi_retrieveBatch : string -> ModelName -> jsval -> M (list RetrievedResponse);
  pi_cancelBatch : string -> ModelName -> M bool;
}.

Definition prompt_messages (p : Prompt) : list PromptMessage :=
  match p with PlainPrompt ms | RequestPrompt _ ms => ms end.

(** What the OpenAI adapter reads from an item: an array has neither [id]
    nor [messages]. *)
Definition as_request (p : Prompt) : Types.BatchRequest :=
  match p with
  | PlainPrompt _ => {| br_id := None; br_messages := None |}
  | RequestPrompt id ms => {| br_id := id; br_messages := Some ms |}
  end.

Definition google_instance `{Runtime} (g : GoogleProvider.t) : ProviderInstance :=
  {| pi_prompt := GoogleProvider.prompt g;
     pi_createBatch := fun prompts model options =>
       id ← GoogleProvider.createBatch (map prompt_messages prompts) model options;
       mret (JobId id);
     pi_checkBatch := GoogleProvider.checkBatch;
     pi_retrieveBatch := GoogleProvider.retrieveBatch;
     pi_cancelBatch := GoogleProvider.cancelBatch |}.

Definition openai_instance `{Runtime} (o : OpenAIProvider.t) : ProviderInstance :=
  {| pi_prompt := OpenAIProvider.prompt o;
     pi_createBatch := fun prompts model options =>
       r ← OpenAIProvider.createBatch o (map as_request prompts) model options;
       mret (Created r);
     pi_checkBatch := OpenAIProvider.checkBatch o;
     pi_retrieveBatch := OpenAIProvider.retrieveBatch o;
     pi_cancelBatch := OpenAIProvider.cancelBatch o |}.

(** The fields of an agent. *)
Record t := {
  name : string;
  modelName : ModelName;
  provider : Provider;
  basePrompt : string;
  providerInstance : ProviderInstance;
  sampleObj : jsval;
}.

Definition hfail {A} : H A := fun _ => None.

Section Methods.
Variable self : t.

(** Helper to prepend the base prompt to messages. *)
Definition prependBasePrompt (messages : loc) : H loc :=
  if negb (nonempty (basePrompt self)) then mret messages
  else
    items ← read_arr messages;
    system ← alloc (CMsg {| role := developer; content := basePrompt self |});
    kept ← filter_refs (fun m => negb (Role_eqb (role m) developer)) items;
    alloc (CArr (system :: kept)).

(** [{ ...options, agentName: this.name, sampleObj: this.sampleObj }]. *)
Definition optionsWithAgent (options : LLMRequestOptions) : LLMRequestOptions :=
  {| temperature := temperature options;
     topK := topK options;
     topP := topP options;
     maxTokens := maxTokens options;
     frequencyPenalty := frequencyPenalty options;
     presencePenalty := presencePenalty options;
     Types.sampleObj := sampleObj self;
     agentName := Some (name self);
     user_ := user_ options;
     seed := seed options;
     providerParams_seed := providerParams_seed options |}.

Definition batchOptionsWithAgent (options : BatchRequestOptions)
    : BatchRequestOptions :=
  {| base := optionsWithAgent (base options);
     batchName := batchName options;
     priority := priority options;
     timeoutSeconds := timeoutSeconds options;
     failureThreshold := failureThreshold options |}.

(** The handler of the batch operations: an agent on Google replaces
    whatever was thrown. *)
Definition unsupported : string :=
  "The agent " ++ dq ++ name self ++ dq ++ " uses Google's "
  ++ ModelName_str (modelName self) ++ " which doesn't support batch operations".

Definition catching {A} (m : M A) : M A :=
  fun log =>
    match m log with
    | (inl e, log') =>
        (inl (match provider self with
              | Google => Error unsupported
              | OpenAI => e
              end), log')
    | (inr a, log') => (inr a, log')
    end.

(** Send a prompt to the model and get a completion: the store after the
    call and the call made to the adapter. *)
Definition prompt (messages : loc) (options : LLMRequestOptions)
    : H (M CompletionResponse) :=
  messagesWithBasePrompt ← prependBasePrompt messages;
  msgs ← deref_messages messagesWithBasePrompt;
  mret (pi_prompt (providerInstance self) msgs (modelName self)
          (optionsWithAgent options)).

(** The loop of [createBatch] over the indices [idxs] of [prompts];
    [isBatchRequest] tells a request object from an array of messages. *)
Fixpoint add_base_prompts (prompts : loc) (idxs : list nat) : H unit :=
  match idxs with
  | [] => mret tt
  | idx :: rest =>
      items ← read_arr prompts;
      match items !! idx with
      | None => hfail
      | Some prompt =>
          c ← read prompt;
          replacement ←
            match c with
            | CReq id messages =>
                messages' ← prependBasePrompt messages;
                alloc (CReq id messages')
            | CArr _ => prependBasePrompt prompt
            | CMsg _ => hfail
            end;
          items ← read_arr prompts;
          _ ← write_arr prompts (<[idx := replacement]> items);
          add_base_prompts prompts rest
      end
  end.

Definition deref_prompt (l : loc) : H Prompt :=
  c ← read l;
  match c with
  | CArr items => ms ← read_msgs items; mret (PlainPrompt ms)
  | CReq id messages => ms ← deref_messages messages; mret (RequestPrompt id ms)
  | CMsg _ => hfail
  end.

Fixpoint deref_prompts (ls : list loc) : H (list Prompt) :=
  match ls with
  | [] => mret []
  | l :: r => p ← deref_prompt l; ps ← deref_prompts r; mret (p :: ps)
  end.

(** Create a batch of prompts: the store after the call and the call made
    to the adapter. *)
Definition createBatch (prompts : loc) (options : BatchRequestOptions)
    : H (M BatchCreated) :=
  items ← read_arr prompts;
  _ ← add_base_prompts prompts (seq 0 (length items));
  items ← read_arr prompts;
  ps ← deref_prompts items;
  mret (catching (pi_createBatch (providerInstance self) ps (modelName self)
                    (batchOptionsWithAgent options))).

Definition checkBatch (batchId : string) : M BatchStatus :=
  catching (pi_checkBatch (providerInstance self) batchId (modelName self)).

Definition retrieveBatch (batchId : string) : M (list RetrievedResponse) :=
  catching (pi_retrieveBatch (providerInstance self) batchId (modelName self)
              (sampleObj self)).

Definition cancelBatch (batchId : string) : M bool :=
  catching (pi_cancelBatch (providerInstance self) batchId (modelName self)).

End Methods.

(** What [prependBasePrompt] returns, as a function of the messages. *)
Definition with_base_prompt (basePrompt : string) (messages : list PromptMessage)
    : list PromptMessage :=
  if negb (nonempty basePrompt) then messages
  else {| role := developer; content := basePrompt |}
       :: filter (fun m => negb (Role_eqb (role m) developer)) messages.

(** The helper [checkKeys] of [validateBasePrompt]: the keys that it pushes
    onto [missingKeys], in the order of the pushes.  Of an array only the
    first item is visited, and only when it is an object or an array. *)
#[warnings="-register-all"]
Fixpoint checkKeys `{Casing} (basePromptLower : string) (obj : jsval)
    (prefix : string) : list string :=
  match obj with
  | JArr (first :: _) =>
      match first with
      | JArr _ | JObj _ => checkKeys basePromptLower first prefix
      | _ => []
      end
  | JObj props =>
      (fix keys (l : list (string * jsval)) : list string :=
         match l with
         | [] => []
         | (key, value) :: rest =>
             let fullKey :=
               if nonempty prefix then prefix ++ "." ++ key else key in
             ((if includes basePromptLower (String_toLowerCase key)
               then [] else [fullKey])
              ++ match value with
                 | JArr _ | JObj _ => checkKeys basePromptLower value fullKey
                 | _ => []
                 end
              ++ keys rest)%list
         end) props
  | _ => []
  end.

(** The warning sign that opens the first line of the warning, in UTF-8. *)
Definition warning_sign : string :=
  String "226"%char (String "154"%char (String "160"%char
    (String "239"%char (String "184"%char (String "143"%char EmptyString))))).

Definition missing_fields : string :=
  " Warning: The following fields are not mentioned in the base prompt "
  ++ "and may be ignored by the LLM: ".

(** [validateBasePrompt], which the constructor calls before the agent is
    complete: the lines that it writes with [console.warn].  It returns
    nothing and throws nothing. *)
Definition validateBasePrompt `{Casing} (basePrompt : string)
    (sampleObj : jsval) : list string :=
  match sampleObj with
  | JArr _ | JObj _ =>
      let basePromptLower := String_toLowerCase basePrompt in
      let missingKeys := checkKeys basePromptLower sampleObj "" in
      if (0 <? length missingKeys)%nat
      then [warning_sign ++ missing_fields ++ join ", " missingKeys;
            "Consider adding these fields to your base prompt for better results."]
      else []
  | _ => []
  end.

(** The argument of the constructor and of [createAgent]. *)
Record Options := {
  o_name : string;
  o_basePrompt : string;
  o_model : string;
  o_apiKey : string;
  o_baseUrl : option string;
  o_fetchFn : option Env;
  o_sampleObj : jsval;
}.

(** The members of the enumerations that a string is the value of. *)
Definition Provider_of_str (s : string) : option Provider :=
  if String.eqb s (Provider_str Google) then Some Google
  else if String.eqb s (Provider_str OpenAI) then Some OpenAI
  else None.

Definition ModelName_of_str (s : string) : option ModelName :=
  find (fun m => String.eqb s (ModelName_str m)) [Gemini2Flash; Gemini15; GPT4oMini].

Section Constructor.
Context `{Runtime} `{Casing}.

(** The global [fetch], the transport of an agent that is given none. *)
Variable global_fetch : Env.

(** The constructor: it throws for a provider that is neither of the two,
    and otherwise gives the agent and the lines written to the console.
    The model name is the second piece of [options.model], cast to
    [ModelName]; the agent is [None] when that piece is no member of the
    enumeration, which the type of [options.model] excludes. *)
Definition constructor (options : Options) : exn + (option t * list string) :=
  let fetchFn := default global_fetch (o_fetchFn options) in
  let pieces := split "/" (o_model options) in
  let providerStr := default "" (head pieces) in
  let modelStr := pieces !! 1%nat in
  match Provider_of_str providerStr with
  | None => inl (Error ("Unsupported provider: " ++ providerStr))
  | Some provider =>
      let providerInstance :=
        match provider with
        | Google =>
            google_instance
              {| GoogleProvider.apiKey := o_apiKey options;
                 GoogleProvider.baseUrl :=
                   default GoogleProvider.default_baseUrl (o_baseUrl options);
                 GoogleProvider.fetchFn := fetchFn |}
        | OpenAI =>
            openai_instance
              {| OpenAIProvider.apiKey := o_apiKey options;
                 OpenAIProvider.baseUrl :=
                   default OpenAIProvider.default_baseUrl (o_baseUrl options);
                 OpenAIProvider.fetchFn := fetchFn |}
        end in
      let console :=
        if truthy (o_sampleObj options)
        then validateBasePrompt (o_basePrompt options) (o_sampleObj options)
        else [] in
      inr (modelName ← modelStr ≫= ModelName_of_str;
           Some {| name := o_name options;
                   modelName := modelName;
                   provider := provider;
                   basePrompt := o_basePrompt options;
                   providerInstance := providerInstance;
                   sampleObj :=
                     if truthy (o_sampleObj options) then o_sampleObj options
                     else JUndefined |},
           console)
  end.

(** Helper factory function to create agents. *)
Definition createAgent (options : Options) : exn + (option t * list string) :=
  constructor options.

End Constructor.

End LLMAgent.

(* ================================================================= *)
(** ** An instance of the runtime: [JSON.parse] and [JSON.stringify] *)

Module Json.

(** *** Numbers *)

Definition prec : Z := 53.
Definition emax : Z := 1024.

(** The binary64 nearest to [digits * 10 ^ exp10] (ties to even), negated
    when [neg]. *)
Definition float_of_decimal (neg : bool) (digits : Z) (exp10 : Z) : float :=
  match digits with
  | Zpos m =>
      let size := (Z.log2 (Zpos m) * 1233 / 4096 + exp10)%Z in
      if (310 <? size)%Z then (if neg then neg_infinity else infinity)
      else if (size <? -345)%Z then (if neg then (-0)%float else 0%float)
      else if (0 <=? exp10)%Z
      then SF2Prim (binary_round prec emax neg (m * Z.to_pos (10 ^ exp10)) 0)
      else
        let d := (10 ^ (- exp10))%Z in
        let k := Z.max 0 (Z.log2 d + 64 - Z.log2 (Zpos m)) in
        let n := (Zpos m * 2 ^ k)%Z in
        let q := (n / d)%Z in
        let r := (n mod d)%Z in
        let l := if (r =? 0)%Z then loc_Exact
                 else loc_Inexact (Z.compare (2 * r) d) in
        SF2Prim (binary_round_aux prec emax neg q (- k) l)
  | _ => if neg then (-0)%float else 0%float
  end.

(** The digit generation of [Number::toString]: the shortest decimal that
    reads back as [m * 2 ^ e], as its digits and the position [n] of the
    decimal point (the value is [0.d1 d2 ... * 10 ^ n]). *)
Fixpoint generate (fuel : nat) (even : bool) (r s mp mm : Z) : list Z :=
  match fuel with
  | O => []
  | S fuel =>
      let d := (r * 10 / s)%Z in
      let r := ((r * 10) mod s)%Z in
      let mp := (mp * 10)%Z in
      let mm := (mm * 10)%Z in
      let tc1 := if even then (r <=? mm)%Z else (r <? mm)%Z in
      let tc2 := if even then (s <=? r + mp)%Z else (s <? r + mp)%Z in
      match tc1, tc2 with
      | false, false => d :: generate fuel even r s mp mm
      | true, false => [d]
      | false, true => [(d + 1)%Z]
      | true, true => if (2 * r <? s)%Z then [d] else [(d + 1)%Z]
      end
  end.

Fixpoint fixup (fuel : nat) (even : bool) (high_num s : Z) (k : Z) : Z :=
  match fuel with
  | O => k
  | S fuel =>
      let bound := if (0 <=? k)%Z then (s * 10 ^ k)%Z else s in
      let high := if (0 <=? k)%Z then high_num else (high_num * 10 ^ (- k))%Z in
      if (if even then (bound <=? high)%Z else (bound <? high)%Z)
      then fixup fuel even high_num s (k + 1)
      else k
  end.

Definition shortest_digits (m e : Z) : list Z * Z :=
  let boundary := (m =? 2 ^ 52)%Z && (-1074 <? e)%Z in
  let even := Z.even m in
  let '(r, s, mp, mm) :=
    if (0 <=? e)%Z then
      let be := (2 ^ e)%Z in
      if boundary then (m * be * 4, 4, 2 * be, be)%Z
      else (m * be * 2, 2, be, be)%Z
    else
      if boundary then (m * 4, 2 ^ (2 - e), 2, 1)%Z
      else (m * 2, 2 ^ (1 - e), 1, 1)%Z in
  let estimate := ((Z.log2 (r + mp) - Z.log2 s) * 1233 / 4096 - 2)%Z in
  let k := fixup 8 even (r + mp) s estimate in
  let '(r, s, mp, mm) :=
    if (0 <=? k)%Z then (r, s * 10 ^ k, mp, mm)%Z
    else let f := (10 ^ (- k))%Z in (r * f, s, mp * f, mm * f)%Z in
  (generate 25 even r s mp mm, k).

Definition digit_char (d : Z) : ascii := ascii_of_nat (48 + Z.to_nat d).

Fixpoint digits_string (ds : list Z) : string :=
  match ds with
  | [] => EmptyString
  | d :: r => String (digit_char d) (digits_string r)
  end.

Fixpoint zeros (n : nat) : string :=
  match n with O => EmptyString | S n => String "0"%char (zeros n) end.

(** [Number::toString] of a positive finite number from its digits. *)
Definition format_digits (ds : list Z) (n : Z) : string :=
  let k := Z.of_nat (length ds) in
  if (k <=? n)%Z && (n <=? 21)%Z
  then digits_string ds ++ zeros (Z.to_nat (n - k))
  else if (0 <? n)%Z && (n <=? 21)%Z
  then digits_string (take (Z.to_nat n) ds) ++ "."
       ++ digits_string (drop (Z.to_nat n) ds)
  else if (-6 <? n)%Z && (n <=? 0)%Z
  then "0." ++ zeros (Z.to_nat (- n)) ++ digits_string ds
  else
    let e := (n - 1)%Z in
    let exponent := (if (0 <=? e)%Z then "+" else "-") ++ pretty (Z.abs e) in
    match ds with
    | [d] => digits_string [d] ++ "e" ++ exponent
    | d :: r => digits_string [d] ++ "." ++ digits_string r ++ "e" ++ exponent
    | [] => "0"
    end.

(** [String(x)] for a number. *)
Definition number_to_string (x : float) : string :=
  match Prim2SF x with
  | S754_nan => "NaN"
  | S754_zero _ => "0"
  | S754_infinity neg => if neg then "-Infinity" else "Infinity"
  | S754_finite neg m e =>
      let '(ds, n) := shortest_digits (Zpos m) e in
      (if neg then "-" else "") ++ format_digits ds n
  end.

(** *** Printing *)

Definition hex_digit (n : nat) : ascii :=
  if (n <? 10)%nat then ascii_of_nat (48 + n) else ascii_of_nat (87 + n).

Definition escape_char (c : ascii) : string :=
  let n := nat_of_ascii c in
  if (n =? 34)%nat then "\" ++ dq
  else if (n =? 92)%nat then "\\"
  else if (n =? 8)%nat then "\b"
  else if (n =? 12)%nat then "\f"
  else if (n =? 10)%nat then "\n"
  else if (n =? 13)%nat then "\r"
  else if (n =? 9)%nat then "\t"
  else if (n <? 32)%nat
  then "\u00" ++ String (hex_digit (n / 16)) (String (hex_digit (n mod 16)) "")
  else String c "".

(** A surrogate that stands alone, which a string holds in three bytes
    (a pair is one character of four bytes), is written as its escape. *)
Definition lone_surrogate (a b : ascii) : bool :=
  (nat_of_ascii a =? 237)%nat && (160 <=? nat_of_ascii b)%nat.

Definition escape_surrogate (b c : ascii) : string :=
  let u := ((nat_of_ascii b mod 64) * 64 + nat_of_ascii c mod 64)%nat in
  "\ud" ++ String (hex_digit (u / 256))
             (String (hex_digit ((u / 16) mod 16))
                (String (hex_digit (u mod 16)) "")).

Fixpoint escape (s : string) : string :=
  match s with
  | EmptyString => EmptyString
  | String a r =>
      match r with
      | String b (String c r') =>
          if lone_surrogate a b then escape_surrogate b c ++ escape r'
          else escape_char a ++ escape r
      | _ => escape_char a ++ escape r
      end
  end.

Definition quote (s : string) : string := dq ++ escape s ++ dq.

Fixpoint spaces (n : nat) : string :=
  match n with O => EmptyString | S n => String " "%char (spaces n) end.

(** The text of a value, [None] where [JSON.stringify] gives [undefined];
    [gap] is the indentation unit and [cur] the current indentation. *)
#[warnings="-register-all"]
Fixpoint print (gap cur : string) (v : jsval) : option string :=
  let inner := cur ++ gap in
  let wrap (opening closing : string) (partial : list string) : string :=
    match partial with
    | [] => opening ++ closing
    | _ =>
        if nonempty gap
        then opening ++ nl ++ inner ++ join ("," ++ nl ++ inner) partial
             ++ nl ++ cur ++ closing
        else opening ++ join "," partial ++ closing
    end in
  match v with
  | JUndefined => None
  | JNull => Some "null"
  | JBool b => Some (if b then "true" else "false")
  | JNum x =>
      Some (match Prim2SF x with
            | S754_nan | S754_infinity _ => "null"
            | _ => number_to_string x
            end)
  | JStr s => Some (quote s)
  | JArr items =>
      Some (wrap "[" "]"
              ((fix elements (l : list jsval) : list string :=
                  match l with
                  | [] => []
                  | x :: r => default "null" (print gap inner x) :: elements r
                  end) items))
  | JObj props =>
      Some (wrap "{" "}"
              ((fix members (l : list (string * jsval)) : list string :=
                  match l with
                  | [] => []
                  | (k, x) :: r =>
                      match print gap inner x with
                      | Some t =>
                          (quote k ++ ":" ++ (if nonempty gap then " " else "") ++ t)
                            :: members r
                      | None => members r
                      end
                  end) props))
  end.

(** [`${JSON.stringify(v, null, indent)}`]. *)
Definition stringify (v : jsval) (indent : nat) : string :=
  default "undefined" (print (spaces (Nat.min indent 10)) "" v).


(** *** Parsing *)

Definition is_ws (c : ascii) : bool :=
  let n := nat_of_ascii c in
  (n =? 32)%nat || (n =? 9)%nat || (n =? 10)%nat || (n =? 13)%nat.

Fixpoint skip_ws (s : string) : string :=
  match s with
  | String c r => if is_ws c then skip_ws r else s
  | EmptyString => s
  end.

Definition is_digit (c : ascii) : bool :=
  let n := nat_of_ascii c in (48 <=? n)%nat && (n <=? 57)%nat.

(** The digits at the head of [s]: how many, their value, and the rest. *)
Fixpoint take_digits (s : string) (count : nat) (value : Z) : nat * Z * string :=
  match s with
  | String c r =>
      if is_digit c
      then take_digits r (S count) (value * 10 + Z.of_nat (nat_of_ascii c - 48))
      else (count, value, s)
  | EmptyString => (count, value, s)
  end.

(** A number of the JSON grammar at the head of [s]. *)
Definition parse_number (s : string) : option (float * string) :=
  let '(neg, s) :=
    match s with
    | String "-"%char r => (true, r)
    | _ => (false, s)
    end in
  let '(icount, ivalue, rest) := take_digits s 0 0 in
  let leading_zero :=
    match s with String "0"%char _ => true | _ => false end in
  if (icount =? 0)%nat || (leading_zero && (1 <? icount)%nat) then None
  else
    let frac :=
      match rest with
      | String "."%char r =>
          let '(fcount, value, rest') := take_digits r 0 ivalue in
          if (fcount =? 0)%nat then None else Some (fcount, value, rest')
      | _ => Some (0%nat, ivalue, rest)
      end in
    match frac with
    | None => None
    | Some (fcount, digits, rest) =>
        let expo :=
          match rest with
          | String c r =>
              if Ascii.eqb c "e" || Ascii.eqb c "E" then
                let '(eneg, r) :=
                  match r with
                  | String "-"%char r' => (true, r')
                  | String "+"%char r' => (false, r')
                  | _ => (false, r)
                  end in
                let '(ecount, evalue, rest') := take_digits r 0 0 in
                if (ecount =? 0)%nat then None
                else Some ((if eneg then - evalue else evalue)%Z, rest')
              else Some (0%Z, rest)
          | EmptyString => Some (0%Z, rest)
          end in
        match expo with
        | None => None
        | Some (e, rest) =>
            Some (float_of_decimal neg digits (e - Z.of_nat fcount), rest)
        end
    end.

Definition hex_value (c : ascii) : option nat :=
  let n := nat_of_ascii c in
  if (48 <=? n)%nat && (n <=? 57)%nat then Some (n - 48)%nat
  else if (65 <=? n)%nat && (n <=? 70)%nat then Some (n - 55)%nat
  else if (97 <=? n)%nat && (n <=? 102)%nat then Some (n - 87)%nat
  else None.

(** The bytes of a code point in UTF-8; a surrogate that stands alone is
    written in three bytes like the characters around it. *)
Definition utf8 (cp : N) : string :=
  if (cp <? 128)%N then String (ascii_of_N cp) ""
  else if (cp <? 2048)%N
  then String (ascii_of_N (192 + cp / 64))
         (String (ascii_of_N (128 + cp mod 64)) "")
  else if (cp <? 65536)%N
  then String (ascii_of_N (224 + cp / 4096))
         (String (ascii_of_N (128 + (cp / 64) mod 64))
            (String (ascii_of_N (128 + cp mod 64)) ""))
  else String (ascii_of_N (240 + cp / 262144))
         (String (ascii_of_N (128 + (cp / 4096) mod 64))
            (String (ascii_of_N (128 + (cp / 64) mod 64))
               (String (ascii_of_N (128 + cp mod 64)) ""))).

(** The code unit that four hexadecimal digits write. *)
Definition hex4 (h1 h2 h3 h4 : ascii) : option N :=
  match hex_value h1, hex_value h2, hex_value h3, hex_value h4 with
  | Some a, Some b, Some c, Some d =>
      Some (N.of_nat (((a * 16 + b) * 16 + c) * 16 + d))
  | _, _, _, _ => None
  end.

Definition is_high_surrogate (u : N) : bool := (55296 <=? u)%N && (u <? 56320)%N.
Definition is_low_surrogate (u : N) : bool := (56320 <=? u)%N && (u <? 57344)%N.

(** The characters of a string literal after its opening quote.  The
    escape of a high surrogate and the escape of a low surrogate that
    follows it at once are one character. *)
Fixpoint parse_chars (s : string) : option (string * string) :=
  match s with
  | EmptyString => None
  | String c r =>
      let n := nat_of_ascii c in
      if (n =? 34)%nat then Some (EmptyString, r)
      else if (n <? 32)%nat then None
      else if (n =? 92)%nat then
        match r with
        | String e r' =>
            let simple (t : string) :=
              match parse_chars r' with
              | Some (body, rest) => Some (t ++ body, rest)
              | None => None
              end in
            let m := nat_of_ascii e in
            if (m =? 34)%nat then simple dq
            else if (m =? 92)%nat then simple "\"
            else if (m =? 47)%nat then simple "/"
            else if (m =? 98)%nat then simple (String (ascii_of_nat 8) "")
            else if (m =? 102)%nat then simple (String (ascii_of_nat 12) "")
            else if (m =? 110)%nat then simple nl
            else if (m =? 114)%nat then simple (String (ascii_of_nat 13) "")
            else if (m =? 116)%nat then simple (String (ascii_of_nat 9) "")
            else if (m =? 117)%nat then
              match r' with
              | String h1 (String h2 (String h3 (String h4 r''))) =>
                  match hex4 h1 h2 h3 h4 with
                  | Some u =>
                      let alone :=
                        match parse_chars r'' with
                        | Some (body, rest) => Some (utf8 u ++ body, rest)
                        | None => None
                        end in
                      match r'' with
                      | String b (String e'
                          (String l1 (String l2 (String l3 (String l4 r3))))) =>
                          match hex4 l1 l2 l3 l4 with
                          | Some u2 =>
                              if (nat_of_ascii b =? 92)%nat
                                 && (nat_of_ascii e' =? 117)%nat
                                 && is_high_surrogate u && is_low_surrogate u2
                              then
                                match parse_chars r3 with
                                | Some (body, rest) =>
                                    Some (utf8 (65536 + (u - 55296) * 1024
                                                + (u2 - 56320))%N ++ body,
                                          rest)
                                | None => None
                                end
                              else alone
                          | None => alone
                          end
                      | _ => alone
                      end
                  | None => None
                  end
              | _ => None
              end
            else None
        | EmptyString => None
        end
      else
        match parse_chars r with
        | Some (body, rest) => Some (String c body, rest)
        | None => None
        end
  end.

(** The array index that a key is the canonical decimal of, when it is
    one: an integer below [2 ^ 32 - 1], written without a leading zero. *)
Definition index_of_key (key : string) : option Z :=
  match take_digits key 0 0 with
  | (count, value, EmptyString) =>
      if (0 <? count)%nat
         && (String.eqb key "0" || negb (String.prefix "0" key))
         && (value <? 4294967295)%Z
      then Some value else None
  | _ => None
  end.

(** The properties of an object after [key] is defined as [v] while
    [JSON.parse] builds it: a property that exists is overwritten in its
    place; a new one comes after all the others, unless its key is an array
    index: the indices are enumerated first, in ascending order. *)
Fixpoint index_set (i : Z) (key : string) (v : jsval)
    (props : list (string * jsval)) : list (string * jsval) :=
  match props with
  | [] => [(key, v)]
  | (k, w) :: r =>
      match index_of_key k with
      | Some j =>
          if (j =? i)%Z then (k, v) :: r
          else if (i <? j)%Z then (key, v) :: (k, w) :: r
          else (k, w) :: index_set i key v r
      | None => (key, v) :: (k, w) :: r
      end
  end.

Definition define (key : string) (v : jsval) (props : list (string * jsval))
    : list (string * jsval) :=
  match index_of_key key with
  | Some i => index_set i key v props
  | None => assoc_set key v props
  end.

Fixpoint string_drop (n : nat) (s : string) : string :=
  match n, s with
  | S n, String _ r => string_drop n r
  | _, _ => s
  end.

(** A value of the JSON grammar at the head of [s], white space skipped.
    [fuel] bounds the nesting and the number of items. *)
Fixpoint parse_value (fuel : nat) (s : string) : option (jsval * string) :=
  match fuel with
  | O => None
  | S fuel =>
      let elements :=
        fix elements (n : nat) (s : string) (acc : list jsval) :=
          match n with
          | O => None
          | S n =>
              match parse_value fuel s with
              | Some (v, rest) =>
                  match skip_ws rest with
                  | String ","%char r => elements n r (acc ++ [v])%list
                  | String "]"%char r => Some (JArr (acc ++ [v])%list, r)
                  | _ => None
                  end
              | None => None
              end
          end in
      let members :=
        fix members (n : nat) (s : string) (acc : list (string * jsval)) :=
          match n with
          | O => None
          | S n =>
              match skip_ws s with
              | String q r =>
                  if (nat_of_ascii q =? 34)%nat then
                    match parse_chars r with
                    | Some (key, rest) =>
                        match skip_ws rest with
                        | String ":"%char r' =>
                            match parse_value fuel r' with
                            | Some (v, rest') =>
                                match skip_ws rest' with
                                | String ","%char r'' =>
                                    members n r'' (define key v acc)
                                | String "}"%char r'' =>
                                    Some (JObj (define key v acc), r'')
                                | _ => None
                                end
                            | None => None
                            end
                        | _ => None
                        end
                    | None => None
                    end
                  else None
              | EmptyString => None
              end
          end in
      match skip_ws s with
      | EmptyString => None
      | String c r =>
          let n := nat_of_ascii c in
          if (n =? 123)%nat then
            match skip_ws r with
            | String "}"%char r' => Some (JObj [], r')
            | _ => members fuel r []
            end
          else if (n =? 91)%nat then
            match skip_ws r with
            | String "]"%char r' => Some (JArr [], r')
            | _ => elements fuel r []
            end
          else if (n =? 34)%nat then
            match parse_chars r with
            | Some (body, rest) => Some (JStr body, rest)
            | None => None
            end
          else if String.prefix "true" (String c r)
          then Some (JBool true, string_drop 4 (String c r))
          else if String.prefix "false" (String c r)
          then Some (JBool false, string_drop 5 (String c r))
          else if String.prefix "null" (String c r)
          then Some (JNull, string_drop 4 (String c r))
          else
            match parse_number (String c r) with
            | Some (x, rest) => Some (JNum x, rest)
            | None => None
            end
      end
  end.

(** [JSON.parse(s)]; the text of the error is the engine's, of which only
    the name is kept. *)
Definition parse (s : string) : string + jsval :=
  match parse_value (S (String.length s)) s with
  | Some (v, rest) =>
      match skip_ws rest with
      | EmptyString => inr v
      | _ => inl "SyntaxError"
      end
  | None => inl "SyntaxError"
  end.

Definition runtime : Runtime :=
  {| JSON_parse := parse;
     JSON_stringify := stringify;
     Number_toString := number_to_string |}.

End Json.

(* ================================================================= *)
(** ** The properties, in the words of the specification *)

Module Spec.

(** An example value is supplied and is not a plain string. *)
Definition supplied_non_string (v : jsval) : Prop :=
  v <> JUndefined /\ typeof v <> "string".

(** The request asks the OpenAI back end for JSON mode. *)
Definition openai_json_mode (req : Request) : bool :=
  match body req with
  | ChatBody r =>
      match OpenAITypes.response_format r with
      | Some OpenAITypes.json_object => true
      | _ => false
      end
  | _ => false
  end.

(** The request asks the Google back end for a JSON answer. *)
Definition google_json_mode (req : Request) : bool :=
  match body req with
  | GeminiBody r =>
      match GoogleTypes.response_mime_type (GoogleTypes.generationConfig r) with
      | Some _ => true
      | None => false
      end
  | _ => false
  end.

Definition type_only (t : string) : jsval := JObj [("type", JStr t)].

Definition array_of (items : jsval) : jsval :=
  JObj [("type", JStr "ARRAY"); ("items", items)].

Definition object_of (properties : list (string * jsval)) : jsval :=
  JObj [("type", JStr "OBJECT"); ("properties", JObj properties)].

Definition primitive (v : jsval) : Prop :=
  match v with JArr _ | JObj _ => False | _ => True end.

(** The shape of a schema as the specification describes it: every
    primitive has its mapped type, unknown ones the string type. *)
#[warnings="-register-all"]
Inductive mirrors_as_specified : jsval -> jsval -> Prop :=
| spec_primitive v :
    primitive v ->
    mirrors_as_specified v
      (type_only (GoogleProvider.getGoogleSchemaType (typeof v)))
| spec_empty_array :
    mirrors_as_specified (JArr []) (array_of (type_only "STRING"))
| spec_array first rest s :
    mirrors_as_specified first s ->
    mirrors_as_specified (JArr (first :: rest)) (array_of s)
| spec_object props schemas :
    Forall2 (fun kv ks => fst kv = fst ks /\ mirrors_as_specified (snd kv) (snd ks))
            props schemas ->
    mirrors_as_specified (JObj props) (object_of schemas).

(** The shape of a schema as the code builds it: [null] and [undefined]
    have no schema. *)
#[warnings="-register-all"]
Inductive mirrors : jsval -> jsval -> Prop :=
| mirrors_null : mirrors JNull JNull
| mirrors_undefined : mirrors JUndefined JNull
| mirrors_boolean b : mirrors (JBool b) (type_only "BOOLEAN")
| mirrors_number x : mirrors (JNum x) (type_only "NUMBER")
| mirrors_string s : mirrors (JStr s) (type_only "STRING")
| mirrors_empty_array : mirrors (JArr []) (array_of (type_only "STRING"))
| mirrors_array first rest s :
    mirrors first s -> mirrors (JArr (first :: rest)) (array_of s)
| mirrors_object props schemas :
    Forall2 (fun kv ks => fst kv = fst ks /\ mirrors (snd kv) (snd ks))
            props schemas ->
    mirrors (JObj props) (object_of schemas).

(** The objects that the schema is read from have distinct keys, none of
    them [__proto__]. *)
#[warnings="-register-all"]
Fixpoint ordinary (v : jsval) : bool :=
  match v with
  | JArr (first :: _) => ordinary first
  | JObj props =>
      (fix all (l : list (string * jsval)) : bool :=
         match l with
         | [] => true
         | (k, x) :: r =>
             negb (String.eqb k "__proto__")
             && negb (existsb (fun kv => String.eqb (fst kv) k) r)
             && ordinary x && all r
         end) props
  | _ => true
  end.

(** The value that the decode step gives for a completion text. *)
Definition decoded `{Runtime} (text : string) : jsval :=
  match JSON_parse text with
  | inr v => v
  | inl _ => JStr text
  end.

(** The correlation id as the specification derives it: the first source
    that is not empty among the batch name, the caller identifier and the
    id of the item, the time stamp and the index when all are. *)
Fixpoint first_nonempty (sources : list (option string)) (fallback : string)
  : string :=
  match sources with
  | [] => fallback
  | Some s :: rest => if nonempty s then s else first_nonempty rest fallback
  | None :: rest => first_nonempty rest fallback
  end.

Definition correlation_id_as_specified (options : BatchRequestOptions)
    (now : N) (i : nat) (prompt : Types.BatchRequest) : string :=
  first_nonempty [batchName options; agentName (base options); br_id prompt]
                 (pretty now ++ "_" ++ pretty i).

(** The correlation id as the code derives it: the id of the item without
    its characters that are not letters or digits when that is not empty,
    and otherwise the time stamp and the index, after the batch name and,
    before it, the caller identifier, each stripped in the same way and
    followed by an underscore, for those of the two that are not empty. *)
Definition name_prefix (name : option string) : string :=
  match name with
  | Some n => if nonempty n then strip_non_alnum n ++ "_" else ""
  | None => ""
  end.

Definition correlation_id (options : BatchRequestOptions)
    (now : N) (i : nat) (prompt : Types.BatchRequest) : string :=
  let stamped :=
    name_prefix (agentName (base options)) ++ name_prefix (batchName options)
    ++ pretty now ++ "_" ++ pretty i in
  match br_id prompt with
  | Some id =>
      if nonempty (strip_non_alnum id) then strip_non_alnum id else stamped
  | None => stamped
  end.

(** The correlation ids of the items from index [i] on, [now j] being the
    reading of the clock in round [j]. *)
Fixpoint correlation_ids (options : BatchRequestOptions) (now : nat -> N)
    (i : nat) (prompts : list Types.BatchRequest) : list string :=
  match prompts with
  | [] => []
  | prompt :: rest =>
      correlation_id options (now i) i prompt
        :: correlation_ids options now (S i) rest
  end.

(** The item names JSON in one of its messages. *)
Definition item_mentions_json (prompt : Types.BatchRequest) : bool :=
  existsb mentions_json (default [] (br_messages prompt)).

(** A line of the output document survives when it parses, carries no
    error payload and has a response; what survives is the parsed line. *)
Definition surviving `{Runtime} (rawResponse : string) : option jsval :=
  match JSON_parse rawResponse with
  | inr line =>
      if truthy (member line "error") || negb (truthy (member line "response"))
      then None else Some line
  | inl _ => None
  end.

(** The parts of a line that a result is made of: the completion text,
    which is the content of the message of the first choice of the body of
    the response, the usage record of the body, and the correlation id. *)
Definition body_of (line : jsval) : jsval :=
  member (member line "response") "body".

Definition first_choice (line : jsval) : jsval :=
  member (member (body_of line) "choices") "0".

Definition completion_text (line : jsval) : jsval :=
  member (member (first_choice line) "message") "content".

Definition usage_of (line : jsval) : jsval := member (body_of line) "usage".

(** The result that a line carries for the [data] decoded from its text. *)
Definition result_with (model : ModelName) (line : jsval) (data : jsval)
    : RetrievedResponse :=
  {| r_text := completion_text line;
     r_data := data;
     r_usage :=
       {| r_promptTokens := member (usage_of line) "prompt_tokens";
          r_completionTokens := member (usage_of line) "completion_tokens";
          r_totalTokens := member (usage_of line) "total_tokens" |};
     r_model := ModelType OpenAI model;
     r_provider := OpenAI |}.


(** The example value for which [retrieveBatch] parses the text: a truthy
    value of type object. *)
Definition object_example (sampleObj : jsval) : bool :=
  truthy sampleObj && String.eqb (typeof sampleObj) "object".

(** The text of a line as [JSON.parse] reads it: the completion text, or
    what it converts to when it is no string; [None] when the conversion
    throws. *)
Definition text_to_parse `{Runtime} (line : jsval) : option string :=
  match ToString (completion_text line) with
  | inr text => Some text
  | inl _ => None
  end.

(** The result of a line as the code has it: a surviving line yields one,
    unless the example is an object and the text is not valid JSON; [data]
    is the parsed text for an object example and the text otherwise. *)
Definition result_of_line `{Runtime} (model : ModelName) (sampleObj : jsval)
    (rawResponse : string) : option RetrievedResponse :=
  match surviving rawResponse with
  | Some line =>
      if object_example sampleObj
      then match text_to_parse line with
           | Some text =>
               match JSON_parse text with
               | inr v => Some (result_with model line v)
               | inl _ => None
               end
           | None => None
           end
      else Some (result_with model line (completion_text line))
  | None => None
  end.

Definition is_string (v : jsval) : bool :=
  match v with JStr _ => true | _ => false end.

(** The example is an object and the completion text of the line is not
    valid JSON: the line is skipped. *)
Definition text_rejected `{Runtime} (sampleObj line : jsval) : bool :=
  object_example sampleObj
  && match text_to_parse line with
     | Some text =>
         match JSON_parse text with inl _ => true | inr _ => false end
     | None => true
     end.

(** The line is one on which no round throws: it does not parse, or it is
    a value other than [null] that does not survive, or it survives and the
    first choice of the body of its response has a message, and, unless its
    text is rejected, it has a correlation id that is a string and a usage
    record. *)
Definition readable `{Runtime} (sampleObj : jsval) (rawResponse : string)
    : bool :=
  match JSON_parse rawResponse with
  | inr line =>
      negb (nullish line)
      && match surviving rawResponse with
         | Some _ =>
             negb (nullish (member (first_choice line) "message"))
             && (text_rejected sampleObj line
                 || (is_string (member line "custom_id")
                     && negb (nullish (usage_of line))))
         | None => true
         end
  | inl _ => true
  end.

(** The line is one that the back end writes: it is not the text [null],
    and when it survives it has a completion text that is a string, a
    correlation id that is a string, and a usage record.  Such a line is
    readable. *)
Definition answered `{Runtime} (rawResponse : string) : bool :=
  match JSON_parse rawResponse with
  | inr line =>
      negb (nullish line)
      && match surviving rawResponse with
         | Some _ =>
             is_string (completion_text line)
             && is_string (member line "custom_id")
             && negb (nullish (usage_of line))
         | None => true
         end
  | inl _ => true
  end.

(** The structure instruction, spelled out: the sentence that asks for the
    JSON structure, followed by the example serialised with an indentation
    of two and with every array that is not empty collapsed to one
    representative item, an empty object when the first item of the array
    is of type object ([null] and arrays are) and the string [example]
    when it is not; of an example that is not of type object the
    instruction names the type. *)
Definition representative (first : jsval) : jsval :=
  if String.eqb (typeof first) "object" then JObj [] else JStr "example".

#[warnings="-register-all"]
Fixpoint collapse_arrays (v : jsval) : jsval :=
  match v with
  | JArr [] => JArr []
  | JArr (first :: _) => JArr [representative first]
  | JObj props =>
      JObj ((fix members (l : list (string * jsval)) :=
               match l with
               | [] => []
               | kv :: r => (fst kv, collapse_arrays (snd kv)) :: members r
               end) props)
  | _ => v
  end.

Definition structure_instruction `{Runtime} (sampleObj : jsval) : string :=
  "Please provide the response in the following JSON structure: "
  ++ match sampleObj with
     | JNull | JArr _ | JObj _ => JSON_stringify (collapse_arrays sampleObj) 2
     | JUndefined => "undefined"
     | JBool _ => "boolean"
     | JNum _ => "number"
     | JStr _ => "string"
     end.

End Spec.
Export Spec.

(* ================================================================= *)
(** ** Notions for the further properties of the code *)

Module Properties.

(** The request carries the credentials of the adapter. *)
Definition authorized (self : OpenAIProvider.t) (req : Request) : Prop :=
  In ("Authorization", OpenAIProvider.authorization self) (headers req).

(** The states of a batch that [mapOpenAIBatchStatus] names. *)
Definition known_statuses : list string :=
  ["validating"; "processing"; "completed"; "failed"; "cancelled"; "cancelling";
   "expired"].

(** An item that the loop of [createBatch] lets pass. *)
Definition valid_item (p : Types.BatchRequest) : Prop :=
  exists messages,
    br_messages p = Some messages /\ 1 <= length messages <= 2048.

(** The document of the requests of a batch: one line for each. *)
Fixpoint jsonl_of `{Runtime} (reqs : list OpenAITypes.BatchRequest) : string :=
  match reqs with
  | [] => ""
  | q :: rest =>
      JSON_stringify (OpenAIProvider.js_of_batch_request q) 0 ++ nl ++ jsonl_of rest
  end.

(** The request of an item is a completion request for the model of the
    adapter with the messages of the item as they are. *)
Definition request_of_item (needs : bool) (p : Types.BatchRequest)
    (q : OpenAITypes.BatchRequest) : Prop :=
  OpenAITypes.br_method q = "POST"
  /\ OpenAITypes.br_url q = "/v1/chat/completions"
  /\ OpenAITypes.cr_model (OpenAITypes.br_body q) = "gpt-4o-mini"
  /\ OpenAITypes.cr_messages (OpenAITypes.br_body q)
     = OpenAIProvider.formatMessages (default [] (br_messages p))
  /\ OpenAITypes.response_format (OpenAITypes.br_body q)
     = (if needs then Some OpenAITypes.json_object else None).

(** Every character of the string satisfies [p]. *)
Fixpoint all_chars (p : ascii -> bool) (s : string) : bool :=
  match s with
  | EmptyString => true
  | String c r => p c && all_chars p r
  end.

Definition is_decimal (c : ascii) : bool :=
  let n := nat_of_ascii c in (48 <=? n)%nat && (n <=? 57)%nat.

(** A correlation id is not empty and made of letters, digits and
    underscores. *)
Definition is_id_char (c : ascii) : bool := is_alnum c || Ascii.eqb c "_".

Definition well_formed_id (id : string) : Prop :=
  all_chars is_id_char id = true /\ nonempty id = true.

(** The item gives no id, or one without any letter or digit. *)
Definition without_own_id (p : Types.BatchRequest) : Prop :=
  match br_id p with
  | Some id => strip_non_alnum id = ""
  | None => True
  end.

(** A back end that answers every call with the error payload [error]. *)
Definition failing (error : jsval) (env : Env) : Prop :=
  (forall l r, fetch_chat env l r = HttpFail error)
  /\ (forall l r, fetch_upload env l r = HttpFail error)
  /\ (forall l r, fetch_batch_create env l r = HttpFail error)
  /\ (forall l r, fetch_batch_status env l r = HttpFail error)
  /\ (forall l r, fetch_batch_cancel env l r = HttpFail error)
  /\ (forall l r, fetch_file_content env l r = HttpFail error)
  /\ (forall l r, fetch_generate env l r = HttpFail error).

(** What [objectToGoogleSchema] returns: [null], a type marker, an array
    schema or an object schema, whose properties have distinct names, none
    of them [__proto__]. *)
#[warnings="-register-all"]
Inductive well_formed_schema : jsval -> Prop :=
| schema_null : well_formed_schema JNull
| schema_type t :
    In t ["STRING"; "NUMBER"; "BOOLEAN"] -> well_formed_schema (type_only t)
| schema_array items :
    well_formed_schema items -> well_formed_schema (array_of items)
| schema_object properties :
    Forall (fun kv => well_formed_schema (snd kv)) properties ->
    NoDup (map fst properties) ->
    ~ In "__proto__" (map fst properties) ->
    well_formed_schema (object_of properties).

(** Every array of the value is empty or holds one item, an empty object
    or the string [example]. *)
#[warnings="-register-all"]
Fixpoint collapsed (v : jsval) : bool :=
  match v with
  | JArr [] => true
  | JArr [JObj []] => true
  | JArr [JStr s] => String.eqb s "example"
  | JArr _ => false
  | JObj props =>
      (fix all (l : list (string * jsval)) : bool :=
         match l with
         | [] => true
         | (_, x) :: r => collapsed x && all r
         end) props
  | _ => true
  end.

End Properties.
Export Properties.

(* ================================================================= *)
(** ** Data of the examples *)

Module Examples.

(** A JSON text is written with apostrophes for its double quotes. *)
Fixpoint json_text (s : string) : string :=
  match s with
  | EmptyString => EmptyString
  | String c r =>
      String (if Ascii.eqb c "'" then "034"%char else c) (json_text r)
  end.

Definition completion (content : string) : OpenAITypes.ChatCompletionResponse :=
  {| OpenAITypes.ccr_id := "chatcmpl-1";
     OpenAITypes.choices :=
       [{| OpenAITypes.ch_index := 0;
           OpenAITypes.ch_message :=
             {| OpenAITypes.wm_role := "assistant";
                OpenAITypes.wm_content := content |};
           OpenAITypes.finish_reason := "stop" |}];
     OpenAITypes.ccr_usage :=
       {| OpenAITypes.prompt_tokens := 12;
          OpenAITypes.completion_tokens := 5;
          OpenAITypes.total_tokens := 17 |} |}.

Definition gemini_answer (content : string) : GoogleTypes.GeminiPromptResponse :=
  {| GoogleTypes.candidates :=
       [{| GoogleTypes.cand_content :=
             {| GoogleTypes.cand_parts := [{| GoogleTypes.part_text := content |}] |};
           GoogleTypes.finishReason := "STOP" |}];
     GoogleTypes.usageMetadata :=
       {| GoogleTypes.promptTokenCount := 12;
          GoogleTypes.candidatesTokenCount := 5;
          GoogleTypes.totalTokenCount := 17 |} |}.

Definition batch_job (status : string) (output : option string)
    : OpenAITypes.BatchStatusResponse :=
  {| OpenAITypes.bsr_id := "batch_abc123";
     OpenAITypes.bsr_status := status;
     OpenAITypes.input_file_id := "file-in";
     OpenAITypes.completion_window := "24h";
     OpenAITypes.error_file_id := None;
     OpenAITypes.output_file_id := output |}.

(** A back end that answers every completion with [content], accepts
    uploads and batches, reports the batch completed and serves [document]
    as its output; the clock stands at a fixed instant. *)
Definition backend (content document : string) : Env :=
  {| fetch_chat := fun _ _ => HttpOk (completion content);
     fetch_upload := fun _ _ =>
       HttpOk {| OpenAITypes.fu_id := "file-in";
                 OpenAITypes.fu_bytes := 0;
                 OpenAITypes.fu_filename := "batch.jsonl" |};
     fetch_batch_create := fun _ _ => HttpOk (batch_job "validating" None);
     fetch_batch_status := fun _ _ => HttpOk (batch_job "completed" (Some "file-out"));
     fetch_batch_cancel := fun _ _ => HttpOk tt;
     fetch_file_content := fun _ _ => HttpOk document;
     fetch_generate := fun _ _ => HttpOk (gemini_answer content);
     Date_now := fun _ => 1700000000000%N |}.

Definition openai (content document : string) : OpenAIProvider.t :=
  {| OpenAIProvider.apiKey := "sk-test";
     OpenAIProvider.baseUrl := OpenAIProvider.default_baseUrl;
     OpenAIProvider.fetchFn := backend content document |}.

Definition google (content : string) : GoogleProvider.t :=
  {| GoogleProvider.apiKey := "g-test";
     GoogleProvider.baseUrl := GoogleProvider.default_baseUrl;
     GoogleProvider.fetchFn := backend content "" |}.

Definition ask (content : string) : PromptMessage :=
  {| role := user; content := content |}.

Definition with_sample (sample : jsval) : LLMRequestOptions :=
  {| temperature := None; topK := None; topP := None; maxTokens := None;
     frequencyPenalty := None; presencePenalty := None;
     sampleObj := sample; agentName := None; user_ := None;
     seed := None; providerParams_seed := None |}.

(** The example value of the tests, [{ answer: '', confidence: 0,
    reasoning: '' }]. *)
Definition test_sample : jsval :=
  JObj [("answer", JStr ""); ("confidence", JNum 0); ("reasoning", JStr "")].

(** An example value with lists: of tags, of sources, and an empty one. *)
Definition listed_sample : jsval :=
  JObj [("answer", JStr ""); ("confidence", JNum 0);
        ("tags", JArr [JStr "a"; JStr "b"]);
        ("sources", JArr [JObj [("url", JStr "")]; JObj [("url", JStr "")]]);
        ("notes", JArr [])].

Definition item (content : string) : Types.BatchRequest :=
  {| br_id := None; br_messages := Some [ask content] |}.

(** The batch of the tests: three questions, submitted by the agent
    [TestBatchAgent] under the name [CapitalsBatch]. *)
Definition capitals : list Types.BatchRequest :=
  [item "What is the capital of France?";
   item "What is the capital of Germany?";
   item "What is the capital of Italy?"].

Definition capitals_options : BatchRequestOptions :=
  {| base :=
       {| temperature := Some 0x1.999999999999ap-3%float;
          topK := None; topP := None; maxTokens := None;
          frequencyPenalty := None; presencePenalty := None;
          sampleObj := JUndefined;
          agentName := Some "TestBatchAgent"; user_ := None;
          seed := None; providerParams_seed := None |};
     batchName := Some "CapitalsBatch";
     priority := None; timeoutSeconds := None; failureThreshold := None |}.

(** A batch with an example value, of which only the first item names
    JSON. *)
Definition mixed : list Types.BatchRequest :=
  [item "What is the capital of France? Answer in JSON.";
   item "What is the capital of Germany?"].

Definition structured_options : BatchRequestOptions :=
  {| base := with_sample test_sample;
     batchName := None; priority := None; timeoutSeconds := None;
     failureThreshold := None |}.

(** An output document of four lines: a plain answer, a JSON answer, a
    failed item, and a line that is not JSON. *)
Definition line_plain : string :=
  json_text
    ("{'id':'batch_req_1','custom_id':'TestBatchAgent_CapitalsBatch_1700000000000_0',"
     ++ "'response':{'status_code':200,'request_id':'req_1','body':{'id':'chatcmpl-1',"
     ++ "'choices':[{'index':0,'message':{'role':'assistant',"
     ++ "'content':'The capital of France is Paris.'},'finish_reason':'stop'}],"
     ++ "'usage':{'prompt_tokens':12,'completion_tokens':7,'total_tokens':19}}},"
     ++ "'error':null}").

Definition line_json : string :=
  json_text
    ("{'id':'batch_req_2','custom_id':'TestBatchAgent_CapitalsBatch_1700000000000_1',"
     ++ "'response':{'status_code':200,'request_id':'req_2','body':{'id':'chatcmpl-2',"
     ++ "'choices':[{'index':0,'message':{'role':'assistant',"
     ++ "'content':'{\'answer\':\'Berlin\',\'confidence\':1,\'reasoning\':\'known\'}'},"
     ++ "'finish_reason':'stop'}],"
     ++ "'usage':{'prompt_tokens':12,'completion_tokens':9,'total_tokens':21}}},"
     ++ "'error':null}").

Definition line_failed : string :=
  json_text
    ("{'id':'batch_req_3','custom_id':'TestBatchAgent_CapitalsBatch_1700000000000_2',"
     ++ "'response':null,"
     ++ "'error':{'message':'The request timed out.','type':'server_error'}}").

Definition line_garbled : string := "<html>502 Bad Gateway</html>".

Definition output_document : string :=
  line_plain ++ nl ++ line_json ++ nl ++ line_failed ++ nl ++ line_garbled ++ nl.

(** The store of a caller who holds two message arrays and the array of
    the two: [5 -> [2, 4]], [2 -> [1]], [4 -> [3]]. *)
Definition france : PromptMessage := ask "What is the capital of France?".
Definition germany : PromptMessage := ask "What is the capital of Germany?".

Definition caller_store : gmap loc cell :=
  list_to_map
    [(1%positive, CMsg france); (2%positive, CArr [1%positive]);
     (3%positive, CMsg germany); (4%positive, CArr [3%positive]);
     (5%positive, CArr [2%positive; 4%positive])].

Definition assistant_prompt : string := "You are a helpful assistant.".

(** The agent of the test of batch operations on Google. *)
Definition google_agent `{Runtime} : LLMAgent.t :=
  {| LLMAgent.name := "TestGoogleBatchErrorAgent";
     LLMAgent.modelName := Gemini2Flash;
     LLMAgent.provider := Google;
     LLMAgent.basePrompt := assistant_prompt;
     LLMAgent.providerInstance := LLMAgent.google_instance (google "");
     LLMAgent.sampleObj := JUndefined |}.

(** A back end like [backend] on which the batch is in the state [status]
    with the output file [output]. *)
Definition backend_reporting (status : string) (output : option string) : Env :=
  {| fetch_chat := fetch_chat (backend "" "");
     fetch_upload := fetch_upload (backend "" "");
     fetch_batch_create := fetch_batch_create (backend "" "");
     fetch_batch_status := fun _ _ => HttpOk (batch_job status output);
     fetch_batch_cancel := fetch_batch_cancel (backend "" "");
     fetch_file_content := fetch_file_content (backend "" "");
     fetch_generate := fetch_generate (backend "" "");
     Date_now := Date_now (backend "" "") |}.

Definition openai_reporting (status : string) (output : option string)
    : OpenAIProvider.t :=
  {| OpenAIProvider.apiKey := "sk-test";
     OpenAIProvider.baseUrl := OpenAIProvider.default_baseUrl;
     OpenAIProvider.fetchFn := backend_reporting status output |}.

(** A back end that refuses every call. *)
Definition refusal : jsval :=
  JObj [("error", JObj [("message", JStr "Incorrect API key provided")])].

Definition unavailable : Env :=
  {| fetch_chat := fun _ _ => HttpFail refusal;
     fetch_upload := fun _ _ => HttpFail refusal;
     fetch_batch_create := fun _ _ => HttpFail refusal;
     fetch_batch_status := fun _ _ => HttpFail refusal;
     fetch_batch_cancel := fun _ _ => HttpFail refusal;
     fetch_file_content := fun _ _ => HttpFail refusal;
     fetch_generate := fun _ _ => HttpFail refusal;
     Date_now := fun _ => 1700000000000%N |}.

Definition openai_unavailable : OpenAIProvider.t :=
  {| OpenAIProvider.apiKey := "sk-test";
     OpenAIProvider.baseUrl := OpenAIProvider.default_baseUrl;
     OpenAIProvider.fetchFn := unavailable |}.

Definition google_unavailable : GoogleProvider.t :=
  {| GoogleProvider.apiKey := "g-test";
     GoogleProvider.baseUrl := GoogleProvider.default_baseUrl;
     GoogleProvider.fetchFn := unavailable |}.

(** A line of an output document whose response has no choice, and a
    document of two lines that ends with it. *)
Definition line_empty : string :=
  json_text
    ("{'id':'batch_req_4','custom_id':'TestBatchAgent_CapitalsBatch_1700000000000_3',"
     ++ "'response':{'status_code':200,'request_id':'req_4','body':{'id':'chatcmpl-4',"
     ++ "'choices':[],"
     ++ "'usage':{'prompt_tokens':12,'completion_tokens':0,'total_tokens':12}}},"
     ++ "'error':null}").


(** Lines that parse and are not of the declared type: a response without
    a body, a line without a correlation id, and a completion whose content
    is a list. *)
Definition line_without_body : string :=
  json_text
    ("{'id':'batch_req_5','custom_id':'TestBatchAgent_CapitalsBatch_1700000000000_4',"
     ++ "'response':{'status_code':200,'request_id':'req_5'},'error':null}").

Definition line_without_id : string :=
  json_text
    ("{'response':{'body':{'choices':[{'message':{'content':'Rome'}}],"
     ++ "'usage':{'prompt_tokens':12,'completion_tokens':1,'total_tokens':13}}}}").

Definition line_with_list : string :=
  json_text
    ("{'custom_id':'a_0','response':{'body':{'choices':[{'message':"
     ++ "{'content':[5]}}],'usage':{'prompt_tokens':12}}}}").

(** Characters of more than one byte: the no-break space U+00A0, the line
    separator U+2028, the byte order mark U+FEFF, the letter U+00E9 and the
    character U+1F600, which is outside the Basic Multilingual Plane. *)
Definition no_break_space : string :=
  String "194"%char (String "160"%char EmptyString).

Definition line_separator : string :=
  String "226"%char (String "128"%char (String "168"%char EmptyString)).

Definition byte_order_mark : string :=
  String "239"%char (String "187"%char (String "191"%char EmptyString)).

Definition e_acute : string :=
  String "195"%char (String "169"%char EmptyString).

Definition grinning_face : string :=
  String "240"%char (String "159"%char (String "152"%char
    (String "128"%char EmptyString))).

(** A batch whose second item has no message. *)
Definition with_empty_item : list Types.BatchRequest :=
  [item "What is the capital of France?";
   {| br_id := Some "italy"; br_messages := Some [] |}].

(** An agent on the OpenAI adapter, with the example value of the tests. *)
Definition openai_agent `{Runtime} : LLMAgent.t :=
  {| LLMAgent.name := "TestAgent";
     LLMAgent.modelName := GPT4oMini;
     LLMAgent.provider := OpenAI;
     LLMAgent.basePrompt := assistant_prompt;
     LLMAgent.providerInstance := LLMAgent.openai_instance (openai "Paris" "");
     LLMAgent.sampleObj := JUndefined |}.

(** The lower case of a runtime on texts of ASCII characters, which the
    texts of the examples are. *)
Definition ascii_casing : Casing := {| String_toLowerCase := toLowerCase |}.

(** The options of the agent of the tests of structured output. *)
Definition agent_options (model : string) (sample : jsval) : LLMAgent.Options :=
  {| LLMAgent.o_name := "TestStructuredAgent";
     LLMAgent.o_basePrompt :=
       "Reply in JSON with an answer, your confidence and your reasoning.";
     LLMAgent.o_model := model;
     LLMAgent.o_apiKey := "sk-test";
     LLMAgent.o_baseUrl := None;
     LLMAgent.o_fetchFn := None;
     LLMAgent.o_sampleObj := sample |}.

End Examples.

(* ================================================================= *)
(** ** The embedding on concrete values *)

Example toLowerCase_example :
  toLowerCase "Answer in JSON, please." = "answer in json, please.".
Proof. reflexivity. Qed.

Example mentions_json_example :
  map mentions_json [Examples.ask "Reply as Json"; Examples.ask "Reply briefly"]
  = [true; false].
Proof. reflexivity. Qed.

Example strip_non_alnum_example :
  strip_non_alnum "Capitals Batch #1" = "CapitalsBatch1".
Proof. reflexivity. Qed.

Example split_example :
  JS.split "_" "agent_batch_abc" = ["agent"; "batch"; "abc"]
  /\ JS.split "_" "" = [""] /\ JS.split "_" "_x_" = [""; "x"; ""].
Proof. repeat split. Qed.

Example actualBatchId_example :
  map OpenAIProvider.actualBatchId ["agent_batch_abc"; "abc"; "_abc"; "abc_"]
  = ["batch_abc"; "abc"; "abc"; ""].
Proof. reflexivity. Qed.

Example trim_example :
  trim (" " ++ nl ++ "a b" ++ nl ++ nl) = "a b".
Proof. reflexivity. Qed.

Example trim_unicode_example :
  trim (Examples.no_break_space ++ " a b " ++ Examples.line_separator ++ nl
        ++ Examples.byte_order_mark ++ Examples.no_break_space)
  = "a b"
  /\ trim (Examples.e_acute ++ " x " ++ Examples.e_acute)
     = Examples.e_acute ++ " x " ++ Examples.e_acute
  /\ JS.split LF (trim (Examples.line_garbled ++ Examples.no_break_space ++ nl))
     = [Examples.line_garbled].
Proof. repeat split; vm_compute; reflexivity. Qed.

Example utf16_length_example :
  map utf16_length ["abc"; Examples.e_acute; Examples.grinning_face;
                    "a" ++ Examples.grinning_face ++ Examples.e_acute]
  = [3; 1; 2; 4]%nat.
Proof. vm_compute. reflexivity. Qed.

Example member_example :
  member (JObj [("a", JNum 1)]) "a" = JNum 1
  /\ member (JObj [("a", JNum 1)]) "b" = JUndefined
  /\ member (JArr [JNum 1; JNum 2]) "1" = JNum 2
  /\ member (JArr [JNum 1; JNum 2]) "01" = JUndefined
  /\ member (JArr [JNum 1; JNum 2]) "length" = JNum 2
  /\ member (JStr "abc") "0" = JStr "a"
  /\ member (JStr ("a" ++ Examples.grinning_face)) "length" = JNum 3
  /\ member (JNum 5) "a" = JUndefined
  /\ get JNull "error"
     = inl (TypeError "Cannot read properties of null (reading 'error')")
  /\ get JUndefined "choices"
     = inl (TypeError "Cannot read properties of undefined (reading 'choices')").
Proof. repeat split; vm_compute; reflexivity. Qed.

Example mapOpenAIBatchStatus_example :
  map OpenAIProvider.mapOpenAIBatchStatus
      ["validating"; "processing"; "completed"; "failed"; "cancelled";
       "cancelling"; "expired"; "finalizing"]
  = [processing; processing; completed; failed; failed; failed; failed; pending].
Proof. reflexivity. Qed.

Example hours_of_example :
  map OpenAIProvider.hours_of [1; 3600; 3601; 86400; 1000000; -5]%float
  = [1; 1; 2; 24; 24; 1]%nat.
Proof. vm_compute. reflexivity. Qed.

Example truthy_example :
  map truthy [JNum 0; JNum (-0); JNum nan; JNum 1; JBool false; JStr "";
              JStr "0"; JNull; JUndefined; JObj []; JArr []]
  = [false; false; false; true; false; false; true; false; false; true; true].
Proof. vm_compute. reflexivity. Qed.

Example number_to_string_example :
  map Json.number_to_string
      [0x1.6666666666666p-1; 0x1.999999999999ap-3; 1; 17; -42; 0.5; 1e21;
       0x1.ad7f29abcaf48p-24; 0x1.ac53a7e04bcdap+66; 0x1.0c6f7a0b5ed8dp-20]%float
  = ["0.7"; "0.2"; "1"; "17"; "-42"; "0.5"; "1e+21"; "1e-7";
     "123456789012345680000"; "0.000001"].
Proof. vm_compute. reflexivity. Qed.

Example parse_example :
  Json.parse (Examples.json_text " {'a': [1, 2.5, -3e2, true, null], 'b': {}} ")
  = inr (JObj [("a", JArr [JNum 1; JNum 2.5; JNum (-300); JBool true; JNull]);
               ("b", JObj [])])
  /\ Json.parse "The capital of France is Paris." = inl "SyntaxError"
  /\ Json.parse (Examples.json_text "{'a': 1,}") = inl "SyntaxError".
Proof. repeat split; vm_compute; reflexivity. Qed.

(** The properties of a parsed object are in the order of enumeration: the
    array indices first, in ascending order, and a key that is repeated in
    the place of its first occurrence; the escapes of a surrogate pair are
    one character. *)
Example parse_order_example :
  Json.parse
    (Examples.json_text
       "{'b':1,'2':2,'a':3,'1':4,'b':5,'01':6,'4294967295':7,'4294967294':8}")
  = inr (JObj [("1", JNum 4); ("2", JNum 2); ("4294967294", JNum 8);
               ("b", JNum 5); ("a", JNum 3); ("01", JNum 6);
               ("4294967295", JNum 7)])
  /\ Json.parse (Examples.json_text "'\ud83d\ude00'")
     = inr (JStr Examples.grinning_face)
  /\ Json.stringify (JStr Examples.grinning_face) 0
     = Examples.json_text "'" ++ Examples.grinning_face ++ Examples.json_text "'"
  /\ option_map (fun v => Json.stringify v 0)
       (match Json.parse (Examples.json_text "'\ud83dx'") with
        | inr v => Some v
        | inl _ => None
        end)
     = Some (Examples.json_text "'\ud83dx'").
Proof. repeat split; vm_compute; reflexivity. Qed.

Example ToString_example :
  map (@ToString Json.runtime)
      [JStr "x"; JNum 0.5; JNull; JUndefined; JBool true;
       JArr [JNum 1; JNull; JArr [JStr "x"; JBool true]; JObj []];
       JObj [("a", JNum 1)]; JObj [("toString", JNum 1)]]
  = [inr "x"; inr "0.5"; inr "null"; inr "undefined"; inr "true";
     inr "1,,x,true,[object Object]"; inr "[object Object]";
     inl (TypeError "Cannot convert object to primitive value")].
Proof. vm_compute. reflexivity. Qed.

Example stringify_example :
  Json.stringify (JObj [("a", JArr [JNum 1; JUndefined]); ("b", JUndefined);
                        ("c", JStr "x")]) 0
  = Examples.json_text "{'a':[1,null],'c':'x'}".
Proof. vm_compute. reflexivity. Qed.

(** The structure instruction for the example value of the tests, and for
    one with an array. *)
Example structure_example :
  @structure Json.runtime Examples.test_sample
  = Examples.json_text
      ("{" ++ nl ++ "  'answer': ''," ++ nl ++ "  'confidence': 0," ++ nl
       ++ "  'reasoning': ''" ++ nl ++ "}")
  /\ @structure Json.runtime
       (JObj [("languages", JArr [JStr "fr"; JStr "oc"]);
              ("cities", JArr [JObj [("name", JStr "")]])])
     = Examples.json_text
         ("{" ++ nl ++ "  'languages': [" ++ nl ++ "    'example'" ++ nl
          ++ "  ]," ++ nl ++ "  'cities': [" ++ nl ++ "    {}" ++ nl ++ "  ]"
          ++ nl ++ "}")
  /\ @structure Json.runtime (JNum 5) = "number".
Proof. repeat split; vm_compute; reflexivity. Qed.

(** The scenario of the specification: the example [{ name: '', capital:
    '' }] and the one message "tell me about France". *)
Example enhancePromptWithStructure_example :
  @OpenAIProvider.enhancePromptWithStructure Json.runtime
    [Examples.ask "tell me about France"]
    (JObj [("name", JStr ""); ("capital", JStr "")])
  = [Examples.ask
       ("tell me about France" ++ nl ++ nl
        ++ "Please provide the response in the following JSON structure: "
        ++ Examples.json_text
             ("{" ++ nl ++ "  'name': ''," ++ nl ++ "  'capital': ''" ++ nl ++ "}"))]
  /\ @GoogleProvider.enhancePromptWithStructure Json.runtime
       [{| role := developer; content := "Be brief." |}] (JNum 1)
     = [{| role := developer; content := "Be brief." |};
        Examples.ask
          "Please provide the response in the following JSON structure: number"].
Proof. split; vm_compute; reflexivity. Qed.

Example objectToGoogleSchema_example :
  GoogleProvider.objectToGoogleSchema Examples.test_sample
  = object_of [("answer", type_only "STRING");
               ("confidence", type_only "NUMBER");
               ("reasoning", type_only "STRING")].
Proof. reflexivity. Qed.

(* ================================================================= *)
(** ** Structured output is requested for truthy examples that are not
       strings *)

Lemma needsStructuredOutput_spec (v : jsval) :
  needsStructuredOutput v = true <-> truthy v = true /\ typeof v <> "string".
Proof.
  unfold needsStructuredOutput. rewrite andb_true_iff, negb_true_iff.
  split; intros [Ht Hs]; split; try assumption.
  - intros E. rewrite E in Hs. discriminate.
  - destruct (String.eqb_spec (typeof v) "string"); [contradiction | reflexivity].
Qed.

(** The values for which structured output is requested. *)
Lemma needsStructuredOutput_cases (v : jsval) :
  needsStructuredOutput v =
  match v with
  | JBool b => b
  | JNum x => truthy_num x
  | JArr _ | JObj _ => true
  | JUndefined | JNull | JStr _ => false
  end.
Proof.
  destruct v as [| | b | x | s | l | props]; unfold needsStructuredOutput; simpl;
    try reflexivity.
  - apply andb_true_r.
  - apply andb_true_r.
  - apply andb_false_r.
Qed.

Section SingleCompletion.
Context `{Runtime}.
Variables (o : OpenAIProvider.t) (g : GoogleProvider.t).

(** What a call of the OpenAI [prompt] does for a model of the adapter:
    it stops before the transport when JSON is required and not named, and
    otherwise makes one call, whose request is in JSON mode exactly when
    structured output is requested. *)
Lemma openai_prompt_request messages options log :
  let needs := needsStructuredOutput (sampleObj options) in
  (needs = true /\ existsb mentions_json messages = false
   /\ OpenAIProvider.prompt o messages GPT4oMini options log
      = (inl (Error json_required), log))
  \/ ((needs = false \/ existsb mentions_json messages = true)
      /\ exists req,
        snd (OpenAIProvider.prompt o messages GPT4oMini options log)
          = (log ++ [req])%list
        /\ openai_json_mode req = needs).
Proof.
  intros needs. unfold OpenAIProvider.prompt. simpl.
  fold needs.
  destruct needs eqn:En; simpl;
    [destruct (existsb mentions_json messages) eqn:Em; simpl |].
  2: { left. repeat split. }
  all: right; split; [auto |].
  all: unfold mbind, M_bind, bind, fetch.
  all: match goal with |- context [fetch_chat _ _ ?r] => exists r end.
  all: split; [| reflexivity].
  all: destruct (fetch_chat _ _ _) as [rd | err]; simpl; [| reflexivity].
  all: destruct (OpenAITypes.choices rd); reflexivity.
Qed.

(** What a call of the Google [prompt] does for a model of the adapter:
    one call, whose request asks for JSON exactly when structured output is
    requested. *)
Lemma google_prompt_request messages model options log :
  is_Some (GoogleProvider.find_model model) ->
  exists req,
    snd (GoogleProvider.prompt g messages model options log) = (log ++ [req])%list
    /\ google_json_mode req = needsStructuredOutput (sampleObj options).
Proof.
  intros [mi Hmi]. unfold GoogleProvider.prompt. rewrite Hmi.
  unfold mbind, M_bind, bind, fetch.
  match goal with |- context [fetch_generate _ _ ?r] => exists r end.
  split.
  - destruct (fetch_generate _ _ _) as [rd | err]; simpl; [| reflexivity].
    destruct (GoogleTypes.candidates rd) as [| c ?]; [reflexivity |].
    destruct (GoogleTypes.cand_parts _); reflexivity.
  - unfold google_json_mode. simpl.
    destruct (needsStructuredOutput (sampleObj options)); reflexivity.
Qed.

End SingleCompletion.

(** What the two adapters do.  The request of a single completion asks for
    JSON exactly when [needsStructuredOutput] holds, and that holds exactly
    when the example value is truthy and not a string: an object or an
    array (also empty), [true], or a number other than [0] and [NaN].  A
    string, an absent example, [null], [false], [0] and [NaN] never request
    it.  The OpenAI adapter stops before the transport when it is requested
    and no message names JSON. *)
Theorem prompt_structured_output_cases `{Runtime}
    (o : OpenAIProvider.t) (g : GoogleProvider.t)
    (messages : list PromptMessage) (model : ModelName)
    (options : LLMRequestOptions) (log : list Request) :
  is_Some (GoogleProvider.find_model model) ->
  let sample := sampleObj options in
  let needs := needsStructuredOutput sample in
  (needs = true <-> truthy sample = true /\ typeof sample <> "string")
  /\ needs = match sample with
             | JBool b => b
             | JNum x => truthy_num x
             | JArr _ | JObj _ => true
             | JUndefined | JNull | JStr _ => false
             end
  /\ ((needs = true /\ existsb mentions_json messages = false
       /\ OpenAIProvider.prompt o messages GPT4oMini options log
          = (inl (Error json_required), log))
      \/ exists req,
          snd (OpenAIProvider.prompt o messages GPT4oMini options log)
            = (log ++ [req])%list
          /\ openai_json_mode req = needs)
  /\ exists req,
      snd (GoogleProvider.prompt g messages model options log)
        = (log ++ [req])%list
      /\ google_json_mode req = needs.
Proof.
  intros Hmodel sample needs.
  split; [| split; [| split]].
  - apply needsStructuredOutput_spec.
  - apply needsStructuredOutput_cases.
  - destruct (openai_prompt_request o messages options log)
      as [Hstop | [_ Hsent]]; [left | right]; assumption.
  - apply google_prompt_request, Hmodel.
Qed.

Section C4_examples.
#[local] Existing Instance Json.runtime.
Import Examples.

Lemma prompt_structured_output_cases_witness :
  exists req,
    snd (GoogleProvider.prompt (google "{}") [ask "Tell me about France"]
           Gemini2Flash (with_sample test_sample) [])
      = [req]
    /\ google_json_mode req = true.
Proof.
  destruct (prompt_structured_output_cases
              (openai "{}" "") (google "{}") [ask "Tell me about France"]
              Gemini2Flash (with_sample test_sample) [])
    as (_ & _ & _ & Hg).
  - vm_compute. eauto.
  - exact Hg.
Defined.

(** C4.  The claim has structured output enforced for every supplied
    example that is not a string, the number [0] and the boolean [false]
    among them.  The code tests the example for truthiness first: with the
    example [0] on the OpenAI adapter and with the example [false] on the
    Google adapter, the request of a prompt that names JSON is sent without
    the JSON mode, and the completion text [4] comes back as the text
    itself, not as the number that it parses to. *)
Lemma C4_prompt_ignores_zero_and_false :
  supplied_non_string (JNum 0) /\ supplied_non_string (JBool false)
  /\ (exists req r,
        OpenAIProvider.prompt (openai "4" "") [ask "Answer in JSON"]
          GPT4oMini (with_sample (JNum 0)) []
        = (inr r, [req])
        /\ openai_json_mode req = false
        /\ data r = JStr "4"
        /\ decoded "4" = JNum 4)
  /\ (exists req r,
        GoogleProvider.prompt (google "4") [ask "Answer in JSON"]
          Gemini2Flash (with_sample (JBool false)) []
        = (inr r, [req])
        /\ google_json_mode req = false
        /\ data r = JStr "4").
Proof.
  repeat split; try discriminate.
  - eexists _, _. repeat split; vm_compute; reflexivity.
  - eexists _, _. repeat split; vm_compute; reflexivity.
Qed.

End C4_examples.

(* ================================================================= *)
(** ** The schema inferencer *)

(** Induction on a value with the hypothesis for the items of an array and
    for the values of the properties of an object. *)
Lemma jsval_nested_ind (P : jsval -> Prop) :
  P JUndefined -> P JNull -> (forall b, P (JBool b)) -> (forall x, P (JNum x)) ->
  (forall s, P (JStr s)) ->
  (forall items, Forall P items -> P (JArr items)) ->
  (forall props, Forall (fun kv => P (snd kv)) props -> P (JObj props)) ->
  forall v, P v.
Proof.
  intros Hu Hn Hb Hx Hs Ha Ho.
  fix IH 1. intros [| | b | x | s | items | props].
  - exact Hu.
  - exact Hn.
  - apply Hb.
  - apply Hx.
  - apply Hs.
  - apply Ha. induction items as [| i items IHi]; constructor; [apply IH | exact IHi].
  - apply Ho. induction props as [| [k w] props IHp]; constructor;
      [apply IH | exact IHp].
Qed.

(** The properties of the schema of an object are assigned one by one. *)
Lemma objectToGoogleSchema_object (props : list (string * jsval)) :
  GoogleProvider.objectToGoogleSchema (JObj props) =
  object_of
    (fold_left
       (fun acc kv => prop_set (fst kv) (GoogleProvider.objectToGoogleSchema (snd kv)) acc)
       props []).
Proof.
  unfold object_of. simpl. do 3 f_equal.
  generalize (@nil (string * jsval)).
  induction props as [| [k w] props IH]; intros acc; simpl; [reflexivity | apply IH].
Qed.

Lemma assoc_set_fresh (key : string) (v : jsval) (acc : list (string * jsval)) :
  existsb (fun kv => String.eqb (fst kv) key) acc = false ->
  assoc_set key v acc = (acc ++ [(key, v)])%list.
Proof.
  induction acc as [| [k w] acc IH]; simpl; intros Hf; [reflexivity |].
  apply orb_false_iff in Hf as [Hk Hacc].
  rewrite Hk, IH by exact Hacc. reflexivity.
Qed.

(** With distinct keys other than [__proto__], the assignments list the
    keys in order, each with the schema of its value. *)
Lemma assigned_properties (f : jsval -> jsval) (props acc : list (string * jsval)) :
  (forall k,
      existsb (fun kv => String.eqb (fst kv) k) props = true ->
      existsb (fun kv => String.eqb (fst kv) k) acc = false) ->
  (fix all (l : list (string * jsval)) : bool :=
     match l with
     | [] => true
     | (k, x) :: r =>
         negb (String.eqb k "__proto__")
         && negb (existsb (fun kv => String.eqb (fst kv) k) r)
         && ordinary x && all r
     end) props = true ->
  fold_left (fun acc kv => prop_set (fst kv) (f (snd kv)) acc) props acc
  = (acc ++ map (fun kv => (fst kv, f (snd kv))) props)%list.
Proof.
  revert acc. induction props as [| [k w] props IH]; intros acc Hacc Hall; simpl.
  - symmetry. apply app_nil_r.
  - apply andb_true_iff in Hall as [Hall Hrest].
    apply andb_true_iff in Hall as [Hall _].
    apply andb_true_iff in Hall as [Hproto Hdistinct].
    apply negb_true_iff in Hproto, Hdistinct.
    unfold prop_set at 2. simpl. rewrite Hproto.
    rewrite assoc_set_fresh.
    + rewrite IH; [rewrite <- app_assoc; reflexivity | | exact Hrest].
      intros k' Hk'. rewrite existsb_app. simpl.
      rewrite Hacc by (simpl; rewrite Hk'; apply orb_true_r). simpl.
      rewrite orb_false_r.
      destruct (String.eqb_spec k k') as [-> |]; [| reflexivity].
      rewrite Hdistinct in Hk'. discriminate.
    + apply Hacc. simpl. rewrite String.eqb_refl. reflexivity.
Qed.

Lemma ordinary_values (props : list (string * jsval)) :
  ordinary (JObj props) = true ->
  Forall (fun kv => ordinary (snd kv) = true) props.
Proof.
  simpl. induction props as [| [k w] props IH]; intros Hall; constructor.
  - apply andb_true_iff in Hall as [Hall _].
    apply andb_true_iff in Hall as [_ Hw]. exact Hw.
  - apply IH. apply andb_true_iff in Hall as [_ Hrest]. exact Hrest.
Qed.

Lemma getGoogleSchemaType_fallback (jsType : string) :
  jsType <> "number" -> jsType <> "boolean" ->
  GoogleProvider.getGoogleSchemaType jsType = "STRING".
Proof.
  intros Hn Hb. unfold GoogleProvider.getGoogleSchemaType.
  destruct (String.eqb_spec jsType "string"); [reflexivity |].
  destruct (String.eqb_spec jsType "number"); [contradiction |].
  destruct (String.eqb_spec jsType "boolean"); [contradiction | reflexivity].
Qed.

(** C7 (as amended).  The schema inferencer is a total function.  It gives
    [null], not a schema, for [null] and [undefined]; the type marker of a
    boolean, a number or a string, where every type name other than
    [number] and [boolean] maps to [STRING]; an array of strings for an
    empty array; an array of the schema of the first item, whatever the
    other items, for a non-empty one; and for an object with distinct keys
    other than [__proto__] an object schema whose properties are the keys
    of the object in order, each with the schema of its value. *)
Theorem C7_schema_mirrors_shape (v : jsval) :
  ordinary v = true ->
  mirrors v (GoogleProvider.objectToGoogleSchema v)
  /\ (forall first rest,
        v = JArr (first :: rest) ->
        GoogleProvider.objectToGoogleSchema v
        = GoogleProvider.objectToGoogleSchema (JArr [first]))
  /\ (forall props,
        v = JObj props ->
        GoogleProvider.objectToGoogleSchema v
        = object_of
            (map (fun kv => (fst kv, GoogleProvider.objectToGoogleSchema (snd kv)))
                 props))
  /\ (forall jsType,
        jsType <> "number" -> jsType <> "boolean" ->
        GoogleProvider.getGoogleSchemaType jsType = "STRING").
Proof.
  intros Hv. repeat split.
  - revert Hv. induction v as [| | b | x | s | items IH | props IH]
      using jsval_nested_ind; intros Hv.
    + constructor.
    + constructor.
    + constructor.
    + constructor.
    + constructor.
    + destruct items as [| first rest]; [constructor |].
      apply mirrors_array. inversion IH; subst. auto.
    + rewrite objectToGoogleSchema_object.
      rewrite assigned_properties; [| reflexivity | exact Hv].
      apply mirrors_object. simpl.
      pose proof (ordinary_values props Hv) as Hvals.
      clear Hv. induction props as [| [k w] props IHp]; [constructor |].
      inversion IH; subst. inversion Hvals; subst.
      constructor; [split; [reflexivity | auto] | auto].
  - intros first rest ->. reflexivity.
  - intros props ->. rewrite objectToGoogleSchema_object.
    rewrite assigned_properties; [reflexivity | reflexivity | exact Hv].
  - apply getGoogleSchemaType_fallback.
Qed.

Lemma C7_schema_witness :
  mirrors
    (JObj [("name", JStr ""); ("languages", JArr [JStr "fr"; JStr "oc"]);
           ("population", JNum 0); ("seat", JNull)])
    (object_of
       [("name", type_only "STRING");
        ("languages", array_of (type_only "STRING"));
        ("population", type_only "NUMBER");
        ("seat", JNull)]).
Proof.
  exact (proj1 (C7_schema_mirrors_shape
                  (JObj [("name", JStr ""); ("languages", JArr [JStr "fr"; JStr "oc"]);
                         ("population", JNum 0); ("seat", JNull)])
                  eq_refl)).
Defined.

(** C7, as stated, fails: [null] and [undefined] are given no type marker
    at all, neither as the example nor as the value of a property. *)
Lemma C7_counterexample_null :
  ~ mirrors_as_specified JNull (GoogleProvider.objectToGoogleSchema JNull)
  /\ ~ mirrors_as_specified JUndefined
         (GoogleProvider.objectToGoogleSchema JUndefined)
  /\ GoogleProvider.objectToGoogleSchema (JObj [("seat", JNull)])
     = object_of [("seat", JNull)].
Proof.
  split; [| split]; [intros Hm; inversion Hm | intros Hm; inversion Hm | reflexivity].
Qed.

(* ================================================================= *)
(** ** Batch operations on the Google adapter *)

(** C8.  On the Google adapter each of the four batch operations, called
    with a model of its descriptor list, throws an error whose message ends
    with the name of the model, and calls the transport not once: the log
    of calls is the one it started with. *)
Theorem C8_google_batch_operations_throw (model : ModelName)
    (prompts : list (list PromptMessage)) (options : BatchRequestOptions)
    (batchId : string) (sampleObj : jsval) (log : list Request) :
  In model (map mi_name GoogleProvider.getModels) ->
  GoogleProvider.createBatch prompts model options log
  = (inl (Error ("Batch requests are not supported by the Google Gemini API for model "
                 ++ ModelName_str model)), log)
  /\ GoogleProvider.checkBatch batchId model log
     = (inl (Error ("Batch operations are not supported by the Google Gemini API for model "
                    ++ ModelName_str model)), log)
  /\ GoogleProvider.retrieveBatch batchId model sampleObj log
     = (inl (Error ("Batch operations are not supported by the Google Gemini API for model "
                    ++ ModelName_str model)), log)
  /\ GoogleProvider.cancelBatch batchId model log
     = (inl (Error ("Batch operations are not supported by the Google Gemini API for model "
                    ++ ModelName_str model)), log).
Proof.
  simpl. intros [<- | [<- | []]]; repeat split.
Qed.

Lemma C8_google_batch_witness :
  GoogleProvider.createBatch
    [[Examples.ask "What is the capital of France?"];
     [Examples.ask "What is the capital of Germany?"]]
    Gemini2Flash no_batch_options []
  = (inl (Error
       "Batch requests are not supported by the Google Gemini API for model Gemini 2.0 Flash"),
     []).
Proof.
  refine (proj1 (C8_google_batch_operations_throw Gemini2Flash _ _ "" JUndefined [] _)).
  simpl. auto.
Defined.

(* ================================================================= *)
(** ** Decoding of a structured completion *)

Section Decoding.
Context `{Runtime}.







End Decoding.

Section C9_examples.
#[local] Existing Instance Json.runtime.
Import Examples.


End C9_examples.

(* ================================================================= *)
(** ** The batch id that the OpenAI adapter addresses *)

Lemma split_nonempty (sep : ascii) (s : string) : JS.split sep s <> [].
Proof.
  destruct s as [| c r]; simpl; [discriminate |].
  destruct (Ascii.eqb c sep); [discriminate |].
  destruct (JS.split sep r); discriminate.
Qed.

Lemma join_cons (sep p : string) (ps : list string) :
  ps <> [] -> join sep (p :: ps) = p ++ sep ++ join sep ps.
Proof. destruct ps; [congruence | reflexivity]. Qed.

(** Joining the pieces of a split with the separator gives the string
    back. *)
Lemma join_split (c : ascii) (s : string) :
  join (String c "") (JS.split c s) = s.
Proof.
  induction s as [| a r IH]; simpl; [reflexivity |].
  destruct (Ascii.eqb_spec a c) as [-> |].
  - rewrite join_cons by apply split_nonempty. rewrite IH. reflexivity.
  - destruct (JS.split c r) as [| p ps] eqn:Es; [now apply split_nonempty in Es |].
    destruct ps as [| p' ps'].
    + simpl in *. now rewrite IH.
    + change (String a (join (String c "") (p :: p' :: ps')) = String a r).
      now rewrite IH.
Qed.

Lemma includes_cons (c a : ascii) (r : string) :
  includes (String a r) (String c "")
  = (if ascii_dec c a then true else includes r (String c "")).
Proof.
  simpl. destruct (ascii_dec c a); [now destruct r | reflexivity].
Qed.

Lemma includes_char (c : ascii) (s : string) :
  includes s (String c "") = true <->
  exists prefix rest, s = prefix ++ String c rest
                      /\ includes prefix (String c "") = false.
Proof.
  induction s as [| a r IH].
  - split; [discriminate |]. intros (p & q & Hs & _). destruct p; discriminate.
  - rewrite includes_cons. destruct (ascii_dec c a) as [<- | Hne].
    + split; [| reflexivity].
      intros _. exists "", r. split; reflexivity.
    + rewrite IH. split.
      * intros (p & q & -> & Hp). exists (String a p), q. split; [reflexivity |].
        rewrite includes_cons. destruct (ascii_dec c a); [contradiction | exact Hp].
      * intros (p & q & Hs & Hp). destruct p as [| b p]; simpl in Hs.
        -- injection Hs as -> _. contradiction.
        -- injection Hs as -> ->. exists p, q. split; [reflexivity |].
           rewrite includes_cons in Hp.
           destruct (ascii_dec c b); [discriminate | exact Hp].
Qed.

(** The id addressed is what follows the first underscore, and the whole
    id when it has none. *)
Lemma actualBatchId_spec (batchId : string) :
  (forall prefix rest,
      includes prefix "_" = false -> batchId = prefix ++ "_" ++ rest ->
      OpenAIProvider.actualBatchId batchId = rest)
  /\ (includes batchId "_" = false -> OpenAIProvider.actualBatchId batchId = batchId).
Proof.
  unfold OpenAIProvider.actualBatchId. split.
  - intros prefix rest Hp ->.
    assert (Hin : includes (prefix ++ "_" ++ rest) "_" = true).
    { apply includes_char. exists prefix, rest. auto. }
    rewrite Hin. clear Hin.
    induction prefix as [| a p IH]; simpl.
    + apply (join_split "_").
    + rewrite includes_cons in Hp.
      destruct (ascii_dec "_" a) as [<- | Hne]; [discriminate |].
      destruct (Ascii.eqb_spec a "_") as [-> |]; [contradiction |].
      specialize (IH Hp).
      destruct (JS.split "_" (p ++ "_" ++ rest)) as [| q qs] eqn:Es;
        [now apply split_nonempty in Es | exact IH].
  - intros ->. reflexivity.
Qed.

Section BatchAddress.
Context `{Runtime}.
Variable self : OpenAIProvider.t.

(** The one call of [checkBatch]. *)
Lemma checkBatch_call (batchId : string) (model : ModelName) (log : list Request) :
  exists req,
    snd (OpenAIProvider.checkBatch self batchId model log) = (log ++ [req])%list
    /\ url req = OpenAIProvider.baseUrl self ++ "/batches/"
                 ++ OpenAIProvider.actualBatchId batchId.
Proof.
  unfold OpenAIProvider.checkBatch, mbind, M_bind, bind, fetch.
  match goal with |- context [fetch_batch_status _ _ ?r] => exists r end.
  split; [| reflexivity].
  destruct (fetch_batch_status _ _ _); reflexivity.
Qed.

Lemma checkBatch_id (batchId : string) (model : ModelName) (log : list Request)
    st log' :
  OpenAIProvider.checkBatch self batchId model log = (inr st, log') ->
  bs_id st = batchId.
Proof.
  unfold OpenAIProvider.checkBatch, mbind, M_bind, bind, fetch.
  destruct (fetch_batch_status _ _ _); [| discriminate].
  intros [= <- _]. reflexivity.
Qed.

Lemma cancelBatch_call (batchId : string) (model : ModelName) (log : list Request) :
  exists req,
    snd (OpenAIProvider.cancelBatch self batchId model log) = (log ++ [req])%list
    /\ url req = OpenAIProvider.baseUrl self ++ "/batches/"
                 ++ OpenAIProvider.actualBatchId batchId ++ "/cancel".
Proof.
  unfold OpenAIProvider.cancelBatch, mbind, M_bind, bind, fetch.
  match goal with |- context [fetch_batch_cancel _ _ ?r] => exists r end.
  split; [| reflexivity].
  destruct (fetch_batch_cancel _ _ _); reflexivity.
Qed.

Lemma lift_log {A} (r : exn + A) (log : list Request) : snd (lift r log) = log.
Proof. destruct r; reflexivity. Qed.

(** The calls of [retrieveBatch]: the status check, then at most the
    download of the output file. *)
Lemma retrieveBatch_calls (batchId : string) (model : ModelName)
    (sampleObj : jsval) (log : list Request) :
  exists req later,
    snd (OpenAIProvider.retrieveBatch self batchId model sampleObj log)
    = (log ++ req :: later)%list
    /\ url req = OpenAIProvider.baseUrl self ++ "/batches/"
                 ++ OpenAIProvider.actualBatchId batchId
    /\ (later = []
        \/ exists fileId,
            later = [{| url := OpenAIProvider.baseUrl self ++ "/files/" ++ fileId
                               ++ "/content";
                        method := None;
                        headers := [("Authorization", OpenAIProvider.authorization self)];
                        body := NoBody |}]).
Proof.
  unfold OpenAIProvider.retrieveBatch, OpenAIProvider.checkBatch,
    mbind, M_bind, bind, fetch.
  match goal with |- context [fetch_batch_status _ _ ?r] => exists r end.
  destruct (fetch_batch_status _ _ _) as [st | err]; simpl.
  2: { exists []. rewrite app_nil_r || idtac. repeat split. now left. }
  destruct (OpenAIProvider.mapOpenAIBatchStatus _); simpl;
    try (exists []; repeat split; now left).
  destruct (OpenAITypes.output_file_id st) as [fileId |]; simpl;
    [| exists []; repeat split; now left].
  destruct (nonempty fileId); simpl; [| exists []; repeat split; now left].
  eexists [_]. split; [| split; [reflexivity | right; eexists; reflexivity]].
  destruct (fetch_file_content _ _ _) as [doc | err]; simpl.
  - rewrite lift_log, <- app_assoc. reflexivity.
  - rewrite <- app_assoc. reflexivity.
Qed.

(** C10.  For an id with an underscore, the OpenAI adapter addresses the
    batch by what follows the first underscore, in [checkBatch], in
    [cancelBatch] and in [retrieveBatch], whose only other call downloads
    the output file; an id without underscore is used as it is.  The status
    record that [checkBatch] returns carries the id as it was given. *)
Theorem C10_batch_id_prefix_stripped (batchId : string) (model : ModelName)
    (sampleObj : jsval) (log : list Request) :
  let addressed := OpenAIProvider.actualBatchId batchId in
  (forall prefix rest,
      includes prefix "_" = false -> batchId = prefix ++ "_" ++ rest ->
      addressed = rest)
  /\ (includes batchId "_" = false -> addressed = batchId)
  /\ (exists req,
        snd (OpenAIProvider.checkBatch self batchId model log) = (log ++ [req])%list
        /\ url req = OpenAIProvider.baseUrl self ++ "/batches/" ++ addressed)
  /\ (forall st log',
        OpenAIProvider.checkBatch self batchId model log = (inr st, log') ->
        bs_id st = batchId)
  /\ (exists req,
        snd (OpenAIProvider.cancelBatch self batchId model log) = (log ++ [req])%list
        /\ url req = OpenAIProvider.baseUrl self ++ "/batches/" ++ addressed ++ "/cancel")
  /\ (exists req later,
        snd (OpenAIProvider.retrieveBatch self batchId model sampleObj log)
        = (log ++ req :: later)%list
        /\ url req = OpenAIProvider.baseUrl self ++ "/batches/" ++ addressed
        /\ (later = []
            \/ exists fileId,
                later = [{| url := OpenAIProvider.baseUrl self ++ "/files/"
                                   ++ fileId ++ "/content";
                            method := None;
                            headers := [("Authorization",
                                         OpenAIProvider.authorization self)];
                            body := NoBody |}])).
Proof.
  intros addressed.
  split; [apply actualBatchId_spec |].
  split; [apply actualBatchId_spec |].
  split; [apply checkBatch_call |].
  split; [apply checkBatch_id |].
  split; [apply cancelBatch_call | apply retrieveBatch_calls].
Qed.

End BatchAddress.

Section C10_examples.
#[local] Existing Instance Json.runtime.
Import Examples.

Lemma C10_batch_id_witness :
  OpenAIProvider.actualBatchId "TestBatchAgent_batch_abc123" = "batch_abc123"
  /\ OpenAIProvider.actualBatchId "abc123" = "abc123"
  /\ exists req st,
      OpenAIProvider.checkBatch (openai "" "") "TestBatchAgent_batch_abc123"
        GPT4oMini []
      = (inr st, [req])
      /\ url req = "https://api.openai.com/v1/batches/batch_abc123"
      /\ bs_id st = "TestBatchAgent_batch_abc123".
Proof.
  destruct (C10_batch_id_prefix_stripped (openai "" "")
              "TestBatchAgent_batch_abc123" GPT4oMini JUndefined [])
    as (Hstrip & _ & _ & Hid & _).
  destruct (C10_batch_id_prefix_stripped (openai "" "") "abc123" GPT4oMini
              JUndefined [])
    as (_ & Hverbatim & _).
  split; [apply (Hstrip "TestBatchAgent" "batch_abc123"); reflexivity |].
  split; [apply Hverbatim; reflexivity |].
  eexists _, _. split; [reflexivity |]. split; [reflexivity |].
  eapply Hid. reflexivity.
Defined.

End C10_examples.

(* ================================================================= *)
(** ** Correlation ids of a batch *)

Lemma string_app_assoc (a b c : string) : (a ++ b) ++ c = a ++ b ++ c.
Proof.
  induction a as [| x a IH]; [reflexivity |].
  change (String x ((a ++ b) ++ c) = String x (a ++ b ++ c)). now rewrite IH.
Qed.

(** The id that the loop of [createBatch] computes is the one described. *)
Lemma requestId_of_correlation_id options now i prompt :
  OpenAIProvider.requestId_of options now i prompt
  = correlation_id options now i prompt.
Proof.
  unfold OpenAIProvider.requestId_of, correlation_id, name_prefix.
  assert (Hstamped :
    match agentName (base options) with
    | Some a =>
        if nonempty a
        then strip_non_alnum a ++ "_"
             ++ match batchName options with
                | Some b =>
                    if nonempty b
                    then strip_non_alnum b ++ "_" ++ pretty now ++ "_" ++ pretty i
                    else pretty now ++ "_" ++ pretty i
                | None => pretty now ++ "_" ++ pretty i
                end
        else match batchName options with
             | Some b =>
                 if nonempty b
                 then strip_non_alnum b ++ "_" ++ pretty now ++ "_" ++ pretty i
                 else pretty now ++ "_" ++ pretty i
             | None => pretty now ++ "_" ++ pretty i
             end
    | None =>
        match batchName options with
        | Some b =>
            if nonempty b
            then strip_non_alnum b ++ "_" ++ pretty now ++ "_" ++ pretty i
            else pretty now ++ "_" ++ pretty i
        | None => pretty now ++ "_" ++ pretty i
        end
    end
    = match agentName (base options) with
      | Some n => if nonempty n then strip_non_alnum n ++ "_" else ""
      | None => ""
      end
      ++ match batchName options with
         | Some n => if nonempty n then strip_non_alnum n ++ "_" else ""
         | None => ""
         end
      ++ pretty now ++ "_" ++ pretty i).
  { destruct (agentName (base options)) as [a |], (batchName options) as [b |];
      try destruct (nonempty a); try destruct (nonempty b);
      rewrite ?string_app_assoc; reflexivity. }
  rewrite Hstamped. reflexivity.
Qed.

Section CreateBatch.
Context `{Runtime}.
Variable self : OpenAIProvider.t.

(** The requests that the loop of [createBatch] adds carry the correlation
    ids of the items, in order. *)
Lemma createBatch_loop_ids modelInfo options needs prompts :
  forall i batchReqs jsonl out jsonl',
    OpenAIProvider.createBatch_loop self modelInfo options needs i prompts
      batchReqs jsonl = inr (out, jsonl') ->
    map OpenAITypes.custom_id out
    = (map OpenAITypes.custom_id batchReqs
       ++ correlation_ids options (Date_now (OpenAIProvider.fetchFn self)) i prompts)%list.
Proof.
  induction prompts as [| prompt rest IH]; intros i batchReqs jsonl out jsonl'; simpl.
  - intros [= <- _]. now rewrite app_nil_r.
  - destruct (length (default [] (br_messages prompt)) =? 0)%nat; [discriminate |].
    destruct (2048 <? _)%N; [discriminate |].
    destruct (200000000 <? _)%N; [discriminate |].
    intros Hloop. apply IH in Hloop. rewrite Hloop.
    rewrite map_app, <- app_assoc. simpl.
    now rewrite requestId_of_correlation_id.
Qed.

(** What a successful [createBatch] returns and the calls it made. *)
Lemma createBatch_result prompts model options log r log' :
  OpenAIProvider.createBatch self prompts model options log = (inr r, log') ->
  requestIds r
  = correlation_ids options (Date_now (OpenAIProvider.fetchFn self)) 0 prompts
  /\ exists upload create job,
      log' = (log ++ [upload; create])%list
      /\ fetch_batch_create (OpenAIProvider.fetchFn self) (log ++ [upload])%list create
         = HttpOk job
      /\ batchId r = OpenAITypes.bsr_id job.
Proof.
  unfold OpenAIProvider.createBatch.
  destruct (OpenAIProvider.find_model model) as [mi |]; [| discriminate].
  destruct (negb _); [discriminate |].
  destruct (OpenAIProvider.MAX_BATCH_REQUESTS <? _)%N; [discriminate |].
  unfold mbind, M_bind, bind.
  destruct ((if needsStructuredOutput (sampleObj (base options))
             then lift (OpenAIProvider.some_mentions_json prompts)
             else mret true) log) as [[e | mentioned] log1] eqn:Hcheck;
    [discriminate |].
  assert (log1 = log) as ->.
  { destruct (needsStructuredOutput _); [| now inversion Hcheck].
    pose proof (lift_log (OpenAIProvider.some_mentions_json prompts) log) as Hl.
    rewrite Hcheck in Hl. exact Hl. }
  destruct mentioned; [| discriminate]. simpl.
  destruct (OpenAIProvider.createBatch_loop self mi options _ 0 prompts [] "")
    as [e | [out jsonl]] eqn:Hloop; [discriminate |]. simpl.
  unfold OpenAIProvider.uploadFile, mbind, M_bind, bind, fetch.
  destruct (fetch_upload _ _ _) as [file | err]; [| discriminate]. simpl.
  destruct (fetch_batch_create _ _ _) as [job | err] eqn:Hjob; [| discriminate].
  intros [= <- <-]. simpl. split.
  - apply createBatch_loop_ids in Hloop. exact Hloop.
  - eexists _, _, job. rewrite <- app_assoc. repeat split. exact Hjob.
Qed.

Lemma correlation_ids_length options now prompts :
  forall i, length (correlation_ids options now i prompts) = length prompts.
Proof. induction prompts; intros i; simpl; [reflexivity | now rewrite IHprompts]. Qed.

Lemma correlation_ids_lookup options now prompts :
  forall i j prompt,
    prompts !! j = Some prompt ->
    correlation_ids options now i prompts !! j
    = Some (correlation_id options (now (i + j)%nat) (i + j) prompt).
Proof.
  induction prompts as [| p rest IH]; intros i j prompt; [discriminate |].
  destruct j as [| j]; simpl.
  - intros [= ->]. now rewrite Nat.add_0_r.
  - intros Hj. rewrite (IH (S i) j prompt Hj).
    now replace (S i + j)%nat with (i + S j)%nat by lia.
Qed.

(** C2 (as amended).  When [createBatch] of the OpenAI adapter succeeds, it
    returns the id of the job that the back end created together with one
    correlation id per submitted item, in submission order.  The id of an
    item is its own id stripped of the characters that are not letters or
    digits when that is not empty; otherwise it is the time stamp and the
    index, prefixed by the stripped batch name and then by the stripped
    caller identifier, for those of the two that are not empty. *)
Theorem C2_correlation_ids_in_submission_order
    (prompts : list Types.BatchRequest) (model : ModelName)
    (options : BatchRequestOptions) (log log' : list Request)
    (r : CreateBatchResponse) :
  OpenAIProvider.createBatch self prompts model options log = (inr r, log') ->
  length (requestIds r) = length prompts
  /\ (forall i prompt,
        prompts !! i = Some prompt ->
        requestIds r !! i
        = Some (correlation_id options
                  (Date_now (OpenAIProvider.fetchFn self) i) i prompt))
  /\ exists upload create job,
      log' = (log ++ [upload; create])%list
      /\ fetch_batch_create (OpenAIProvider.fetchFn self) (log ++ [upload])%list create
         = HttpOk job
      /\ batchId r = OpenAITypes.bsr_id job.
Proof.
  intros Hrun. apply createBatch_result in Hrun as [Hids Hjob].
  rewrite Hids. split; [apply correlation_ids_length |].
  split; [| exact Hjob].
  intros i prompt Hi. apply (correlation_ids_lookup _ _ _ 0%nat i prompt Hi).
Qed.

End CreateBatch.

Section C2_examples.
#[local] Existing Instance Json.runtime.
Import Examples.

Lemma C2_correlation_ids_witness :
  exists r log',
    OpenAIProvider.createBatch (openai "" "") capitals GPT4oMini capitals_options []
    = (inr r, log')
    /\ requestIds r
       = ["TestBatchAgent_CapitalsBatch_1700000000000_0";
          "TestBatchAgent_CapitalsBatch_1700000000000_1";
          "TestBatchAgent_CapitalsBatch_1700000000000_2"]
    /\ batchId r = "batch_abc123".
Proof.
  destruct (OpenAIProvider.createBatch (openai "" "") capitals GPT4oMini
              capitals_options []) as [[e | r] log'] eqn:Hrun;
    [vm_compute in Hrun; discriminate |].
  exists r, log'. split; [reflexivity |].
  destruct (C2_correlation_ids_in_submission_order (openai "" "") capitals
              GPT4oMini capitals_options [] log' r Hrun)
    as (_ & Hids & upload & create & job & _ & Hjob & Hid).
  split.
  - apply list_eq. intros [| [| [| i]]].
    + exact (Hids 0%nat _ eq_refl).
    + exact (Hids 1%nat _ eq_refl).
    + exact (Hids 2%nat _ eq_refl).
    + vm_compute in Hrun. injection Hrun as <- _. reflexivity.
  - rewrite Hid. injection Hjob as <-. reflexivity.
Defined.

(** C2, as stated, fails: with a batch name and a caller identifier the
    ids are neither of the two but both, followed by the time stamp and the
    index; and the id of an item, when it has one, comes before the batch
    name, not after it. *)
Lemma C2_counterexample_named_batch :
  (exists r log',
      OpenAIProvider.createBatch (openai "" "") capitals GPT4oMini
        capitals_options []
      = (inr r, log')
      /\ requestIds r
         = ["TestBatchAgent_CapitalsBatch_1700000000000_0";
            "TestBatchAgent_CapitalsBatch_1700000000000_1";
            "TestBatchAgent_CapitalsBatch_1700000000000_2"]
      /\ imap (correlation_id_as_specified capitals_options 1700000000000) capitals
         = ["CapitalsBatch"; "CapitalsBatch"; "CapitalsBatch"])
  /\ OpenAIProvider.requestId_of capitals_options 1700000000000 0
       {| br_id := Some "q-1"; br_messages := Some [ask "Paris?"] |}
     = "q1"
  /\ correlation_id_as_specified capitals_options 1700000000000 0
       {| br_id := Some "q-1"; br_messages := Some [ask "Paris?"] |}
     = "CapitalsBatch".
Proof.
  split; [| split; reflexivity].
  eexists _, _. split; [vm_compute; reflexivity |]. split; reflexivity.
Qed.

End C2_examples.

(* ================================================================= *)
(** ** The JSON marker on the OpenAI adapter *)

Lemma some_mentions_json_items (prompts : list Types.BatchRequest) :
  Forall (fun p => is_Some (br_messages p)) prompts ->
  OpenAIProvider.some_mentions_json prompts
  = inr (existsb item_mentions_json prompts).
Proof.
  induction 1 as [| p rest [ms Hms] _ IH]; [reflexivity |].
  simpl. unfold item_mentions_json at 1. rewrite Hms. simpl.
  destruct (existsb mentions_json ms); [reflexivity | exact IH].
Qed.

Section JsonMarker.
Context `{Runtime}.
Variable self : OpenAIProvider.t.

(** The loop of [createBatch] throws other errors than the one of the
    marker. *)
Lemma createBatch_loop_error modelInfo options needs prompts :
  forall i batchReqs jsonl e,
    OpenAIProvider.createBatch_loop self modelInfo options needs i prompts
      batchReqs jsonl = inl e ->
    e <> Error json_required.
Proof.
  assert (Hhead : forall m, String.get 0 m <> Some "A"%char ->
                            Error m <> Error json_required).
  { intros m Hm Heq. apply Hm. apply (f_equal message) in Heq. simpl in Heq.
    rewrite Heq. reflexivity. }
  induction prompts as [| p rest IH]; intros i acc jsonl e; simpl; [discriminate |].
  destruct (_ =? 0)%nat; [intros [= <-]; now apply Hhead |].
  destruct (2048 <? _)%N; [intros [= <-]; now apply Hhead |].
  destruct (200000000 <? _)%N; [intros [= <-]; now apply Hhead | apply IH].
Qed.

(** [createBatch] tests the marker once for the whole batch: with
    structured output requested it stops before the transport exactly when
    no item names JSON. *)
Lemma createBatch_marker_is_batch_wide prompts options log :
  Forall (fun p => is_Some (br_messages p)) prompts ->
  (N.of_nat (length prompts) <= OpenAIProvider.MAX_BATCH_REQUESTS)%N ->
  needsStructuredOutput (sampleObj (base options)) = true ->
  (existsb item_mentions_json prompts = false ->
   OpenAIProvider.createBatch self prompts GPT4oMini options log
   = (inl (Error json_required), log))
  /\ (existsb item_mentions_json prompts = true ->
      OpenAIProvider.createBatch self prompts GPT4oMini options log
      <> (inl (Error json_required), log)).
Proof.
  intros Hitems Hmax Hneeds. unfold OpenAIProvider.createBatch. simpl.
  destruct (N.ltb_spec OpenAIProvider.MAX_BATCH_REQUESTS (N.of_nat (length prompts)));
    [lia |].
  rewrite Hneeds, some_mentions_json_items by exact Hitems.
  unfold mbind, M_bind, bind. simpl. split; intros ->; simpl; [reflexivity |].
  destruct (OpenAIProvider.createBatch_loop _ _ _ _ _ _ _ _) as [e | [out jsonl]] eqn:Hloop;
    simpl.
  - intros [= ->]. now apply createBatch_loop_error in Hloop.
  - unfold OpenAIProvider.uploadFile, mbind, M_bind, bind, fetch.
    destruct (fetch_upload _ _ _); simpl; [destruct (fetch_batch_create _ _ _) |];
      simpl; intros Hlog; apply (f_equal snd) in Hlog; simpl in Hlog;
      apply (f_equal length) in Hlog; rewrite ?length_app in Hlog; simpl in Hlog; lia.
Qed.

End JsonMarker.

Section C3_examples.
#[local] Existing Instance Json.runtime.
Import Examples.

(** C3: the claim requires the marker in every item of a batch; the code
    accepts a batch in which one item names JSON and another does not,
    uploads it and creates the job, every item asking for JSON mode. *)
Lemma C3_createBatch_accepts_item_without_json :
  needsStructuredOutput (sampleObj (base structured_options)) = true
  /\ map item_mentions_json mixed = [true; false]
  /\ (exists out jsonl,
        OpenAIProvider.createBatch_loop (openai "" "")
          {| mi_id := "gpt-4o-mini"; mi_name := GPT4oMini; mi_provider := OpenAI;
             capabilities := {| structuredOutput := true; batchRequests := true |} |}
          structured_options true 0 mixed [] ""
        = inr (out, jsonl)
        /\ map (fun q => OpenAITypes.response_format (OpenAITypes.br_body q)) out
           = [Some OpenAITypes.json_object; Some OpenAITypes.json_object])
  /\ exists r upload create,
      OpenAIProvider.createBatch (openai "" "") mixed GPT4oMini structured_options []
      = (inr r, [upload; create])
      /\ url upload = "https://api.openai.com/v1/files"
      /\ url create = "https://api.openai.com/v1/batches".
Proof.
  split; [reflexivity |]. split; [reflexivity |]. split.
  - eexists _, _. split; vm_compute; reflexivity.
  - eexists _, _, _. split; [vm_compute; reflexivity |]. split; reflexivity.
Qed.

(** On the single completion the marker is required of the one request:
    without it the adapter throws before the transport. *)
Lemma C3_prompt_requires_marker_example :
  OpenAIProvider.prompt (openai "{}" "") [ask "What is the capital of Germany?"]
    GPT4oMini (with_sample test_sample) []
  = (inl (Error json_required), []).
Proof. reflexivity. Qed.

End C3_examples.

(* ================================================================= *)
(** ** Retrieval of the results of a batch *)

Lemma get_member (value : jsval) (key : string) :
  nullish value = false -> get value key = inr (member value key).
Proof. destruct value; simpl; intros; reflexivity || discriminate. Qed.

Lemma get_nullish (value : jsval) (key : string) :
  nullish value = true -> exists e, get value key = inl e.
Proof. destruct value; simpl; intros; try discriminate; eexists; reflexivity. Qed.


Lemma member_nullish (value : jsval) (key : string) :
  nullish value = true -> member value key = JUndefined.
Proof. destruct value; simpl; intros; reflexivity || discriminate. Qed.



Lemma reading_inr (value : jsval) (rest : jsval -> OpenAIProvider.LineOutcome) :
  OpenAIProvider.reading (inr value) rest = rest value.
Proof. reflexivity. Qed.

Lemma reading_inl (e : exn) (rest : jsval -> OpenAIProvider.LineOutcome) :
  OpenAIProvider.reading (inl e) rest = OpenAIProvider.Thrown e.
Proof. reflexivity. Qed.

(** One read of a round: it throws, or gives the member. *)
Ltac read_as Hn :=
  match goal with
  | |- context [OpenAIProvider.reading (get ?v ?k) ?rest] =>
      let e := fresh "e" in
      destruct (nullish v) eqn:Hn;
      [ destruct (get_nullish v k Hn) as [e ->]; rewrite reading_inl
      | rewrite (get_member v k Hn), reading_inr ]
  end.

Ltac read_step := let Hn := fresh "Hn" in read_as Hn.

(** A read of [undefined] or [null] makes the line unreadable. *)
Ltac unreadable Hn := rewrite ?(member_nullish _ _ Hn); reflexivity.

Section Retrieve.
Context `{Runtime}.
Variable self : OpenAIProvider.t.

(** One round of the loop skips a line that has no result and pushes the
    result of a line that has one, when it does not throw. *)
Lemma retrieve_line_cases model sampleObj rawResponse :
  match OpenAIProvider.retrieve_line model sampleObj rawResponse with
  | OpenAIProvider.Skipped => result_of_line model sampleObj rawResponse = None
  | OpenAIProvider.Pushed r => result_of_line model sampleObj rawResponse = Some r
  | OpenAIProvider.Thrown e => True
  end.
Proof.
  unfold OpenAIProvider.retrieve_line, result_of_line, surviving, result_with,
    text_to_parse, object_example, parseJsonResponse, completion_text, usage_of,
    first_choice, body_of.
  destruct (JSON_parse rawResponse) as [e | line]; [reflexivity |].
  read_step; [exact I |].
  destruct (truthy (member line "error")); [reflexivity |].
  read_step; [exact I |].
  destruct (truthy (member line "response")); [| reflexivity].
  cbn [negb orb].
  repeat (read_step; [exact I |]).
  cbv zeta.
  destruct (truthy sampleObj && _);
    [destruct (ToString _) as [e | text]; [reflexivity |];
     destruct (JSON_parse text) as [e | v]; [reflexivity |] |].
  all: read_step; [exact I |].
  all: destruct (OpenAIProvider.custom_id_split _); [exact I |].
  all: repeat (read_step; [exact I |]); reflexivity.
Qed.

(** The rounds that throw are those on the lines that are not readable. *)
Lemma retrieve_line_throws model sampleObj rawResponse :
  match OpenAIProvider.retrieve_line model sampleObj rawResponse with
  | OpenAIProvider.Thrown _ => readable sampleObj rawResponse = false
  | _ => readable sampleObj rawResponse = true
  end.
Proof.
  unfold OpenAIProvider.retrieve_line, readable, text_rejected, surviving,
    text_to_parse, object_example, parseJsonResponse, completion_text, usage_of,
    first_choice, body_of.
  destruct (JSON_parse rawResponse) as [e | line]; [reflexivity |].
  read_as Hparsed; [reflexivity |].
  destruct (truthy (member line "error")); [reflexivity |].
  read_as Hline; [discriminate |].
  destruct (truthy (member line "response")); [| reflexivity].
  cbn [negb orb andb].
  read_as Hresponse; [unreadable Hresponse |].
  read_as Hbody; [unreadable Hbody |].
  read_as Hchoices; [unreadable Hchoices |].
  read_as Hchoice; [unreadable Hchoice |].
  read_as Hmessage; [unreadable Hmessage |].
  cbn [negb andb]. cbv zeta.
  destruct (truthy sampleObj && _); cbn [andb orb];
    [destruct (ToString _) as [e | text]; [reflexivity |];
     destruct (JSON_parse text) as [e | v]; [reflexivity |] |].
  all: rewrite (get_member _ "custom_id" Hline), reading_inr.
  all: destruct (member line "custom_id"); try reflexivity.
  all: cbn [OpenAIProvider.custom_id_split is_string andb].
  all: read_step; [discriminate |].
  all: read_as Husage; [reflexivity |].
  all: rewrite !(get_member _ _ Husage), !reading_inr; reflexivity.
Qed.









End Retrieve.

Section C1_examples.
#[local] Existing Instance Json.runtime.
Import Examples.

Lemma output_document_lines :
  JS.split LF (trim output_document)
  = [line_plain; line_json; line_failed; line_garbled].
Proof. vm_compute. reflexivity. Qed.




(** Rounds on lines that the back end does not write: each reads a
    property of [undefined] or [null], or calls a method of a value that has
    none, outside the [try] blocks; a content that is no string is parsed
    as its conversion to a string. *)
Example retrieve_line_not_answered :
  map (OpenAIProvider.retrieve_line GPT4oMini JUndefined)
      [line_without_body; "null"; "5"; line_without_id]
  = [OpenAIProvider.Thrown
       (TypeError "Cannot read properties of undefined (reading 'choices')");
     OpenAIProvider.Thrown
       (TypeError "Cannot read properties of null (reading 'error')");
     OpenAIProvider.Skipped;
     OpenAIProvider.Thrown
       (TypeError "Cannot read properties of undefined (reading 'split')")]
  /\ map answered [line_without_body; "null"; "5"; line_without_id; line_with_list]
     = [false; false; true; false; false]
  /\ map (readable JUndefined)
         [line_without_body; "null"; "5"; line_without_id; line_with_list;
          line_plain; line_failed; line_garbled; line_empty]
     = [false; false; true; false; true; true; true; true; false]
  /\ OpenAIProvider.retrieve_line GPT4oMini test_sample line_with_list
     = OpenAIProvider.Pushed
         {| r_text := JArr [JNum 5];
            r_data := JNum 5;
            r_usage := {| r_promptTokens := JNum 12;
                          r_completionTokens := JUndefined;
                          r_totalTokens := JUndefined |};
            r_model := "openai/GPT-4o-mini";
            r_provider := OpenAI |}.
Proof. repeat split; vm_compute; reflexivity. Qed.

(** A document whose second line has no body: the retrieval throws, and the
    result of the first line is lost. *)
Example retrieveBatch_line_without_body :
  fst (OpenAIProvider.retrieveBatch
         (openai "" (line_plain ++ nl ++ line_without_body ++ nl))
         "batch_abc123" GPT4oMini JUndefined [])
  = inl (TypeError "Cannot read properties of undefined (reading 'choices')").
Proof. vm_compute. reflexivity. Qed.

End C1_examples.

(* ================================================================= *)
(** ** Objects of the caller are left as they are *)

Lemma Role_eqb_eq (a b : Role) : Role_eqb a b = true <-> a = b.
Proof. destruct a, b; simpl; split; congruence. Qed.

Lemma findLastIndex_none {A} (p : A -> bool) (l : list A) :
  Forall (fun x => p x = false) l -> findLastIndex p l = None.
Proof.
  induction 1 as [| x l Hx _ IH]; simpl; [reflexivity |].
  now rewrite IH, Hx.
Qed.

Lemma findLastIndex_last {A} (p : A -> bool) (before after : list A) (x : A) :
  p x = true -> Forall (fun y => p y = false) after ->
  findLastIndex p (before ++ x :: after)%list = Some (length before).
Proof.
  intros Hx Hafter. induction before as [| b before IH]; simpl.
  - now rewrite (findLastIndex_none p after Hafter), Hx.
  - now rewrite IH.
Qed.

Lemma insert_middle {A} (before after : list A) (x y : A) :
  <[length before := y]> (before ++ x :: after)%list = (before ++ y :: after)%list.
Proof. induction before as [| b before IH]; simpl; [reflexivity | now rewrite IH]. Qed.

Lemma lookup_middle {A} (before after : list A) (x : A) :
  (before ++ x :: after)%list !! length before = Some x.
Proof. induction before as [| b before IH]; simpl; [reflexivity | exact IH]. Qed.

(** A new object is at a reference that pointed to nothing. *)
Lemma alloc_fresh (c : cell) (h : gmap loc cell) :
  exists l, alloc c h = Some (l, <[l := c]> h) /\ h !! l = None.
Proof.
  exists (fresh (dom h)). split; [reflexivity |].
  apply not_elem_of_dom, is_fresh.
Qed.

Lemma read_msgs_points_to (h : gmap loc cell) (ls : list loc) (ms : list PromptMessage) :
  Forall2 (points_to h) ls ms -> read_msgs ls h = Some (ms, h).
Proof.
  induction 1 as [| l m ls ms Hl _ IH]; [reflexivity |].
  simpl. unfold mbind, H_bind, hbind, read_msg. rewrite Hl, IH. reflexivity.
Qed.

Lemma read_msgs_inv (h h' : gmap loc cell) (ls : list loc) (ms : list PromptMessage) :
  read_msgs ls h = Some (ms, h') -> h' = h /\ Forall2 (points_to h) ls ms.
Proof.
  revert ms h'. induction ls as [| l ls IH]; intros ms h'; simpl.
  - intros [= <- <-]. split; [reflexivity | constructor].
  - unfold mbind, H_bind, hbind, read_msg.
    destruct (h !! l) as [[m | |] |] eqn:Hl; try discriminate.
    destruct (read_msgs ls h) as [[ms' h1] |] eqn:Hr; [| discriminate].
    destruct (IH ms' h1 eq_refl) as [-> Hall].
    intros [= <- <-]. split; [reflexivity | now constructor].
Qed.

Lemma points_to_weaken (h h' : gmap loc cell) (ls : list loc) (ms : list PromptMessage) :
  h ⊆ h' -> Forall2 (points_to h) ls ms -> Forall2 (points_to h') ls ms.
Proof.
  intros Hsub Hall. eapply Forall2_impl; [exact Hall |].
  intros l m Hl. exact (lookup_weaken _ _ _ _ Hl Hsub).
Qed.

Ltac step_alloc l Hl :=
  match goal with
  | |- context [alloc ?c ?h] =>
      let Ha := fresh "Ha" in
      destruct (alloc_fresh c h) as (l & Ha & Hl); rewrite Ha; clear Ha
  end.

Section Enhance.
Context `{Runtime}.

(** The instruction goes to the last user message. *)
Lemma enhance_last_user msgs sampleObj before m after :
  msgs = (before ++ m :: after)%list ->
  role m = user ->
  Forall (fun x => role x <> user) after ->
  Structure.enhancePromptWithStructure msgs sampleObj
  = (before
     ++ {| role := user;
           content := content m ++ nl ++ nl ++ instruction ++ structure sampleObj |}
     :: after)%list.
Proof.
  intros -> Hm Hafter. unfold Structure.enhancePromptWithStructure. cbv zeta.
  rewrite (findLastIndex_last _ before after m).
  - now rewrite lookup_middle, insert_middle, Hm.
  - now apply Role_eqb_eq.
  - eapply Forall_impl; [exact Hafter |]. intros x Hx.
    destruct (Role_eqb (role x) user) eqn:E; [| reflexivity].
    now apply Role_eqb_eq in E.
Qed.

(** Without a user message, a new one is appended. *)
Lemma enhance_no_user msgs sampleObj :
  Forall (fun x => role x <> user) msgs ->
  Structure.enhancePromptWithStructure msgs sampleObj
  = (msgs ++ [{| role := user; content := instruction ++ structure sampleObj |}])%list.
Proof.
  intros Hnone. unfold Structure.enhancePromptWithStructure. cbv zeta.
  rewrite findLastIndex_none; [reflexivity |].
  eapply Forall_impl; [exact Hnone |]. intros x Hx.
  destruct (Role_eqb (role x) user) eqn:E; [| reflexivity].
  now apply Role_eqb_eq in E.
Qed.

(** On the store, the enhancement builds a new array and at most one new
    message object, and leaves every object that existed as it was; the
    new array stands for the enhanced messages. *)
Lemma enhance_on_store (h : gmap loc cell) messages items msgs sampleObj :
  h !! messages = Some (CArr items) ->
  Forall2 (points_to h) items msgs ->
  exists enhanced h',
    Heap.enhancePromptWithStructure messages sampleObj h = Some (enhanced, h')
    /\ h !! enhanced = None
    /\ h ⊆ h'
    /\ deref_messages enhanced h'
       = Some (Structure.enhancePromptWithStructure msgs sampleObj, h').
Proof.
  intros Hm Hmsgs.
  unfold Heap.enhancePromptWithStructure, Structure.enhancePromptWithStructure.
  cbv zeta. unfold mbind, H_bind, hbind. unfold read_arr at 1. rewrite Hm.
  step_alloc l1 Hl1.
  assert (Hsub1 : h ⊆ <[l1 := CArr items]> h) by now apply insert_subseteq.
  rewrite (read_msgs_points_to _ items msgs) by (eapply points_to_weaken; eauto).
  assert (Hitems : forall l' (h' : gmap loc cell),
             deref_messages l1 (<[l1 := CArr l']> h')
             = read_msgs l' (<[l1 := CArr l']> h')).
  { intros l' h'. unfold deref_messages, mbind, H_bind, hbind, read_arr.
    now rewrite lookup_insert_eq. }
  destruct (findLastIndex _ msgs) as [i |].
  - destruct (msgs !! i) as [m |] eqn:Hi.
    + step_alloc l2 Hl2.
      assert (Hne : l2 <> l1).
      { intros ->. now rewrite lookup_insert_eq in Hl2. }
      unfold write_arr. rewrite lookup_insert_ne, lookup_insert_eq by exact Hne.
      eexists l1, _. split; [reflexivity |]. split; [exact Hl1 |].
      assert (Hsub : h ⊆ <[l1 := CArr (<[i := l2]> items)]>
                          (<[l2 := CMsg {| role := role m;
                                           content := content m ++ nl ++ nl ++ instruction
                                                      ++ structure sampleObj |}]>
                             (<[l1 := CArr items]> h))).
      { apply insert_subseteq_r; [exact Hl1 |].
        etransitivity; [exact Hsub1 |]. now apply insert_subseteq. }
      split; [exact Hsub |].
      rewrite Hitems.
      apply read_msgs_points_to. apply Forall2_insert.
      * eapply points_to_weaken; eauto.
      * unfold points_to.
        now rewrite lookup_insert_ne, lookup_insert_eq by (intros ->; contradiction).
    + eexists l1, _. split; [reflexivity |]. split; [exact Hl1 |].
      split; [exact Hsub1 |].
      rewrite Hitems.
      apply read_msgs_points_to. eapply points_to_weaken; eauto.
  - step_alloc l2 Hl2.
    assert (Hne : l2 <> l1).
    { intros ->. now rewrite lookup_insert_eq in Hl2. }
    unfold write_arr. rewrite lookup_insert_ne, lookup_insert_eq by exact Hne.
    eexists l1, _. split; [reflexivity |]. split; [exact Hl1 |].
    assert (Hsub : h ⊆ <[l1 := CArr (items ++ [l2])%list]>
                        (<[l2 := CMsg {| role := user;
                                         content := instruction ++ structure sampleObj |}]>
                           (<[l1 := CArr items]> h))).
    { apply insert_subseteq_r; [exact Hl1 |].
      etransitivity; [exact Hsub1 |]. now apply insert_subseteq. }
    split; [exact Hsub |].
    rewrite Hitems.
    apply read_msgs_points_to. apply Forall2_app.
    + eapply points_to_weaken; eauto.
    + constructor; [| constructor]. unfold points_to.
      now rewrite lookup_insert_ne, lookup_insert_eq by (intros ->; contradiction).
Qed.

(** What the replacer makes of the example is the example with its
    arrays collapsed. *)
Lemma replaced_collapse_arrays (v : jsval) : replaced v = collapse_arrays v.
Proof.
  induction v as [| | b | x | s | items IH | props IH] using jsval_nested_ind;
    try reflexivity.
  - destruct items as [| first rest]; reflexivity.
  - simpl. f_equal.
    induction IH as [| [k w] props Hw _ IHp]; [reflexivity |].
    simpl in *. now rewrite Hw, IHp.
Qed.

(** The line that the code appends is the structure instruction. *)
Lemma instruction_structure (sampleObj : jsval) :
  instruction ++ structure sampleObj = structure_instruction sampleObj.
Proof.
  unfold structure, structure_instruction, instruction.
  destruct sampleObj; simpl typeof; cbn [String.eqb Ascii.eqb Bool.eqb];
    try reflexivity; now rewrite replaced_collapse_arrays.
Qed.

End Enhance.

(** C6.  Prompt enhancement, the same on both adapters, returns a new
    array that stands for the messages of the input with the structure
    instruction appended to the content of the last message with role user,
    all other messages being the same and in the same places; when no
    message has role user, it stands for the input followed by one new user
    message that carries only the instruction.  The instruction is the
    sentence that asks for the JSON structure, followed by the example
    printed with an indentation of two and every array that is not empty
    collapsed to one representative item, or by the name of the type of an
    example that is not of type object.  The input array, its message
    objects and every other object that existed are left as they were. *)
Theorem C6_enhance_appends_instruction `{Runtime} (h : gmap loc cell)
    (messages : loc) (items : list loc) (msgs : list PromptMessage)
    (sampleObj : jsval) :
  h !! messages = Some (CArr items) ->
  Forall2 (points_to h) items msgs ->
  let line := structure_instruction sampleObj in
  (exists enhanced h',
      Heap.enhancePromptWithStructure messages sampleObj h = Some (enhanced, h')
      /\ h !! enhanced = None
      /\ h ⊆ h'
      /\ deref_messages enhanced h'
         = Some (Structure.enhancePromptWithStructure msgs sampleObj, h'))
  /\ (forall before m after,
        msgs = (before ++ m :: after)%list ->
        role m = user ->
        Forall (fun x => role x <> user) after ->
        Structure.enhancePromptWithStructure msgs sampleObj
        = (before
           ++ {| role := user; content := content m ++ nl ++ nl ++ line |}
           :: after)%list)
  /\ (Forall (fun x => role x <> user) msgs ->
      Structure.enhancePromptWithStructure msgs sampleObj
      = (msgs ++ [{| role := user; content := line |}])%list).
Proof.
  intros Hm Hmsgs line. subst line. rewrite <- instruction_structure.
  split; [| split].
  - now apply enhance_on_store with (items := items).
  - intros before m after. apply enhance_last_user.
  - apply enhance_no_user.
Qed.

Section C6_examples.
#[local] Existing Instance Json.runtime.
Import Examples.

Lemma C6_enhance_witness :
  exists enhanced h',
    Heap.enhancePromptWithStructure 2%positive listed_sample caller_store
    = Some (enhanced, h')
    /\ h' !! 2%positive = Some (CArr [1%positive])
    /\ h' !! 1%positive = Some (CMsg france)
    /\ deref_messages enhanced h'
       = Some ([{| role := user;
                   content :=
                     "What is the capital of France?" ++ nl ++ nl
                     ++ "Please provide the response in the following JSON structure: "
                     ++ json_text
                          ("{" ++ nl
                           ++ "  'answer': ''," ++ nl
                           ++ "  'confidence': 0," ++ nl
                           ++ "  'tags': [" ++ nl
                           ++ "    'example'" ++ nl
                           ++ "  ]," ++ nl
                           ++ "  'sources': [" ++ nl
                           ++ "    {}" ++ nl
                           ++ "  ]," ++ nl
                           ++ "  'notes': []" ++ nl
                           ++ "}") |}], h').
Proof.
  destruct (C6_enhance_appends_instruction caller_store 2%positive [1%positive]
              [france] listed_sample)
    as ((enhanced & h' & Hrun & _ & Hsub & Hout) & Hlast & _).
  - vm_compute. reflexivity.
  - repeat constructor.
  - exists enhanced, h'. split; [exact Hrun |].
    split; [eapply lookup_weaken; [| exact Hsub]; vm_compute; reflexivity |].
    split; [eapply lookup_weaken; [| exact Hsub]; vm_compute; reflexivity |].
    rewrite Hout. rewrite (Hlast [] france [] eq_refl eq_refl (Forall_nil_2 _)).
    vm_compute. reflexivity.
Defined.

End C6_examples.

(* ================================================================= *)
(** ** The agent and the arrays of its caller *)

Lemma hbind_inv {A B} (m : H A) (k : A -> H B) (h h' : gmap loc cell) (b : B) :
  (m ≫= k) h = Some (b, h') ->
  exists a h1, m h = Some (a, h1) /\ k a h1 = Some (b, h').
Proof.
  unfold mbind, H_bind, hbind.
  destruct (m h) as [[a h1] |]; [| discriminate]. eauto.
Qed.

Lemma read_arr_inv l h items h' :
  read_arr l h = Some (items, h') -> h' = h /\ h !! l = Some (CArr items).
Proof.
  unfold read_arr. destruct (h !! l) as [[| items' |] |]; try discriminate.
  now intros [= <- <-].
Qed.

Lemma read_inv l h c h' : read l h = Some (c, h') -> h' = h /\ h !! l = Some c.
Proof. unfold read. destruct (h !! l); [| discriminate]. now intros [= <- <-]. Qed.

Lemma alloc_inv c h l h' :
  alloc c h = Some (l, h') -> h !! l = None /\ h' = <[l := c]> h.
Proof.
  destruct (alloc_fresh c h) as (l0 & Ha & Hl0). rewrite Ha.
  now intros [= <- <-].
Qed.

Lemma write_arr_inv l items h u h' :
  write_arr l items h = Some (u, h') -> h' = <[l := CArr items]> h.
Proof.
  unfold write_arr. destruct (h !! l) as [[| ? |] |]; try discriminate.
  now intros [= _ <-].
Qed.

Lemma filter_refs_inv p ls h kept h' :
  filter_refs p ls h = Some (kept, h') -> h' = h.
Proof.
  revert kept h'. induction ls as [| l ls IH]; intros kept h'; simpl.
  - now intros [= _ <-].
  - intros Hrun. apply hbind_inv in Hrun as (m & h1 & Hm & Hrun).
    unfold read_msg in Hm. destruct (h !! l) as [[m' | |] |]; try discriminate.
    injection Hm as <- <-.
    apply hbind_inv in Hrun as (keep & h2 & Hkeep & Hrun).
    apply IH in Hkeep as ->. now injection Hrun as _ <-.
Qed.

Lemma filter_refs_points_to p (h : gmap loc cell) ls ms :
  Forall2 (points_to h) ls ms ->
  exists kept, filter_refs p ls h = Some (kept, h)
               /\ Forall2 (points_to h) kept (filter p ms).
Proof.
  induction 1 as [| l m ls ms Hl _ (kept & Hrun & Hkept)]; simpl.
  - exists []. split; [reflexivity | constructor].
  - unfold mbind, H_bind, hbind, read_msg. rewrite Hl, Hrun.
    destruct (p m) eqn:Hp.
    + exists (l :: kept). split; [reflexivity |].
      rewrite filter_cons_True by now rewrite Hp. now constructor.
    + exists kept. split; [reflexivity |].
      rewrite filter_cons_False by now rewrite Hp. exact Hkept.
Qed.

Lemma deref_messages_inv l h ms h' :
  deref_messages l h = Some (ms, h') -> h' = h.
Proof.
  unfold deref_messages. intros Hrun.
  apply hbind_inv in Hrun as (items & h1 & Hitems & Hrun).
  apply read_arr_inv in Hitems as [-> _].
  now apply read_msgs_inv in Hrun as [-> _].
Qed.

Section Agent.
Variable self : LLMAgent.t.

(** [prependBasePrompt] writes to no object that existed. *)
Lemma prependBasePrompt_frame messages h l h' :
  LLMAgent.prependBasePrompt self messages h = Some (l, h') -> h ⊆ h'.
Proof.
  unfold LLMAgent.prependBasePrompt.
  destruct (negb _); [now intros [= _ <-] |].
  intros Hrun. apply hbind_inv in Hrun as (items & h1 & Hitems & Hrun).
  apply read_arr_inv in Hitems as [-> _].
  apply hbind_inv in Hrun as (system & h1 & Hsystem & Hrun).
  apply alloc_inv in Hsystem as [Hfresh ->].
  apply hbind_inv in Hrun as (kept & h2 & Hkept & Hrun).
  apply filter_refs_inv in Hkept as ->.
  apply alloc_inv in Hrun as [Hfresh' ->].
  etransitivity; [apply insert_subseteq; exact Hfresh
                 | apply insert_subseteq; exact Hfresh'].
Qed.

(** The array that [prependBasePrompt] returns stands for the messages
    with the base prompt. *)
Lemma prependBasePrompt_messages messages (h : gmap loc cell) items msgs :
  h !! messages = Some (CArr items) ->
  Forall2 (points_to h) items msgs ->
  exists l h',
    LLMAgent.prependBasePrompt self messages h = Some (l, h')
    /\ deref_messages l h'
       = Some (LLMAgent.with_base_prompt (LLMAgent.basePrompt self) msgs, h').
Proof.
  intros Hm Hmsgs.
  unfold LLMAgent.prependBasePrompt, LLMAgent.with_base_prompt.
  destruct (negb _).
  - exists messages, h. split; [reflexivity |].
    unfold deref_messages, mbind, H_bind, hbind, read_arr. rewrite Hm.
    now apply read_msgs_points_to.
  - unfold mbind, H_bind, hbind, read_arr. rewrite Hm.
    step_alloc l1 Hl1.
    assert (Hmsgs1 : Forall2 (points_to (<[l1 := CMsg {| role := developer;
                                                        content := LLMAgent.basePrompt self |}]> h))
                       items msgs).
    { eapply points_to_weaken; [| exact Hmsgs]. now apply insert_subseteq. }
    destruct (filter_refs_points_to
                (fun m => negb (Role_eqb (role m) developer)) _ _ _ Hmsgs1)
      as (kept & -> & Hkept).
    step_alloc l2 Hl2.
    eexists l2, _. split; [reflexivity |].
    unfold deref_messages, mbind, H_bind, hbind, read_arr.
    rewrite lookup_insert_eq. apply read_msgs_points_to.
    assert (l1 <> l2) by (intros ->; now rewrite lookup_insert_eq in Hl2).
    constructor.
    + unfold points_to. now rewrite lookup_insert_ne, lookup_insert_eq.
    + eapply points_to_weaken; [| exact Hkept]. now apply insert_subseteq.
Qed.

(** The agent's [prompt] writes to no object that existed: the messages of
    the caller are after the call what they were before. *)
Lemma agent_prompt_frame messages options h call h' :
  LLMAgent.prompt self messages options h = Some (call, h') -> h ⊆ h'.
Proof.
  unfold LLMAgent.prompt. intros Hrun.
  apply hbind_inv in Hrun as (l & h1 & Hprepend & Hrun).
  apply prependBasePrompt_frame in Hprepend.
  apply hbind_inv in Hrun as (msgs & h2 & Hderef & Hrun).
  apply deref_messages_inv in Hderef as ->.
  now injection Hrun as _ <-.
Qed.

Lemma same_except_trans p (h1 h2 h3 : gmap loc cell) :
  same_except p h1 h2 -> same_except p h2 h3 -> same_except p h1 h3.
Proof. unfold same_except. eauto. Qed.

Lemma subseteq_same_except p (h h' : gmap loc cell) : h ⊆ h' -> same_except p h h'.
Proof. intros Hsub l c _ Hl. exact (lookup_weaken _ _ _ _ Hl Hsub). Qed.

(** The loop of the agent's [createBatch] writes to the array of prompts
    and to no other object that existed. *)
Lemma add_base_prompts_frame prompts idxs :
  forall h u h',
    LLMAgent.add_base_prompts self prompts idxs h = Some (u, h') ->
    same_except prompts h h'.
Proof.
  induction idxs as [| idx rest IH]; intros h u h'; simpl.
  - intros [= _ <-]. now intros l c _.
  - intros Hrun. apply hbind_inv in Hrun as (items & h1 & Hitems & Hrun).
    apply read_arr_inv in Hitems as [-> _].
    destruct (items !! idx) as [prompt |]; [| discriminate].
    apply hbind_inv in Hrun as (c & h1 & Hc & Hrun).
    apply read_inv in Hc as [-> _].
    apply hbind_inv in Hrun as (replacement & h1 & Hreplacement & Hrun).
    assert (Hsub : h ⊆ h1).
    { destruct c as [m | items' | id messages]; [discriminate | |].
      - now apply prependBasePrompt_frame in Hreplacement.
      - apply hbind_inv in Hreplacement as (ms' & h2 & Hprepend & Halloc).
        apply prependBasePrompt_frame in Hprepend.
        apply alloc_inv in Halloc as [Hfresh ->].
        etransitivity; [exact Hprepend | now apply insert_subseteq]. }
    apply hbind_inv in Hrun as (items1 & h2 & Hitems1 & Hrun).
    apply read_arr_inv in Hitems1 as [-> _].
    apply hbind_inv in Hrun as (u' & h2 & Hwrite & Hrun).
    apply write_arr_inv in Hwrite as ->.
    apply IH in Hrun.
    eapply same_except_trans; [| exact Hrun].
    intros l c' Hne Hl. rewrite lookup_insert_ne by congruence.
    exact (lookup_weaken _ _ _ _ Hl Hsub).
Qed.

Lemma deref_prompts_inv ls : forall h ps h',
  LLMAgent.deref_prompts ls h = Some (ps, h') -> h' = h.
Proof.
  induction ls as [| l ls IH]; intros h ps h'; simpl.
  - now intros [= _ <-].
  - intros Hrun. apply hbind_inv in Hrun as (p & h1 & Hp & Hrun).
    assert (h1 = h) as ->.
    { unfold LLMAgent.deref_prompt in Hp.
      apply hbind_inv in Hp as (c & h2 & Hc & Hp).
      apply read_inv in Hc as [-> _].
      destruct c as [m | items | id messages]; [discriminate | |].
      - apply hbind_inv in Hp as (ms & h2 & Hms & Hp).
        apply read_msgs_inv in Hms as [-> _]. now injection Hp as _ <-.
      - apply hbind_inv in Hp as (ms & h2 & Hms & Hp).
        apply deref_messages_inv in Hms as ->. now injection Hp as _ <-. }
    apply hbind_inv in Hrun as (ps' & h2 & Hps & Hrun).
    apply IH in Hps as ->. now injection Hrun as _ <-.
Qed.

(** The agent's [createBatch] leaves every object that existed as it was,
    the array of prompts that it was given excepted. *)
Lemma agent_createBatch_frame prompts options h call h' :
  LLMAgent.createBatch self prompts options h = Some (call, h') ->
  same_except prompts h h'.
Proof.
  unfold LLMAgent.createBatch. intros Hrun.
  apply hbind_inv in Hrun as (items & h1 & Hitems & Hrun).
  apply read_arr_inv in Hitems as [-> _].
  apply hbind_inv in Hrun as (u & h1 & Hloop & Hrun).
  apply add_base_prompts_frame in Hloop.
  apply hbind_inv in Hrun as (items1 & h2 & Hitems1 & Hrun).
  apply read_arr_inv in Hitems1 as [-> _].
  apply hbind_inv in Hrun as (ps & h2 & Hps & Hrun).
  apply deref_prompts_inv in Hps as ->.
  now injection Hrun as _ <-.
Qed.

End Agent.

Section C5_examples.
#[local] Existing Instance Json.runtime.
Import Examples.

(** C5: the claim has the array of per-item prompts unmodified after
    [createBatch]; the code writes the prompts with the base prompt into
    the array of the caller.  Here the caller holds [[france], [germany]];
    after the call, which the Google adapter rejects without any call to
    the transport, the array holds two new arrays that start with the base
    prompt.  The message arrays themselves are as they were. *)
Lemma C5_createBatch_overwrites_prompts_array :
  caller_store !! 5%positive = Some (CArr [2%positive; 4%positive])
  /\ exists call h',
      LLMAgent.createBatch google_agent 5%positive no_batch_options caller_store
      = Some (call, h')
      /\ h' !! 5%positive = Some (CArr [7%positive; 9%positive])
      /\ LLMAgent.deref_prompts [7%positive; 9%positive] h'
         = Some ([LLMAgent.PlainPrompt
                    [{| role := developer; content := assistant_prompt |}; france];
                  LLMAgent.PlainPrompt
                    [{| role := developer; content := assistant_prompt |}; germany]],
                 h')
      /\ h' !! 2%positive = Some (CArr [1%positive])
      /\ h' !! 4%positive = Some (CArr [3%positive])
      /\ call []
         = (inl (Error ("The agent " ++ dq ++ "TestGoogleBatchErrorAgent" ++ dq
                        ++ " uses Google's Gemini 2.0 Flash which doesn't support batch operations")),
            []).
Proof.
  split; [vm_compute; reflexivity |].
  eexists _, _. split; [vm_compute; reflexivity |].
  repeat split; vm_compute; reflexivity.
Qed.

(** The agent's [prompt] on the same store: the array of the caller and
    its message are as they were, the adapter is given a new array. *)
Lemma C5_prompt_leaves_messages_example :
  exists call h',
    LLMAgent.prompt google_agent 2%positive no_options caller_store = Some (call, h')
    /\ caller_store ⊆ h'
    /\ h' !! 2%positive = Some (CArr [1%positive])
    /\ h' !! 1%positive = Some (CMsg france).
Proof.
  destruct (LLMAgent.prompt google_agent 2%positive no_options caller_store)
    as [[call h'] |] eqn:Hrun; [| vm_compute in Hrun; discriminate].
  exists call, h'. split; [reflexivity |].
  pose proof (agent_prompt_frame _ _ _ _ _ _ Hrun) as Hsub.
  split; [exact Hsub |].
  split; (eapply lookup_weaken; [| exact Hsub]); vm_compute; reflexivity.
Qed.

End C5_examples.



(* ================================================================= *)
(** ** Strings *)

Lemma startsWith_append (p s : string) : String.prefix p (p ++ s) = true.
Proof.
  induction p as [| c p IH]; [now destruct s |].
  change (String c p ++ s) with (String c (p ++ s)). simpl.
  destruct (ascii_dec c c); [exact IH | contradiction].
Qed.

Lemma startsWith_weaken (p a b : string) :
  String.prefix p a = true -> String.prefix p (a ++ b) = true.
Proof.
  revert p. induction a as [| x a IH]; intros [| c p]; simpl; try discriminate.
  - intros _. now destruct b.
  - reflexivity.
  - change (String x a ++ b) with (String x (a ++ b)). simpl.
    destruct (ascii_dec c x); [apply IH | discriminate].
Qed.

Lemma includes_step (x : ascii) (a sub : string) :
  includes (String x a) sub = String.prefix sub (String x a) || includes a sub.
Proof. reflexivity. Qed.

Lemma includes_app_l (a b sub : string) :
  includes a sub = true -> includes (a ++ b) sub = true.
Proof.
  induction a as [| x a IH].
  - simpl. rewrite orb_false_r. destruct sub; [| discriminate]. intros _. now destruct b.
  - change (String x a ++ b) with (String x (a ++ b)). rewrite !includes_step.
    intros Hin. apply orb_true_iff in Hin as [Hp | Hin].
    + apply (startsWith_weaken _ _ b) in Hp.
      change (String x a ++ b) with (String x (a ++ b)) in Hp. now rewrite Hp.
    + rewrite (IH Hin). apply orb_true_r.
Qed.

Lemma includes_app_r (a b sub : string) :
  includes b sub = true -> includes (a ++ b) sub = true.
Proof.
  intros Hb. induction a as [| x a IH]; [exact Hb |].
  change (String x a ++ b) with (String x (a ++ b)). rewrite includes_step.
  rewrite IH. apply orb_true_r.
Qed.

Lemma toLowerCase_app (a b : string) :
  toLowerCase (a ++ b) = toLowerCase a ++ toLowerCase b.
Proof.
  induction a as [| x a IH]; [reflexivity |].
  change (String x a ++ b) with (String x (a ++ b)). simpl. now rewrite IH.
Qed.

(* ================================================================= *)
(** ** Credentials of the OpenAI adapter *)

Ltac sent_authorized :=
  repeat match goal with |- Forall _ _ => constructor end;
  unfold authorized; simpl; auto.

Section Authorization.
Context `{Runtime}.
Variable self : OpenAIProvider.t.

Lemma authorization_starts_with_bearer :
  startsWith (OpenAIProvider.authorization self) "Bearer " = true.
Proof.
  unfold OpenAIProvider.authorization.
  destruct (startsWith (OpenAIProvider.apiKey self) "Bearer ") eqn:Hkey.
  - exact Hkey.
  - apply (startsWith_append "Bearer ").
Qed.

(** X1.  The value of the [Authorization] header of the OpenAI adapter
    starts with [Bearer ]: it is the key itself when the key starts with it,
    and the key after [Bearer ] otherwise.  Every request that [prompt],
    [createBatch], [checkBatch], [retrieveBatch] or [cancelBatch] hands to
    the transport carries that header, whatever the outcome of the call. *)
Theorem openai_requests_carry_bearer_token
    (messages : list PromptMessage) (prompts : list Types.BatchRequest)
    (model : ModelName) (options : LLMRequestOptions)
    (batchOptions : BatchRequestOptions) (batchId : string) (sampleObj : jsval)
    (log : list Request) :
  startsWith (OpenAIProvider.authorization self) "Bearer " = true
  /\ OpenAIProvider.authorization self
     = (if startsWith (OpenAIProvider.apiKey self) "Bearer "
        then OpenAIProvider.apiKey self
        else "Bearer " ++ OpenAIProvider.apiKey self)
  /\ (exists sent,
        snd (OpenAIProvider.prompt self messages model options log)
        = (log ++ sent)%list /\ Forall (authorized self) sent)
  /\ (exists sent,
        snd (OpenAIProvider.createBatch self prompts model batchOptions log)
        = (log ++ sent)%list /\ Forall (authorized self) sent)
  /\ (exists sent,
        snd (OpenAIProvider.checkBatch self batchId model log)
        = (log ++ sent)%list /\ Forall (authorized self) sent)
  /\ (exists sent,
        snd (OpenAIProvider.retrieveBatch self batchId model sampleObj log)
        = (log ++ sent)%list /\ Forall (authorized self) sent)
  /\ (exists sent,
        snd (OpenAIProvider.cancelBatch self batchId model log)
        = (log ++ sent)%list /\ Forall (authorized self) sent).
Proof.
  assert (Hnone : forall l : list Request,
             exists sent, l = (l ++ sent)%list /\ Forall (authorized self) sent).
  { intros l. exists []. split; [now rewrite app_nil_r | constructor]. }
  split; [apply authorization_starts_with_bearer |].
  split; [unfold OpenAIProvider.authorization;
          now destruct (startsWith (OpenAIProvider.apiKey self) "Bearer ") |].
  split; [| split; [| split; [| split]]].
  - unfold OpenAIProvider.prompt.
    destruct (OpenAIProvider.find_model model) as [mi |]; [| apply Hnone].
    destruct (needsStructuredOutput _ && negb _); [apply Hnone |].
    unfold mbind, M_bind, bind, fetch.
    match goal with |- context [fetch_chat _ _ ?r] => exists [r] end.
    split; [| sent_authorized].
    destruct (fetch_chat _ _ _) as [rd | err]; simpl; [| reflexivity].
    destruct (OpenAITypes.choices rd); reflexivity.
  - unfold OpenAIProvider.createBatch.
    destruct (OpenAIProvider.find_model model) as [mi |]; [| apply Hnone].
    destruct (negb _); [apply Hnone |].
    destruct (OpenAIProvider.MAX_BATCH_REQUESTS <? _)%N; [apply Hnone |].
    unfold mbind, M_bind, bind.
    destruct ((if needsStructuredOutput (Types.sampleObj (base batchOptions))
               then lift (OpenAIProvider.some_mentions_json prompts)
               else mret true) log) as [[e | mentioned] log1] eqn:Hcheck.
    { assert (log1 = log) as ->; [| apply Hnone].
      destruct (needsStructuredOutput _); [| discriminate].
      pose proof (lift_log (OpenAIProvider.some_mentions_json prompts) log) as Hl.
      now rewrite Hcheck in Hl. }
    assert (log1 = log) as ->.
    { destruct (needsStructuredOutput _); [| now inversion Hcheck].
      pose proof (lift_log (OpenAIProvider.some_mentions_json prompts) log) as Hl.
      now rewrite Hcheck in Hl. }
    destruct mentioned; [| apply Hnone]. simpl.
    destruct (OpenAIProvider.createBatch_loop self mi batchOptions _ 0 prompts [] "")
      as [e | [out jsonl]]; [apply Hnone |]. simpl.
    unfold OpenAIProvider.uploadFile, mbind, M_bind, bind, fetch.
    destruct (fetch_upload _ _ _) as [file | err]; simpl.
    + match goal with
      | |- context [fetch_batch_create _ _ ?r] =>
          match goal with
          | |- context [(log ++ [?u])%list] => exists [u; r]
          end
      end.
      split; [| sent_authorized].
      destruct (fetch_batch_create _ _ _); simpl; now rewrite <- app_assoc.
    + eexists [_]. split; [reflexivity |].
      sent_authorized.
  - unfold OpenAIProvider.checkBatch, mbind, M_bind, bind, fetch.
    match goal with |- context [fetch_batch_status _ _ ?r] => exists [r] end.
    split; [| sent_authorized].
    destruct (fetch_batch_status _ _ _); reflexivity.
  - unfold OpenAIProvider.retrieveBatch, OpenAIProvider.checkBatch,
      mbind, M_bind, bind, fetch.
    destruct (fetch_batch_status _ _ _) as [st | err]; simpl;
      [| eexists [_]; split; [reflexivity | sent_authorized]].
    destruct (OpenAIProvider.mapOpenAIBatchStatus _); simpl;
      try (eexists [_]; split; [reflexivity | sent_authorized]).
    destruct (OpenAITypes.output_file_id st) as [fileId |]; simpl;
      [| eexists [_]; split; [reflexivity | sent_authorized]].
    destruct (nonempty fileId); simpl; [| eexists [_]; split; [reflexivity | sent_authorized]].
    eexists [_; _]. split.
    + destruct (fetch_file_content _ _ _) as [doc | err]; simpl.
      * rewrite lift_log, <- app_assoc. reflexivity.
      * rewrite <- app_assoc. reflexivity.
    + sent_authorized.
  - unfold OpenAIProvider.cancelBatch, mbind, M_bind, bind, fetch.
    match goal with |- context [fetch_batch_cancel _ _ ?r] => exists [r] end.
    split; [| sent_authorized].
    destruct (fetch_batch_cancel _ _ _); reflexivity.
Qed.

End Authorization.

(* ================================================================= *)
(** ** The status of a batch *)

Lemma mapOpenAIBatchStatus_cases (s : string) :
  (OpenAIProvider.mapOpenAIBatchStatus s = completed <-> s = "completed")
  /\ (OpenAIProvider.mapOpenAIBatchStatus s = processing
      <-> In s ["validating"; "processing"])
  /\ (OpenAIProvider.mapOpenAIBatchStatus s = failed
      <-> In s ["failed"; "cancelled"; "cancelling"; "expired"])
  /\ (OpenAIProvider.mapOpenAIBatchStatus s = pending <-> ~ In s known_statuses).
Proof.
  unfold OpenAIProvider.mapOpenAIBatchStatus, known_statuses.
  repeat match goal with
         | |- context [String.eqb s ?l] =>
             destruct (String.eqb_spec s l) as [-> | ?]
         end;
    simpl; repeat split; intros Hs;
    try discriminate; try reflexivity; try tauto;
    try (exfalso; intuition congruence).
  intros Hin. decompose [or] Hin; congruence.
Qed.

Section BatchStatus.
Context `{Runtime}.
Variable self : OpenAIProvider.t.

(** X2.  When the back end answers the status request, [checkBatch] of
    the OpenAI adapter makes that one call and returns a record with the
    output file of the job; it has an error text exactly when the job has a
    non-empty error file; its status is [completed] exactly for the state
    [completed], [processing] exactly for [validating] and [processing],
    [failed] exactly for [failed], [cancelled], [cancelling] and [expired],
    and [pending] for every other state. *)
Theorem checkBatch_reports_status (batchId : string) (model : ModelName)
    (log : list Request) (job : OpenAITypes.BatchStatusResponse) :
  (forall req,
      fetch_batch_status (OpenAIProvider.fetchFn self) log req = HttpOk job) ->
  exists st req,
    OpenAIProvider.checkBatch self batchId model log = (inr st, (log ++ [req])%list)
    /\ outputFileId st = OpenAITypes.output_file_id job
    /\ (is_Some (error st) <-> truthy_str (OpenAITypes.error_file_id job) = true)
    /\ (status st = completed <-> OpenAITypes.bsr_status job = "completed")
    /\ (status st = processing
        <-> In (OpenAITypes.bsr_status job) ["validating"; "processing"])
    /\ (status st = failed
        <-> In (OpenAITypes.bsr_status job)
              ["failed"; "cancelled"; "cancelling"; "expired"])
    /\ (status st = pending <-> ~ In (OpenAITypes.bsr_status job) known_statuses).
Proof.
  intros Hjob. unfold OpenAIProvider.checkBatch, mbind, M_bind, bind, fetch.
  rewrite Hjob. eexists _, _. split; [reflexivity |]. simpl.
  split; [reflexivity |]. split.
  - destruct (OpenAITypes.error_file_id job) as [f |]; simpl.
    + destruct (nonempty f); split; intros Hs; try discriminate; eauto.
      now destruct Hs.
    + split; [intros [? ?] |]; discriminate.
  - apply mapOpenAIBatchStatus_cases.
Qed.

End BatchStatus.

Section BatchStatus_examples.
#[local] Existing Instance Json.runtime.
Import Examples.

Lemma checkBatch_reports_status_witness :
  exists st req,
    OpenAIProvider.checkBatch (openai_reporting "cancelling" None)
      "TestBatchAgent_batch_abc123" GPT4oMini []
    = (inr st, [req])
    /\ status st = failed
    /\ outputFileId st = None.
Proof.
  destruct (checkBatch_reports_status (openai_reporting "cancelling" None)
              "TestBatchAgent_batch_abc123" GPT4oMini []
              (batch_job "cancelling" None) (fun _ => eq_refl))
    as (st & req & Hrun & Hfile & _ & _ & _ & Hfailed & _).
  exists st, req. split; [exact Hrun |]. split; [| exact Hfile].
  apply Hfailed. simpl. auto.
Defined.

End BatchStatus_examples.

(* ================================================================= *)
(** ** What [retrieveBatch] requires and returns *)

Section RetrieveGuards.
Context `{Runtime}.
Variable self : OpenAIProvider.t.

Lemma retrieve_loop_sound model sampleObj rawResponses :
  forall responses results,
    OpenAIProvider.retrieve_loop model sampleObj rawResponses responses
    = inr results ->
    results
    = (responses ++ omap (result_of_line model sampleObj) rawResponses)%list
    /\ Forall (fun raw => readable sampleObj raw = true) rawResponses.
Proof.
  induction rawResponses as [| raw rest IH]; intros responses results; simpl.
  - intros [= <-]. split; [now rewrite app_nil_r | constructor].
  - pose proof (retrieve_line_cases model sampleObj raw) as Hline.
    pose proof (retrieve_line_throws model sampleObj raw) as Hreadable.
    destruct (OpenAIProvider.retrieve_line model sampleObj raw) as [| r | e];
      [| | discriminate]; rewrite Hline; intros Hloop;
      apply IH in Hloop as [Hloop Hrest];
      (split; [| constructor; assumption]).
    + exact Hloop.
    + now rewrite <- app_assoc in Hloop.
Qed.



Lemma result_of_line_tagged model sampleObj rawResponse r :
  result_of_line model sampleObj rawResponse = Some r ->
  r_provider r = OpenAI /\ r_model r = ModelType OpenAI model.
Proof.
  unfold result_of_line.
  destruct (surviving rawResponse) as [line |]; [| discriminate].
  destruct (object_example sampleObj).
  - destruct (text_to_parse line) as [text |]; [| discriminate].
    destruct (JSON_parse text); [discriminate |].
    intros [= <-]. split; reflexivity.
  - intros [= <-]. split; reflexivity.
Qed.

Lemma omap_length_le {A B} (f : A -> option B) (l : list A) :
  length (omap f l) <= length l.
Proof.
  induction l as [| a l IH]; [reflexivity |].
  change (omap f (a :: l))
    with (match f a with Some y => y :: omap f l | None => omap f l end).
  destruct (f a); simpl; lia.
Qed.

(** X3.  [retrieveBatch] of the OpenAI adapter on a batch that the back
    end does not report as [completed] throws the error that names the
    batch and its mapped status, and on a completed batch without an output
    file the error of the missing file; in both cases the status request is
    the only call: nothing is downloaded. *)
Theorem retrieveBatch_before_completion (batchId : string) (model : ModelName)
    (sampleObj : jsval) (log : list Request)
    (job : OpenAITypes.BatchStatusResponse) :
  (forall req,
      fetch_batch_status (OpenAIProvider.fetchFn self) log req = HttpOk job) ->
  (OpenAITypes.bsr_status job <> "completed" ->
   exists req,
     OpenAIProvider.retrieveBatch self batchId model sampleObj log
     = (inl (Error ("Batch " ++ batchId ++ " is not completed yet (status: "
                    ++ Status_str (OpenAIProvider.mapOpenAIBatchStatus
                                     (OpenAITypes.bsr_status job))
                    ++ ")")),
        (log ++ [req])%list))
  /\ (OpenAITypes.bsr_status job = "completed" ->
      truthy_str (OpenAITypes.output_file_id job) = false ->
      exists req,
        OpenAIProvider.retrieveBatch self batchId model sampleObj log
        = (inl (Error "No output file ID found for completed batch"),
           (log ++ [req])%list)).
Proof.
  intros Hjob.
  unfold OpenAIProvider.retrieveBatch, OpenAIProvider.checkBatch,
    mbind, M_bind, bind, fetch.
  rewrite Hjob. simpl. split.
  - intros Hstatus.
    destruct (OpenAIProvider.mapOpenAIBatchStatus _) eqn:Hmap;
      try (eexists; reflexivity).
    now apply mapOpenAIBatchStatus_cases in Hmap.
  - intros -> Hfile. simpl.
    destruct (OpenAITypes.output_file_id job) as [fileId |]; simpl in *;
      [rewrite Hfile |]; eexists; reflexivity.
Qed.

(** X4.  Whenever [retrieveBatch] of the OpenAI adapter returns, it has
    made two calls, the status request and the download, every line of the
    downloaded document is readable, and its results are the results of the
    lines of the document, in order: at most one for each line, each with
    the provider [openai] and the model name that the caller gave. *)
Theorem retrieveBatch_returns_document_results (batchId : string)
    (model : ModelName) (sampleObj : jsval) (log log' : list Request)
    (results : list RetrievedResponse) :
  OpenAIProvider.retrieveBatch self batchId model sampleObj log
  = (inr results, log') ->
  exists check download document,
    log' = (log ++ [check; download])%list
    /\ fetch_file_content (OpenAIProvider.fetchFn self) (log ++ [check])%list download
       = HttpOk document
    /\ Forall (fun raw => readable sampleObj raw = true)
              (JS.split LF (trim document))
    /\ results
       = omap (result_of_line model sampleObj) (JS.split LF (trim document))
    /\ length results <= length (JS.split LF (trim document))
    /\ Forall (fun r => r_provider r = OpenAI
                        /\ r_model r = ModelType OpenAI model) results.
Proof.
  unfold OpenAIProvider.retrieveBatch, OpenAIProvider.checkBatch,
    mbind, M_bind, bind, fetch.
  destruct (fetch_batch_status _ _ _) as [st | err]; simpl; [| discriminate].
  destruct (OpenAIProvider.mapOpenAIBatchStatus _); simpl; try discriminate.
  destruct (OpenAITypes.output_file_id st) as [fileId |]; simpl; [| discriminate].
  destruct (nonempty fileId); simpl; [| discriminate].
  destruct (fetch_file_content _ _ _) as [document | err] eqn:Hdoc; simpl;
    [| discriminate].
  destruct (OpenAIProvider.retrieve_loop _ _ _ _) as [e | rs] eqn:Hloop; simpl;
    [discriminate |].
  intros [= <- <-]. apply retrieve_loop_sound in Hloop as [Hloop Hreadable].
  simpl in Hloop.
  eexists _, _, document. split; [now rewrite <- app_assoc |].
  split; [exact Hdoc |]. split; [exact Hreadable |]. split; [exact Hloop |].
  split; [rewrite Hloop; apply omap_length_le |].
  rewrite Hloop. apply Forall_forall. intros r Hr.
  apply list_elem_of_omap in Hr as (raw & _ & Hr).
  exact (result_of_line_tagged _ _ _ _ Hr).
Qed.


End RetrieveGuards.

Section RetrieveGuards_examples.
#[local] Existing Instance Json.runtime.
Import Examples.

Lemma retrieveBatch_before_completion_witness :
  exists req,
    OpenAIProvider.retrieveBatch (openai_reporting "in_progress" None)
      "batch_abc123" GPT4oMini JUndefined []
    = (inl (Error "Batch batch_abc123 is not completed yet (status: pending)"),
       [req]).
Proof.
  destruct (proj1 (retrieveBatch_before_completion
                     (openai_reporting "in_progress" None)
                     "batch_abc123" GPT4oMini JUndefined []
                     (batch_job "in_progress" None) (fun _ => eq_refl)))
    as [req Hrun]; [discriminate |].
  exists req. exact Hrun.
Defined.

Lemma retrieveBatch_returns_document_results_witness :
  exists results check download,
    OpenAIProvider.retrieveBatch (openai "" output_document) "batch_abc123"
      GPT4oMini JUndefined []
    = (inr results, [check; download])
    /\ length results <= 4
    /\ Forall (fun r => r_provider r = OpenAI
                        /\ r_model r = "openai/GPT-4o-mini") results.
Proof.
  destruct (OpenAIProvider.retrieveBatch (openai "" output_document) "batch_abc123"
              GPT4oMini JUndefined []) as [[e | results] log'] eqn:Hrun;
    [vm_compute in Hrun; discriminate |].
  destruct (retrieveBatch_returns_document_results _ _ _ _ _ _ _ Hrun)
    as (check & download & document & -> & Hdoc & _ & _ & Hlen & Htagged).
  exists results, check, download. split; [reflexivity |].
  split; [| exact Htagged].
  injection Hdoc as <-. rewrite output_document_lines in Hlen. exact Hlen.
Defined.


End RetrieveGuards_examples.

(* ================================================================= *)
(** ** The calls of [createBatch] *)

Lemma hours_of_bounds (seconds : float) :
  1 <= OpenAIProvider.hours_of seconds <= 24.
Proof.
  unfold OpenAIProvider.hours_of.
  destruct (find _ _) as [n |] eqn:Hfind; simpl; [| lia].
  apply find_some in Hfind as [Hin _]. apply in_seq in Hin. lia.
Qed.

Section BatchCreation.
Context `{Runtime}.
Variable self : OpenAIProvider.t.

Lemma marker_check_log (needs : bool) prompts (log : list Request) :
  snd ((if needs then lift (OpenAIProvider.some_mentions_json prompts)
        else mret true) log) = log.
Proof. destruct needs; [apply lift_log | reflexivity]. Qed.

(** X6.  [createBatch] of the OpenAI adapter either throws before any call,
    or uploads the document to [/files] and throws the upload error with
    the payload of the back end, or uploads and then posts the job to
    [/batches].  The job names the file id that the upload returned, the
    endpoint of chat completions and a completion window of a whole number
    of hours from 1 to 24; its outcome is the id of the job, or the error
    with the payload of the back end. *)
Theorem createBatch_uploads_then_creates (prompts : list Types.BatchRequest)
    (model : ModelName) (options : BatchRequestOptions) (log : list Request) :
  let out := OpenAIProvider.createBatch self prompts model options log in
  (exists e, out = (inl e, log))
  \/ (exists upload error,
        fetch_upload (OpenAIProvider.fetchFn self) log upload = HttpFail error
        /\ url upload = OpenAIProvider.baseUrl self ++ "/files"
        /\ out = (inl (Error ("Failed to upload file: " ++ JSON_stringify error 0)),
                  (log ++ [upload])%list))
  \/ (exists upload file create hours,
        fetch_upload (OpenAIProvider.fetchFn self) log upload = HttpOk file
        /\ url upload = OpenAIProvider.baseUrl self ++ "/files"
        /\ snd out = (log ++ [upload; create])%list
        /\ url create = OpenAIProvider.baseUrl self ++ "/batches"
        /\ body create
           = BatchCreateBody (OpenAITypes.fu_id file) "/v1/chat/completions"
               (pretty hours ++ "h")
        /\ 1 <= hours <= 24
        /\ match fetch_batch_create (OpenAIProvider.fetchFn self)
                   (log ++ [upload])%list create with
           | HttpOk job =>
               exists r, fst out = inr r /\ batchId r = OpenAITypes.bsr_id job
           | HttpFail error =>
               fst out
               = inl (Error ("Failed to create batch: " ++ JSON_stringify error 0))
           end).
Proof.
  cbv zeta. unfold OpenAIProvider.createBatch.
  destruct (OpenAIProvider.find_model model) as [mi |]; [| left; eexists; reflexivity].
  destruct (negb _); [left; eexists; reflexivity |].
  destruct (OpenAIProvider.MAX_BATCH_REQUESTS <? _)%N; [left; eexists; reflexivity |].
  unfold mbind, M_bind, bind.
  pose proof (marker_check_log (needsStructuredOutput (sampleObj (base options)))
                prompts log) as Hlog.
  destruct ((if needsStructuredOutput (sampleObj (base options))
             then lift (OpenAIProvider.some_mentions_json prompts)
             else mret true) log) as [[e | mentioned] log1];
    simpl in Hlog; subst log1; [left; eexists; reflexivity |].
  destruct mentioned; [| left; eexists; reflexivity]. simpl.
  destruct (OpenAIProvider.createBatch_loop self mi options _ 0 prompts [] "")
    as [e | [out jsonl]]; [left; eexists; reflexivity |]. simpl.
  unfold OpenAIProvider.uploadFile, mbind, M_bind, bind, fetch.
  destruct (fetch_upload _ _ _) as [file | err] eqn:Hupload; simpl.
  - right. right.
    set (hours := match timeoutSeconds options with
                  | Some seconds =>
                      if truthy_num seconds then OpenAIProvider.hours_of seconds
                      else 24
                  | None => 24
                  end).
    eexists _, file, _, hours. split; [exact Hupload |]. split; [reflexivity |].
    split; [| split; [| split; [| split]]].
    + destruct (fetch_batch_create _ _ _); simpl; rewrite <- app_assoc; reflexivity.
    + reflexivity.
    + simpl. f_equal. subst hours.
      destruct (timeoutSeconds options) as [seconds |]; [| reflexivity].
      destruct (truthy_num seconds); reflexivity.
    + subst hours. destruct (timeoutSeconds options) as [seconds |]; [| lia].
      destruct (truthy_num seconds); [apply hours_of_bounds | lia].
    + destruct (fetch_batch_create _ _ _) as [job | error]; simpl;
        [eexists; split; reflexivity | reflexivity].
  - right. left. eexists _, err. split; [exact Hupload |]. split; reflexivity.
Qed.

End BatchCreation.

(* ================================================================= *)
(** ** The batches that [createBatch] accepts *)

Lemma string_app_nil_r (s : string) : s ++ "" = s.
Proof.
  induction s as [| c s IH]; [reflexivity |].
  change (String c s ++ "") with (String c (s ++ "")). now rewrite IH.
Qed.

Section BatchValidation.
Context `{Runtime}.
Variable self : OpenAIProvider.t.

Lemma createBatch_loop_accepts mi options needs prompts :
  structuredOutput (capabilities mi) = true ->
  mi_id mi = "gpt-4o-mini" ->
  forall i acc jsonl out jsonl',
    OpenAIProvider.createBatch_loop self mi options needs i prompts acc jsonl
    = inr (out, jsonl') ->
    Forall valid_item prompts
    /\ ((N.of_nat (utf16_length jsonl) <= 200000000)%N ->
        (N.of_nat (utf16_length jsonl') <= 200000000)%N)
    /\ exists added,
        out = (acc ++ added)%list
        /\ jsonl' = jsonl ++ jsonl_of added
        /\ Forall2 (request_of_item needs) prompts added.
Proof.
  intros Hso Hid.
  induction prompts as [| p rest IH]; intros i acc jsonl out jsonl'; simpl.
  - intros [= <- <-]. split; [constructor |]. split; [auto |].
    exists []. rewrite app_nil_r, string_app_nil_r. repeat split. constructor.
  - destruct (br_messages p) as [ms |] eqn:Hms; simpl.
    2: discriminate.
    destruct (Nat.eqb_spec (length ms) 0) as [| Hlen]; [discriminate |].
    destruct (N.ltb_spec 2048 (N.of_nat (length ms))) as [| Hmax]; [discriminate |].
    match goal with
    | |- context [(200000000 <? N.of_nat (utf16_length ?d))%N] =>
        destruct (N.ltb_spec 200000000 (N.of_nat (utf16_length d))) as [| Hsize];
          [discriminate |]
    end.
    intros Hloop. apply IH in Hloop as (Hrest & Hbound & added & -> & -> & Hadded).
    split.
    { constructor; [| exact Hrest]. exists ms. split; [exact Hms | lia]. }
    split; [intros _; exact (Hbound Hsize) |].
    eexists (_ :: added). split; [now rewrite <- app_assoc |].
    split; [simpl; now rewrite !string_app_assoc |].
    constructor; [| exact Hadded].
    unfold request_of_item. simpl. rewrite Hms, Hso, Hid. simpl.
    rewrite andb_false_r, andb_true_r. repeat split.
Qed.

(** X7.  When [createBatch] of the OpenAI adapter succeeds, the model is
    the one of the adapter, the batch has at most 50000 items, every item
    has from 1 to 2048 messages and, with structured output requested, some
    item names JSON.  Exactly two calls were made; the uploaded document
    has one line for each item, in order, of at most 200000000 UTF-16 code
    units in all, and the request of an item carries the correlation id returned
    for it and the messages of the item as they are. *)
Theorem createBatch_accepts_only_valid_batches
    (prompts : list Types.BatchRequest) (model : ModelName)
    (options : BatchRequestOptions) (log log' : list Request)
    (r : CreateBatchResponse) :
  OpenAIProvider.createBatch self prompts model options log = (inr r, log') ->
  model = GPT4oMini
  /\ (N.of_nat (length prompts) <= 50000)%N
  /\ Forall valid_item prompts
  /\ (needsStructuredOutput (sampleObj (base options)) = true ->
      existsb item_mentions_json prompts = true)
  /\ exists reqs upload create,
      log' = (log ++ [upload; create])%list
      /\ body upload
         = FormDataBody "batch" (jsonl_of reqs) "application/jsonl" "batch.jsonl"
      /\ (N.of_nat (utf16_length (jsonl_of reqs)) <= 200000000)%N
      /\ map OpenAITypes.custom_id reqs = requestIds r
      /\ Forall2 (request_of_item (needsStructuredOutput (sampleObj (base options))))
           prompts reqs.
Proof.
  unfold OpenAIProvider.createBatch.
  destruct model; simpl; try discriminate.
  destruct (N.ltb_spec OpenAIProvider.MAX_BATCH_REQUESTS (N.of_nat (length prompts)))
    as [| Hmax]; [discriminate |].
  unfold mbind, M_bind, bind.
  pose proof (marker_check_log (needsStructuredOutput (sampleObj (base options)))
                prompts log) as Hlog.
  destruct ((if needsStructuredOutput (sampleObj (base options))
             then lift (OpenAIProvider.some_mentions_json prompts)
             else mret true) log) as [[e | mentioned] log1] eqn:Hcheck;
    simpl in Hlog; subst log1; [discriminate |].
  destruct mentioned; [| discriminate]. simpl.
  destruct (OpenAIProvider.createBatch_loop self _ options _ 0 prompts [] "")
    as [e | [out jsonl]] eqn:Hloop; [discriminate |]. simpl.
  apply createBatch_loop_accepts in Hloop
    as (Hvalid & Hbound & added & -> & -> & Hadded); [| reflexivity..].
  unfold OpenAIProvider.uploadFile, mbind, M_bind, bind, fetch.
  destruct (fetch_upload _ _ _) as [file | err]; [| discriminate]. simpl.
  destruct (fetch_batch_create _ _ _) as [job | err]; [| discriminate].
  intros [= <- <-]. simpl.
  split; [reflexivity |]. split; [exact Hmax |]. split; [exact Hvalid |]. split.
  - intros Hneeds. rewrite Hneeds in Hcheck.
    rewrite some_mentions_json_items in Hcheck.
    + now injection Hcheck as ->.
    + eapply Forall_impl; [exact Hvalid |]. intros p (ms & -> & _). eauto.
  - eexists added, _, _. split; [now rewrite <- app_assoc |].
    split; [reflexivity |]. split; [apply Hbound; now vm_compute |].
    split; [reflexivity | exact Hadded].
Qed.

End BatchValidation.

Section BatchValidation_examples.
#[local] Existing Instance Json.runtime.
Import Examples.

Lemma createBatch_accepts_only_valid_batches_witness :
  exists r upload create,
    OpenAIProvider.createBatch (openai "" "") capitals GPT4oMini capitals_options []
    = (inr r, [upload; create])
    /\ Forall valid_item capitals
    /\ exists reqs,
        body upload
        = FormDataBody "batch" (jsonl_of reqs) "application/jsonl" "batch.jsonl"
        /\ length reqs = 3.
Proof.
  destruct (OpenAIProvider.createBatch (openai "" "") capitals GPT4oMini
              capitals_options []) as [[e | r] log'] eqn:Hrun;
    [vm_compute in Hrun; discriminate |].
  destruct (createBatch_accepts_only_valid_batches _ _ _ _ _ _ _ Hrun)
    as (_ & _ & Hvalid & _ & reqs & upload & create & -> & Hbody & _ & _ & Hreqs).
  exists r, upload, create. split; [reflexivity |]. split; [exact Hvalid |].
  exists reqs. split; [exact Hbody |].
  now rewrite <- (Forall2_length _ _ _ Hreqs).
Defined.

End BatchValidation_examples.

(* ================================================================= *)
(** ** The characters of a correlation id *)

Lemma all_chars_app (p : ascii -> bool) (a b : string) :
  all_chars p (a ++ b) = all_chars p a && all_chars p b.
Proof.
  induction a as [| c a IH]; [reflexivity |].
  change (String c a ++ b) with (String c (a ++ b)). simpl.
  now rewrite IH, andb_assoc.
Qed.

Lemma all_chars_impl (p q : ascii -> bool) (s : string) :
  (forall c, p c = true -> q c = true) ->
  all_chars p s = true -> all_chars q s = true.
Proof.
  intros Hpq. induction s as [| c s IH]; simpl; [reflexivity |].
  intros Hs. apply andb_true_iff in Hs as [Hc Hs]. now rewrite (Hpq c Hc), IH.
Qed.

Lemma pretty_N_go_decimal (x : N) (s : string) :
  all_chars is_decimal s = true -> all_chars is_decimal (pretty_N_go x s) = true.
Proof.
  revert s. induction (N.lt_wf_0 x) as [x _ IH]; intros s Hs.
  destruct (decide (x = 0)%N) as [-> | Hx]; [exact Hs |].
  rewrite pretty_N_go_step by lia.
  apply IH; [apply N.div_lt; lia |].
  simpl. rewrite Hs, andb_true_r.
  unfold pretty_N_char. repeat case_match; reflexivity.
Qed.

Lemma pretty_N_decimal (x : N) : all_chars is_decimal (pretty x) = true.
Proof.
  unfold pretty, pretty_N. case_decide; [reflexivity |].
  now apply pretty_N_go_decimal.
Qed.

Lemma pretty_nat_decimal (n : nat) : all_chars is_decimal (pretty n) = true.
Proof. apply pretty_N_decimal. Qed.

Lemma is_decimal_id_char (c : ascii) : is_decimal c = true -> is_id_char c = true.
Proof.
  unfold is_decimal, is_id_char, is_alnum. cbv zeta. now intros ->.
Qed.

Lemma is_decimal_not_underscore (c : ascii) :
  is_decimal c = true -> negb (Ascii.eqb c "_") = true.
Proof.
  destruct (Ascii.eqb_spec c "_") as [-> |]; [discriminate | reflexivity].
Qed.

Lemma strip_non_alnum_id_chars (s : string) :
  all_chars is_id_char (strip_non_alnum s) = true.
Proof.
  induction s as [| c s IH]; simpl; [reflexivity |].
  destruct (is_alnum c) eqn:Hc; [| exact IH].
  simpl. unfold is_id_char at 1. now rewrite Hc, IH.
Qed.

Lemma name_prefix_id_chars (name : option string) :
  all_chars is_id_char (name_prefix name) = true.
Proof.
  unfold name_prefix. destruct name as [n |]; [| reflexivity].
  destruct (nonempty n); [| reflexivity].
  now rewrite all_chars_app, strip_non_alnum_id_chars.
Qed.

Lemma nonempty_app_r (a b : string) : nonempty b = true -> nonempty (a ++ b) = true.
Proof. destruct a; [auto | reflexivity]. Qed.

Lemma correlation_id_well_formed options now i prompt :
  well_formed_id (correlation_id options now i prompt).
Proof.
  assert (Hstamped :
    well_formed_id (name_prefix (agentName (base options))
                    ++ name_prefix (batchName options)
                    ++ pretty now ++ "_" ++ pretty i)).
  { split.
    - rewrite !all_chars_app, !name_prefix_id_chars. simpl.
      rewrite (all_chars_impl _ _ _ is_decimal_id_char (pretty_N_decimal now)).
      exact (all_chars_impl _ _ _ is_decimal_id_char (pretty_nat_decimal i)).
    - do 3 apply nonempty_app_r. reflexivity. }
  unfold correlation_id. destruct (br_id prompt) as [id |]; [| exact Hstamped].
  destruct (nonempty (strip_non_alnum id)) eqn:Hid; [| exact Hstamped].
  split; [apply strip_non_alnum_id_chars | exact Hid].
Qed.

Lemma app_separator_inj (sep : ascii) (a b x y : string) :
  all_chars (fun c => negb (Ascii.eqb c sep)) a = true ->
  all_chars (fun c => negb (Ascii.eqb c sep)) b = true ->
  a ++ String sep x = b ++ String sep y -> a = b /\ x = y.
Proof.
  revert b. induction a as [| c a IH]; intros [| d b]; simpl; intros Ha Hb.
  - now intros [= ->].
  - change (String d b ++ String sep y) with (String d (b ++ String sep y)).
    intros [= -> _]. now rewrite Ascii.eqb_refl in Hb.
  - change (String c a ++ String sep x) with (String c (a ++ String sep x)).
    intros [= <- _]. now rewrite Ascii.eqb_refl in Ha.
  - change (String c a ++ String sep x) with (String c (a ++ String sep x)).
    change (String d b ++ String sep y) with (String d (b ++ String sep y)).
    intros [= -> Heq].
    apply andb_true_iff in Ha as [_ Ha]. apply andb_true_iff in Hb as [_ Hb].
    destruct (IH b Ha Hb Heq) as [-> ->]. now split.
Qed.

Lemma stamped_ids_differ options (now now' : N) (i j : nat) prompt prompt' :
  without_own_id prompt -> without_own_id prompt' ->
  correlation_id options now i prompt = correlation_id options now' j prompt' ->
  i = j.
Proof.
  unfold without_own_id, correlation_id. intros Hp Hp'.
  destruct (br_id prompt) as [id |]; [rewrite Hp |];
    (destruct (br_id prompt') as [id' |]; [rewrite Hp' |]); simpl;
    intros Heq; apply String.app_inj in Heq; apply String.app_inj in Heq;
    apply app_separator_inj in Heq as [_ Heq];
    try (eapply all_chars_impl; [exact is_decimal_not_underscore
                                | apply pretty_N_decimal]);
    exact (pretty_nat_inj _ _ Heq).
Qed.

Section BatchIds.
Context `{Runtime}.
Variable self : OpenAIProvider.t.

(** X8.  Every correlation id that [createBatch] of the OpenAI adapter
    returns is not empty and consists of letters, digits and underscores
    only. *)
Theorem correlation_ids_well_formed (prompts : list Types.BatchRequest)
    (model : ModelName) (options : BatchRequestOptions) (log log' : list Request)
    (r : CreateBatchResponse) :
  OpenAIProvider.createBatch self prompts model options log = (inr r, log') ->
  Forall well_formed_id (requestIds r).
Proof.
  intros Hrun. apply createBatch_result in Hrun as [-> _].
  generalize 0 at 1. induction prompts as [| p rest IH]; intros i; simpl;
    constructor; [apply correlation_id_well_formed | apply IH].
Qed.

(** X9.  When no item of the batch gives an id with a letter or a digit,
    the correlation ids that [createBatch] of the OpenAI adapter returns
    are pairwise distinct, whatever the clock reads. *)
Theorem correlation_ids_distinct (prompts : list Types.BatchRequest)
    (model : ModelName) (options : BatchRequestOptions) (log log' : list Request)
    (r : CreateBatchResponse) :
  OpenAIProvider.createBatch self prompts model options log = (inr r, log') ->
  Forall without_own_id prompts ->
  NoDup (requestIds r).
Proof.
  intros Hrun Hown. apply createBatch_result in Hrun as [-> _].
  apply NoDup_alt. intros i j id Hi Hj.
  destruct (prompts !! i) as [p |] eqn:Hpi.
  2: { apply lookup_ge_None in Hpi.
       apply lookup_lt_Some in Hi. rewrite correlation_ids_length in Hi. lia. }
  destruct (prompts !! j) as [q |] eqn:Hpj.
  2: { apply lookup_ge_None in Hpj.
       apply lookup_lt_Some in Hj. rewrite correlation_ids_length in Hj. lia. }
  rewrite (correlation_ids_lookup _ _ _ 0 i p Hpi) in Hi.
  rewrite (correlation_ids_lookup _ _ _ 0 j q Hpj) in Hj.
  injection Hi as <-. injection Hj as Hj. symmetry in Hj. simpl in Hj.
  eapply stamped_ids_differ; [| | exact Hj].
  - exact (proj1 (Forall_lookup _ _) Hown i p Hpi).
  - exact (proj1 (Forall_lookup _ _) Hown j q Hpj).
Qed.

End BatchIds.

Section BatchIds_examples.
#[local] Existing Instance Json.runtime.
Import Examples.

Lemma correlation_ids_well_formed_witness :
  exists r log',
    OpenAIProvider.createBatch (openai "" "") capitals GPT4oMini capitals_options []
    = (inr r, log')
    /\ Forall well_formed_id (requestIds r).
Proof.
  destruct (OpenAIProvider.createBatch (openai "" "") capitals GPT4oMini
              capitals_options []) as [[e | r] log'] eqn:Hrun;
    [vm_compute in Hrun; discriminate |].
  exists r, log'. split; [reflexivity |].
  exact (correlation_ids_well_formed _ _ _ _ _ _ _ Hrun).
Defined.

Lemma correlation_ids_distinct_witness :
  exists r log',
    OpenAIProvider.createBatch (openai "" "") capitals GPT4oMini capitals_options []
    = (inr r, log')
    /\ NoDup (requestIds r).
Proof.
  destruct (OpenAIProvider.createBatch (openai "" "") capitals GPT4oMini
              capitals_options []) as [[e | r] log'] eqn:Hrun;
    [vm_compute in Hrun; discriminate |].
  exists r, log'. split; [reflexivity |].
  apply (correlation_ids_distinct _ _ _ _ _ _ _ Hrun).
  repeat constructor.
Defined.

End BatchIds_examples.

(* ================================================================= *)
(** ** The item that an error of [createBatch] names *)

Lemma is_decimal_not_space (c : ascii) :
  is_decimal c = true -> negb (Ascii.eqb c " ") = true.
Proof.
  destruct (Ascii.eqb_spec c " ") as [-> |]; [discriminate | reflexivity].
Qed.

Lemma prompt_error_index (i k : nat) (what : string) :
  pretty i ++ String " " what = pretty k ++ " is empty" ->
  i = k /\ what = "is empty".
Proof.
  intros Heq. apply app_separator_inj in Heq as [Heq ->].
  - split; [exact (pretty_nat_inj _ _ Heq) | reflexivity].
  - eapply all_chars_impl; [exact is_decimal_not_space | apply pretty_nat_decimal].
  - eapply all_chars_impl; [exact is_decimal_not_space | apply pretty_nat_decimal].
Qed.

Section EmptyPrompt.
Context `{Runtime}.
Variable self : OpenAIProvider.t.

Lemma createBatch_loop_empty_prompt mi options needs (k : nat) prompts :
  forall i acc jsonl,
    OpenAIProvider.createBatch_loop self mi options needs i prompts acc jsonl
    = inl (Error ("Prompt " ++ pretty k ++ " is empty")) ->
    i <= k
    /\ (exists p, prompts !! (k - i) = Some p /\ default [] (br_messages p) = [])
    /\ Forall valid_item (take (k - i) prompts).
Proof.
  induction prompts as [| p rest IH]; intros i acc jsonl; simpl; [discriminate |].
  destruct (Nat.eqb_spec (length (default [] (br_messages p))) 0) as [Hempty | Hlen].
  { intros [= Heq].
    change (pretty i ++ " is empty" = pretty k ++ " is empty") in Heq.
    apply prompt_error_index in Heq as [-> _].
    rewrite Nat.sub_diag. split; [lia |]. split; [| constructor].
    exists p. split; [reflexivity |]. now destruct (default [] (br_messages p)). }
  destruct (N.ltb_spec 2048 (N.of_nat (length (default [] (br_messages p)))))
    as [| Hmax].
  { intros [= Heq].
    change (pretty i ++ " exceeds the maximum number of messages (2048)"
            = pretty k ++ " is empty") in Heq.
    apply prompt_error_index in Heq as [_ Heq]. discriminate. }
  destruct (200000000 <? _)%N; [discriminate |].
  intros Hloop. apply IH in Hloop as (Hle & (q & Hq & Hempty) & Hvalid).
  replace (k - i) with (S (k - S i)) by lia. simpl.
  split; [lia |]. split; [exists q; split; assumption |].
  constructor; [| exact Hvalid].
  destruct (br_messages p) as [ms |] eqn:Hms; simpl in *; [| contradiction].
  exists ms. split; [exact Hms | lia].
Qed.

(** X10.  When [createBatch] of the OpenAI adapter throws [Prompt k is
    empty], no call was made, the item at index [k] has no message (none at
    all, or an empty array), and every item before it has from 1 to 2048
    messages. *)
Theorem createBatch_empty_prompt_error (prompts : list Types.BatchRequest)
    (model : ModelName) (options : BatchRequestOptions) (log log' : list Request)
    (k : nat) :
  OpenAIProvider.createBatch self prompts model options log
  = (inl (Error ("Prompt " ++ pretty k ++ " is empty")), log') ->
  log' = log
  /\ (exists p, prompts !! k = Some p /\ default [] (br_messages p) = [])
  /\ Forall valid_item (take k prompts).
Proof.
  unfold OpenAIProvider.createBatch.
  destruct model; simpl; try discriminate.
  destruct (OpenAIProvider.MAX_BATCH_REQUESTS <? _)%N; [discriminate |].
  unfold mbind, M_bind, bind.
  pose proof (marker_check_log (needsStructuredOutput (sampleObj (base options)))
                prompts log) as Hlog.
  destruct ((if needsStructuredOutput (sampleObj (base options))
             then lift (OpenAIProvider.some_mentions_json prompts)
             else mret true) log) as [[e | mentioned] log1] eqn:Hcheck;
    simpl in Hlog; subst log1.
  { intros [= -> <-]. exfalso.
    destruct (needsStructuredOutput _); [| discriminate].
    clear -Hcheck. induction prompts as [| p rest IH]; simpl in Hcheck;
      [discriminate |].
    destruct (br_messages p); [| discriminate].
    destruct (existsb mentions_json l); [discriminate | auto]. }
  destruct mentioned; [| discriminate]. simpl.
  destruct (OpenAIProvider.createBatch_loop self _ options _ 0 prompts [] "")
    as [e | [out jsonl]] eqn:Hloop; simpl.
  - intros [= -> <-]. split; [reflexivity |].
    apply createBatch_loop_empty_prompt in Hloop as (_ & Hp & Hvalid).
    rewrite Nat.sub_0_r in Hp, Hvalid. now split.
  - unfold OpenAIProvider.uploadFile, mbind, M_bind, bind, fetch.
    destruct (fetch_upload _ _ _); simpl; [| discriminate].
    destruct (fetch_batch_create _ _ _); discriminate.
Qed.

End EmptyPrompt.

Section EmptyPrompt_examples.
#[local] Existing Instance Json.runtime.
Import Examples.

Lemma createBatch_empty_prompt_error_witness :
  OpenAIProvider.createBatch (openai "" "") with_empty_item GPT4oMini
    no_batch_options []
  = (inl (Error "Prompt 1 is empty"), [])
  /\ exists p, with_empty_item !! 1 = Some p /\ default [] (br_messages p) = [].
Proof.
  assert (Hrun : OpenAIProvider.createBatch (openai "" "") with_empty_item GPT4oMini
                   no_batch_options []
                 = (inl (Error ("Prompt " ++ pretty 1 ++ " is empty")), []))
    by (vm_compute; reflexivity).
  split; [exact Hrun |].
  exact (proj1 (proj2 (createBatch_empty_prompt_error _ _ _ _ _ _ _ Hrun))).
Defined.

End EmptyPrompt_examples.

Section MessageArrays.
Context `{Runtime}.

(** X11.  [createBatch] of the OpenAI adapter reads [messages] of every
    item.  Given a batch whose first item is an array of messages, which is
    what the agent passes on for the prompts of its first signature, it
    throws before any call: [Prompt 0 is empty], or a [TypeError] when
    structured output is requested. *)
Theorem openai_rejects_message_arrays (o : OpenAIProvider.t)
    (messages : list PromptMessage) (rest : list LLMAgent.Prompt)
    (options : BatchRequestOptions) (log : list Request) :
  (N.of_nat (S (length rest)) <= OpenAIProvider.MAX_BATCH_REQUESTS)%N ->
  LLMAgent.pi_createBatch (LLMAgent.openai_instance o)
    (LLMAgent.PlainPrompt messages :: rest) GPT4oMini options log
  = (inl (if needsStructuredOutput (sampleObj (base options))
          then TypeError "Cannot read properties of undefined (reading 'some')"
          else Error "Prompt 0 is empty"),
     log).
Proof.
  intros Hmax. simpl. unfold OpenAIProvider.createBatch. simpl.
  rewrite length_map.
  destruct (N.ltb_spec OpenAIProvider.MAX_BATCH_REQUESTS
              (N.of_nat (S (length rest)))); [lia |].
  unfold mbind, M_bind, bind.
  destruct (needsStructuredOutput (sampleObj (base options))); reflexivity.
Qed.

End MessageArrays.

Section MessageArrays_examples.
#[local] Existing Instance Json.runtime.
Import Examples.

Lemma openai_rejects_message_arrays_witness :
  LLMAgent.pi_createBatch (LLMAgent.openai_instance (openai "" ""))
    [LLMAgent.PlainPrompt [france]; LLMAgent.PlainPrompt [germany]]
    GPT4oMini no_batch_options []
  = (inl (Error "Prompt 0 is empty"), []).
Proof.
  apply (openai_rejects_message_arrays (openai "" "") [france]
           [LLMAgent.PlainPrompt [germany]] no_batch_options []).
  vm_compute. discriminate.
Defined.

End MessageArrays_examples.

(* ================================================================= *)
(** ** The request and the result of a single completion *)

Ltac no_call H :=
  exfalso; simpl in H; apply (f_equal length) in H;
  rewrite ?length_app in H; simpl in H; lia.

(** From the hypothesis that [prompt] of the OpenAI adapter, called for its
    model, sent [req]: [req] is the request that the code builds. *)
Ltac openai_sent req :=
  unfold OpenAIProvider.prompt; simpl;
  destruct (needsStructuredOutput _ && negb _);
    [let H := fresh in intros H; no_call H |];
  unfold mbind, M_bind, bind, fetch;
  let Hsent := fresh "Hsent" in
  intros Hsent;
  match type of Hsent with
  | context [fetch_chat _ _ ?r] =>
      assert (req = r) as ->
        by (destruct (fetch_chat _ _ r) as [rd | err]; simpl in Hsent;
            [destruct (OpenAITypes.choices rd); simpl in Hsent |];
            apply app_inv_head in Hsent; now injection Hsent as <-)
  end;
  clear Hsent.

Section Completion.
Context `{Runtime}.
Variables (o : OpenAIProvider.t) (g : GoogleProvider.t).

(** X12.  The request that [prompt] of the OpenAI adapter sends is a POST
    to [/chat/completions] for the model [gpt-4o-mini] with the messages of
    the caller, roles and contents unchanged and in order (no structure
    instruction is ever added), the temperature given or 0.7, the user
    identifier [options.user] when that is not empty and otherwise the name
    of the agent when that is not empty, and JSON mode exactly when
    structured output is requested. *)
Theorem openai_prompt_sends_messages_as_given (messages : list PromptMessage)
    (model : ModelName) (options : LLMRequestOptions) (log : list Request)
    (req : Request) :
  snd (OpenAIProvider.prompt o messages model options log) = (log ++ [req])%list ->
  exists r,
    body req = ChatBody r
    /\ url req = OpenAIProvider.baseUrl o ++ "/chat/completions"
    /\ method req = Some "POST"
    /\ OpenAITypes.cr_model r = "gpt-4o-mini"
    /\ OpenAITypes.cr_messages r
       = map (fun m => {| OpenAITypes.wm_role := Role_str (role m);
                          OpenAITypes.wm_content := content m |}) messages
    /\ OpenAITypes.cr_temperature r
       = Some (default OpenAIProvider.default_temperature (temperature options))
    /\ OpenAITypes.cr_user r
       = (if truthy_str (user_ options) then user_ options
          else if truthy_str (agentName options) then agentName options
          else None)
    /\ OpenAITypes.response_format r
       = (if needsStructuredOutput (sampleObj options)
          then Some OpenAITypes.json_object else None).
Proof.
  destruct model;
    [unfold OpenAIProvider.prompt; simpl; intros Hsent; no_call Hsent ..
    | openai_sent req].
  eexists. split; [reflexivity |]. simpl.
  rewrite ?andb_true_r, ?andb_false_r.
  repeat split.
  unfold or_str.
  destruct (truthy_str (user_ options)), (truthy_str (agentName options));
    reflexivity.
Qed.

Lemma endsWith_app (a s : string) : GoogleProvider.endsWith (a ++ s) s = true.
Proof.
  induction a as [| c a IH].
  - destruct s; simpl; [reflexivity |]. now rewrite Ascii.eqb_refl, String.eqb_refl.
  - change (String c a ++ s) with (String c (a ++ s)). simpl.
    rewrite IH. apply orb_true_r.
Qed.

(** X13.  The request that [prompt] of the Google adapter sends goes to
    [generateContent] of the model, with the key in the address and no
    other header than the content type.  With structured output requested
    the address is that of [v1beta] when the base address ends in [/v1],
    the answer is asked as JSON and the schema of the example value is
    attached; otherwise neither is set.  The contents are the messages of
    the caller in order, one part each, with role [model] for an assistant
    message and [user] for any other, the developer message included. *)
Theorem google_prompt_request_shape (messages : list PromptMessage)
    (model : ModelName) (options : LLMRequestOptions) (log : list Request)
    (req : Request) :
  snd (GoogleProvider.prompt g messages model options log) = (log ++ [req])%list ->
  let needs := needsStructuredOutput (sampleObj options) in
  exists modelInfo r,
    In modelInfo GoogleProvider.getModels
    /\ mi_name modelInfo = model
    /\ body req = GeminiBody r
    /\ headers req = [("Content-Type", "application/json")]
    /\ url req
       = (if needs then GoogleProvider.v1beta (GoogleProvider.baseUrl g)
          else GoogleProvider.baseUrl g)
         ++ "/models/" ++ mi_id modelInfo ++ ":generateContent?key="
         ++ GoogleProvider.apiKey g
    /\ (forall root, GoogleProvider.baseUrl g = root ++ "/v1" ->
        GoogleProvider.v1beta (GoogleProvider.baseUrl g) = root ++ "/v1beta")
    /\ (GoogleProvider.endsWith (GoogleProvider.baseUrl g) "/v1" = false ->
        GoogleProvider.v1beta (GoogleProvider.baseUrl g) = GoogleProvider.baseUrl g)
    /\ GoogleTypes.contents r
       = map (fun m =>
                {| GoogleTypes.c_role :=
                     if Role_eqb (role m) assistant then "model" else "user";
                   GoogleTypes.parts := [{| GoogleTypes.part_text := content m |}] |})
             messages
    /\ GoogleTypes.response_mime_type (GoogleTypes.generationConfig r)
       = (if needs then Some "application/json" else None)
    /\ GoogleTypes.response_schema (GoogleTypes.generationConfig r)
       = (if needs then Some (GoogleProvider.objectToGoogleSchema (sampleObj options))
          else None).
Proof.
  unfold GoogleProvider.prompt. cbv zeta.
  destruct (GoogleProvider.find_model model) as [mi |] eqn:Hmi;
    [| intros Hsent; no_call Hsent].
  assert (Hin : In mi GoogleProvider.getModels /\ mi_name mi = model
                /\ structuredOutput (capabilities mi) = true).
  { destruct model; simpl in Hmi; try discriminate; injection Hmi as <-;
      simpl; auto. }
  destruct Hin as (Hin & Hname & Hso). rewrite Hso.
  unfold mbind, M_bind, bind, fetch.
  match goal with |- context [fetch_generate _ _ ?r] => set (sent := r) end.
  intros Hsent.
  assert (req = sent) as ->.
  { destruct (fetch_generate _ _ _) as [rd | err]; simpl in Hsent;
      [destruct (GoogleTypes.candidates rd) as [| c ?]; simpl in Hsent;
       [| destruct (GoogleTypes.cand_parts _); simpl in Hsent] |];
      apply app_inv_head in Hsent; now injection Hsent as <-. }
  exists mi. eexists. split; [exact Hin |]. split; [exact Hname |].
  split; [reflexivity |]. simpl. rewrite !andb_true_r, andb_false_r.
  split; [reflexivity |]. split; [reflexivity |]. split.
  { intros root ->. unfold GoogleProvider.v1beta.
    rewrite endsWith_app. now rewrite string_app_assoc. }
  split.
  { intros Hends. unfold GoogleProvider.v1beta. now rewrite Hends. }
  split; [| split; reflexivity].
  unfold GoogleProvider.formatMessages. apply map_ext.
  intros m. now destruct (role m).
Qed.

(** X14.  Every result of [prompt] comes from exactly one call that the
    back end answered: its text is that of the first choice (on Google, of
    the first part of the first candidate), its usage the three counts of
    the answer, and it is tagged with the provider and with the provider
    and model name; the OpenAI adapter answers only for its own model, the
    Google adapter never for that one. *)
Theorem prompt_result_reports_first_choice (messages : list PromptMessage)
    (model : ModelName) (options : LLMRequestOptions) (log log' : list Request)
    (r : CompletionResponse) :
  (OpenAIProvider.prompt o messages model options log = (inr r, log') ->
   exists req responseData choice rest,
     log' = (log ++ [req])%list
     /\ fetch_chat (OpenAIProvider.fetchFn o) log req = HttpOk responseData
     /\ OpenAITypes.choices responseData = choice :: rest
     /\ text r = OpenAITypes.wm_content (OpenAITypes.ch_message choice)
     /\ usage r
        = {| promptTokens :=
               OpenAITypes.prompt_tokens (OpenAITypes.ccr_usage responseData);
             completionTokens :=
               OpenAITypes.completion_tokens (OpenAITypes.ccr_usage responseData);
             totalTokens :=
               OpenAITypes.total_tokens (OpenAITypes.ccr_usage responseData) |}
     /\ provider r = OpenAI
     /\ Types.model r = "openai/GPT-4o-mini")
  /\ (GoogleProvider.prompt g messages model options log = (inr r, log') ->
      exists req responseData candidate rest part parts,
        log' = (log ++ [req])%list
        /\ fetch_generate (GoogleProvider.fetchFn g) log req = HttpOk responseData
        /\ GoogleTypes.candidates responseData = candidate :: rest
        /\ GoogleTypes.cand_parts (GoogleTypes.cand_content candidate)
           = part :: parts
        /\ text r = GoogleTypes.part_text part
        /\ usage r
           = {| promptTokens :=
                  GoogleTypes.promptTokenCount (GoogleTypes.usageMetadata responseData);
                completionTokens :=
                  GoogleTypes.candidatesTokenCount
                    (GoogleTypes.usageMetadata responseData);
                totalTokens :=
                  GoogleTypes.totalTokenCount (GoogleTypes.usageMetadata responseData) |}
        /\ provider r = Google
        /\ Types.model r = "google/" ++ ModelName_str model
        /\ model <> GPT4oMini).
Proof.
  split.
  - unfold OpenAIProvider.prompt.
    destruct model; simpl; try discriminate.
    destruct (needsStructuredOutput (sampleObj options) && negb _); [discriminate |].
    unfold mbind, M_bind, bind, fetch.
    destruct (fetch_chat _ _ _) as [rd | err] eqn:Hfetch; [| discriminate].
    destruct (OpenAITypes.choices rd) as [| choice rest] eqn:Hchoices;
      [discriminate |].
    intros [= <- <-]. eexists _, rd, choice, rest.
    split; [reflexivity |]. split; [exact Hfetch |]. split; [exact Hchoices |].
    repeat split.
  - unfold GoogleProvider.prompt.
    destruct (GoogleProvider.find_model model) as [mi |] eqn:Hmi; [| discriminate].
    unfold mbind, M_bind, bind, fetch.
    destruct (fetch_generate _ _ _) as [rd | err] eqn:Hfetch; [| discriminate].
    destruct (GoogleTypes.candidates rd) as [| c rest] eqn:Hcands; [discriminate |].
    destruct (GoogleTypes.cand_parts _) as [| p ps] eqn:Hparts; [discriminate |].
    intros [= <- <-]. eexists _, rd, c, rest, p, ps.
    split; [reflexivity |]. split; [exact Hfetch |]. split; [exact Hcands |].
    split; [exact Hparts |]. repeat split.
    intros ->. discriminate.
Qed.

End Completion.

Section Completion_examples.
#[local] Existing Instance Json.runtime.
Import Examples.

Lemma openai_prompt_sends_messages_as_given_witness :
  exists req r,
    snd (OpenAIProvider.prompt (openai "Paris" "") [france] GPT4oMini no_options [])
    = [req]
    /\ body req = ChatBody r
    /\ OpenAITypes.cr_messages r
       = [{| OpenAITypes.wm_role := "user";
             OpenAITypes.wm_content := "What is the capital of France?" |}]
    /\ OpenAITypes.cr_user r = None.
Proof.
  eexists.
  destruct (openai_prompt_sends_messages_as_given (openai "Paris" "") [france]
              GPT4oMini no_options [] _ eq_refl)
    as (r & Hbody & _ & _ & _ & Hmessages & _ & Huser & _).
  exists r. split; [reflexivity |]. split; [exact Hbody |].
  split; [exact Hmessages | exact Huser].
Defined.

Lemma google_prompt_request_shape_witness :
  exists req,
    snd (GoogleProvider.prompt (google "{}") [france] Gemini2Flash
           (with_sample test_sample) [])
    = [req]
    /\ url req
       = "https://generativelanguage.googleapis.com/v1beta/models/gemini-2.0-flash:generateContent?key=g-test".
Proof.
  eexists.
  destruct (google_prompt_request_shape (google "{}") [france] Gemini2Flash
              (with_sample test_sample) [] _ eq_refl)
    as (mi & r & Hin & Hname & _ & _ & Hurl & Hbeta & _).
  split; [reflexivity |].
  rewrite Hurl, (Hbeta "https://generativelanguage.googleapis.com" eq_refl).
  destruct Hin as [<- | [<- | []]]; [reflexivity | discriminate Hname].
Defined.

End Completion_examples.

(* ================================================================= *)
(** ** Errors of the back end and unknown models *)

Section Upstream.
Context `{Runtime}.
Variables (o : OpenAIProvider.t) (g : GoogleProvider.t).

(** X15.  On a back end that refuses every call with an error payload,
    each operation throws an error whose message ends with the serialised
    payload, after one call: the single completion of both adapters (which
    on OpenAI still stops before the transport when JSON is required and
    not named), [checkBatch], [cancelBatch], and [retrieveBatch], which
    throws the error of the status check.  [createBatch] throws before any
    call or after the upload; it never goes on to create the job. *)
Theorem upstream_failure_is_reported (error : jsval)
    (messages : list PromptMessage) (prompts : list Types.BatchRequest)
    (model : ModelName) (options : LLMRequestOptions)
    (batchOptions : BatchRequestOptions) (batchId : string) (sampleObj : jsval)
    (log : list Request) :
  failing error (OpenAIProvider.fetchFn o) ->
  failing error (GoogleProvider.fetchFn g) ->
  let detail := JSON_stringify error 0 in
  (needsStructuredOutput (Types.sampleObj options) = true ->
   existsb mentions_json messages = false ->
   OpenAIProvider.prompt o messages GPT4oMini options log
   = (inl (Error json_required), log))
  /\ ((needsStructuredOutput (Types.sampleObj options) = true ->
       existsb mentions_json messages = true) ->
      exists req,
        OpenAIProvider.prompt o messages GPT4oMini options log
        = (inl (Error ("OpenAI API error: " ++ detail)), (log ++ [req])%list))
  /\ (is_Some (GoogleProvider.find_model model) ->
      exists req,
        GoogleProvider.prompt g messages model options log
        = (inl (Error ("Google API error: " ++ detail)), (log ++ [req])%list))
  /\ ((exists e, OpenAIProvider.createBatch o prompts model batchOptions log
                 = (inl e, log))
      \/ exists upload,
          OpenAIProvider.createBatch o prompts model batchOptions log
          = (inl (Error ("Failed to upload file: " ++ detail)),
             (log ++ [upload])%list))
  /\ (exists req,
        OpenAIProvider.checkBatch o batchId model log
        = (inl (Error ("Failed to check batch status: " ++ detail)),
           (log ++ [req])%list)
        /\ OpenAIProvider.retrieveBatch o batchId model sampleObj log
           = (inl (Error ("Failed to check batch status: " ++ detail)),
              (log ++ [req])%list))
  /\ (exists req,
        OpenAIProvider.cancelBatch o batchId model log
        = (inl (Error ("Failed to cancel batch: " ++ detail)),
           (log ++ [req])%list)).
Proof.
  intros (Hchat & Hupload & _ & Hstatus & Hcancel & _ & _)
         (_ & _ & _ & _ & _ & _ & Hgenerate) detail.
  split; [| split; [| split; [| split; [| split]]]].
  - intros Hneeds Hjson. unfold OpenAIProvider.prompt. simpl.
    now rewrite Hneeds, Hjson.
  - intros Hjson. unfold OpenAIProvider.prompt. simpl.
    destruct (needsStructuredOutput (Types.sampleObj options)); simpl;
      [rewrite Hjson by reflexivity; simpl |];
      unfold mbind, M_bind, bind, fetch; rewrite Hchat; eexists; reflexivity.
  - intros [mi Hmi]. unfold GoogleProvider.prompt. rewrite Hmi.
    unfold mbind, M_bind, bind, fetch. rewrite Hgenerate. eexists. reflexivity.
  - unfold OpenAIProvider.createBatch.
    destruct (OpenAIProvider.find_model model) as [mi |];
      [| left; eexists; reflexivity].
    destruct (negb _); [left; eexists; reflexivity |].
    destruct (OpenAIProvider.MAX_BATCH_REQUESTS <? _)%N;
      [left; eexists; reflexivity |].
    unfold mbind, M_bind, bind.
    pose proof (marker_check_log
                  (needsStructuredOutput (Types.sampleObj (base batchOptions)))
                  prompts log) as Hlog.
    destruct ((if needsStructuredOutput (Types.sampleObj (base batchOptions))
               then lift (OpenAIProvider.some_mentions_json prompts)
               else mret true) log) as [[e | mentioned] log1];
      simpl in Hlog; subst log1; [left; eexists; reflexivity |].
    destruct mentioned; [| left; eexists; reflexivity]. simpl.
    destruct (OpenAIProvider.createBatch_loop o mi batchOptions _ 0 prompts [] "")
      as [e | [out jsonl]]; [left; eexists; reflexivity |]. simpl.
    unfold OpenAIProvider.uploadFile, mbind, M_bind, bind, fetch.
    rewrite Hupload. right. eexists. reflexivity.
  - unfold OpenAIProvider.retrieveBatch, OpenAIProvider.checkBatch,
      mbind, M_bind, bind, fetch.
    rewrite Hstatus. eexists. split; reflexivity.
  - unfold OpenAIProvider.cancelBatch, mbind, M_bind, bind, fetch.
    rewrite Hcancel. eexists. reflexivity.
Qed.

(** X16.  The OpenAI adapter knows the model [GPT-4o-mini] only and the
    Google adapter every other one.  For a model that an adapter does not
    know, [prompt] and [createBatch] of the OpenAI adapter and all five
    operations of the Google adapter throw [Model not found] with the name
    of the model and call the transport not once. *)
Theorem unknown_model_is_rejected_before_transport
    (messages : list PromptMessage) (prompts : list Types.BatchRequest)
    (arrays : list (list PromptMessage)) (model : ModelName)
    (options : LLMRequestOptions) (batchOptions : BatchRequestOptions)
    (batchId : string) (sampleObj : jsval) (log : list Request) :
  let unknown := Error ("Model not found: " ++ ModelName_str model) in
  (OpenAIProvider.find_model model = None <-> model <> GPT4oMini)
  /\ (GoogleProvider.find_model model = None <-> model = GPT4oMini)
  /\ (OpenAIProvider.find_model model = None ->
      OpenAIProvider.prompt o messages model options log = (inl unknown, log)
      /\ OpenAIProvider.createBatch o prompts model batchOptions log
         = (inl unknown, log))
  /\ (GoogleProvider.find_model model = None ->
      GoogleProvider.prompt g messages model options log = (inl unknown, log)
      /\ GoogleProvider.createBatch arrays model batchOptions log = (inl unknown, log)
      /\ GoogleProvider.checkBatch batchId model log = (inl unknown, log)
      /\ GoogleProvider.retrieveBatch batchId model sampleObj log
         = (inl unknown, log)
      /\ GoogleProvider.cancelBatch batchId model log = (inl unknown, log)).
Proof.
  cbv zeta. split; [| split; [| split]].
  - destruct model; simpl; split; intros Hm; try reflexivity; try discriminate;
      exfalso; now apply Hm.
  - destruct model; simpl; split; intros Hm; try reflexivity; discriminate.
  - intros Hnone. unfold OpenAIProvider.prompt, OpenAIProvider.createBatch.
    rewrite Hnone. split; reflexivity.
  - intros Hnone.
    unfold GoogleProvider.prompt, GoogleProvider.createBatch,
      GoogleProvider.checkBatch, GoogleProvider.retrieveBatch,
      GoogleProvider.cancelBatch.
    rewrite Hnone. repeat split.
Qed.

End Upstream.

Section Upstream_examples.
#[local] Existing Instance Json.runtime.
Import Examples.

Lemma upstream_failure_is_reported_witness :
  exists req,
    OpenAIProvider.prompt openai_unavailable [france] GPT4oMini no_options []
    = (inl (Error ("OpenAI API error: " ++ JSON_stringify refusal 0)), [req]).
Proof.
  assert (Hfailing : failing refusal unavailable) by (repeat split).
  destruct (upstream_failure_is_reported openai_unavailable google_unavailable
              refusal [france] [] GPT4oMini no_options no_batch_options "" JUndefined
              [] Hfailing Hfailing)
    as (_ & Hprompt & _).
  apply Hprompt. discriminate.
Defined.

End Upstream_examples.

(* ================================================================= *)
(** ** Every inferred schema is well formed *)

Lemma assoc_set_keys (key : string) (v : jsval) (acc : list (string * jsval)) :
  map fst (assoc_set key v acc)
  = if existsb (fun kv => String.eqb (fst kv) key) acc
    then map fst acc else (map fst acc ++ [key])%list.
Proof.
  induction acc as [| [k w] acc IH]; simpl; [reflexivity |].
  destruct (String.eqb_spec k key) as [-> | Hne]; simpl; [reflexivity |].
  rewrite IH. now destruct (existsb _ acc).
Qed.

Lemma existsb_key (key : string) (acc : list (string * jsval)) :
  existsb (fun kv => String.eqb (fst kv) key) acc = true <-> In key (map fst acc).
Proof.
  rewrite existsb_exists, in_map_iff. split.
  - intros ([k w] & Hin & Heq). apply String.eqb_eq in Heq. simpl in Heq. subst.
    now exists (key, w).
  - intros ([k w] & <- & Hin). exists (k, w). split; [exact Hin |].
    apply String.eqb_refl.
Qed.

Lemma assoc_set_values (P : jsval -> Prop) key v (acc : list (string * jsval)) :
  P v -> Forall (fun kv => P (snd kv)) acc ->
  Forall (fun kv => P (snd kv)) (assoc_set key v acc).
Proof.
  intros Hv. induction 1 as [| [k w] acc Hw Hacc IH]; simpl.
  - repeat constructor. exact Hv.
  - destruct (String.eqb k key); constructor; auto.
Qed.

(** What the assignments of the properties keep true of the object that is
    being filled. *)
Lemma assigned_properties_invariant (P : jsval -> Prop) (f : jsval -> jsval)
    (props acc : list (string * jsval)) :
  Forall (fun kv => P (f (snd kv))) props ->
  Forall (fun kv => P (snd kv)) acc ->
  NoDup (map fst acc) ->
  ~ In "__proto__" (map fst acc) ->
  let out := fold_left (fun acc kv => prop_set (fst kv) (f (snd kv)) acc) props acc in
  Forall (fun kv => P (snd kv)) out
  /\ NoDup (map fst out)
  /\ ~ In "__proto__" (map fst out)
  /\ forall k, In k (map fst out)
               <-> In k (map fst acc) \/ (In k (map fst props) /\ k <> "__proto__").
Proof.
  revert acc. induction props as [| [k w] props IH]; intros acc Hprops Hacc Hnodup Hproto;
    simpl.
  - repeat split; try assumption; [auto | intros [? | [[] _]]; assumption].
  - inversion Hprops as [| ? ? Hw Hrest]; subst. simpl in Hw.
    unfold prop_set at 2 4 6 8. simpl.
    destruct (String.eqb_spec k "__proto__") as [-> | Hk].
    + destruct (IH acc Hrest Hacc Hnodup Hproto) as (H1 & H2 & H3 & H4).
      repeat split; try assumption.
      * intros Hin. apply H4 in Hin. tauto.
      * intros [Hin | [[<- | Hin] Hne]]; apply H4; auto. contradiction.
    + assert (Hkeys := assoc_set_keys k (f w) acc).
      destruct (IH (assoc_set k (f w) acc)) as (H1 & H2 & H3 & H4); try assumption.
      * now apply assoc_set_values.
      * rewrite Hkeys. destruct (existsb _ acc) eqn:He; [exact Hnodup |].
        apply NoDup_app. split; [exact Hnodup |]. split; [| repeat constructor].
        -- intros x Hx Hx'. apply list_elem_of_singleton in Hx'. subst x.
           apply list_elem_of_In, existsb_key in Hx. congruence.
        -- intros Hx. inversion Hx.
      * rewrite Hkeys. destruct (existsb _ acc); [exact Hproto |].
        rewrite in_app_iff. simpl. intros [? | [? | []]]; [contradiction | congruence].
      * repeat split; try assumption.
        -- intros Hin. apply H4 in Hin. rewrite Hkeys in Hin.
           destruct (existsb _ acc) eqn:He.
           ++ tauto.
           ++ rewrite in_app_iff in Hin. simpl in Hin.
              destruct Hin as [[Hin | [<- | []]] | [Hin Hne]]; auto.
        -- intros Hin. apply H4. rewrite Hkeys.
           destruct (existsb _ acc) eqn:He.
           ++ destruct Hin as [Hin | [[<- | Hin] Hne]]; auto.
              left. now apply existsb_key.
           ++ rewrite in_app_iff. simpl.
              destruct Hin as [Hin | [[<- | Hin] Hne]]; auto.
Qed.

(** X17.  For every example value, without any condition on its keys,
    [objectToGoogleSchema] returns [null], a type marker [STRING], [NUMBER]
    or [BOOLEAN], an array schema or an object schema, and so do the items
    and the properties inside it; the properties of an object schema have
    distinct names, which are the keys of the example other than
    [__proto__]. *)
Theorem objectToGoogleSchema_well_formed (v : jsval) :
  well_formed_schema (GoogleProvider.objectToGoogleSchema v)
  /\ (forall props,
        v = JObj props ->
        exists properties,
          GoogleProvider.objectToGoogleSchema v = object_of properties
          /\ forall k, In k (map fst properties)
                       <-> In k (map fst props) /\ k <> "__proto__").
Proof.
  split.
  - induction v as [| | b | x | s | items IH | props IH] using jsval_nested_ind.
    + constructor.
    + constructor.
    + apply (schema_type "BOOLEAN"). simpl. auto.
    + apply (schema_type "NUMBER"). simpl. auto.
    + apply (schema_type "STRING"). simpl. auto.
    + destruct items as [| first rest].
      * apply (schema_array (type_only "STRING")), (schema_type "STRING").
        simpl. auto.
      * apply (schema_array (GoogleProvider.objectToGoogleSchema first)).
        now inversion IH.
    + rewrite objectToGoogleSchema_object.
      assert (Hempty : ~ In "__proto__" (map fst (@nil (string * jsval))))
        by (simpl; tauto).
      destruct (assigned_properties_invariant well_formed_schema
                  GoogleProvider.objectToGoogleSchema props []
                  IH (Forall_nil_2 _) (NoDup_nil_2) Hempty)
        as (H1 & H2 & H3 & _).
      apply schema_object; assumption.
  - intros props ->. rewrite objectToGoogleSchema_object. eexists. split; [reflexivity |].
    intros k.
    assert (Hempty : ~ In "__proto__" (map fst (@nil (string * jsval))))
      by (simpl; tauto).
    assert (Hall : Forall (fun kv : string * jsval => True) props)
      by (apply Forall_forall; auto).
    destruct (assigned_properties_invariant (fun _ => True)
                GoogleProvider.objectToGoogleSchema props []
                Hall (Forall_nil_2 _) (NoDup_nil_2) Hempty)
      as (_ & _ & _ & H4).
    rewrite (H4 k). simpl. tauto.
Qed.

(* ================================================================= *)
(** ** The structure instruction *)

Lemma findLastIndex_Some {A} (p : A -> bool) (l : list A) (i : nat) :
  findLastIndex p l = Some i -> exists x, l !! i = Some x /\ p x = true.
Proof.
  revert i. induction l as [| a l IH]; intros i; simpl; [discriminate |].
  destruct (findLastIndex p l) as [j |].
  - intros [= <-]. exact (IH j eq_refl).
  - destruct (p a) eqn:Ha; [| discriminate]. intros [= <-]. now exists a.
Qed.

Lemma findLastIndex_existsb {A} (p : A -> bool) (l : list A) :
  existsb p l = match findLastIndex p l with Some _ => true | None => false end.
Proof.
  induction l as [| a l IH]; simpl; [reflexivity |].
  rewrite IH. destruct (findLastIndex p l); [apply orb_true_r |].
  rewrite orb_false_r. now destruct (p a).
Qed.

Lemma mentions_json_instruction (before after : string) (r : Role) :
  mentions_json {| role := r; content := before ++ instruction ++ after |} = true.
Proof.
  unfold mentions_json. simpl. rewrite !toLowerCase_app.
  apply includes_app_r, includes_app_l. reflexivity.
Qed.

Section EnhanceMarker.
Context `{Runtime}.

(** X18.  The messages that [enhancePromptWithStructure] returns always
    have a message that names JSON, so that they pass the test of the
    OpenAI adapter.  They are as many as the messages given, with the same
    roles, when one of these has role user, and one more, of role user at
    the end, when none has. *)
Theorem enhanced_prompt_names_json (messages : list PromptMessage)
    (sampleObj : jsval) :
  let enhanced := Structure.enhancePromptWithStructure messages sampleObj in
  let asked := existsb (fun m => Role_eqb (role m) user) messages in
  existsb mentions_json enhanced = true
  /\ length enhanced = (if asked then length messages else S (length messages))
  /\ map role enhanced
     = (if asked then map role messages else (map role messages ++ [user])%list).
Proof.
  cbv zeta. unfold Structure.enhancePromptWithStructure. cbv zeta.
  rewrite (findLastIndex_existsb (fun m => Role_eqb (role m) user)).
  destruct (findLastIndex _ messages) as [i |] eqn:Hlast.
  - apply findLastIndex_Some in Hlast as (m & Hm & Hrole). rewrite Hm.
    apply Role_eqb_eq in Hrole.
    assert (Hi : i < length messages) by (eapply lookup_lt_Some; exact Hm).
    split; [| split].
    + apply existsb_exists. eexists. split.
      * apply list_elem_of_In. eapply list_elem_of_lookup_2.
        apply list_lookup_insert_eq. exact Hi.
      * rewrite <- !string_app_assoc.
        rewrite (string_app_assoc _ instruction).
        apply mentions_json_instruction.
    + apply length_insert.
    + rewrite list_fmap_insert. simpl.
      apply list_insert_id. rewrite list_lookup_fmap, Hm. reflexivity.
  - split; [| split].
    + rewrite existsb_app.
      assert (Hnew := mentions_json_instruction "" (structure sampleObj) user).
      change ("" ++ instruction ++ structure sampleObj)
        with (instruction ++ structure sampleObj) in Hnew.
      cbn [existsb]. rewrite Hnew. apply orb_true_r.
    + rewrite length_app. simpl. lia.
    + now rewrite map_app.
Qed.

End EnhanceMarker.

(** X19.  The value that the structure instruction prints keeps the type
    of the example and its objects, and shows every array as empty or as
    one item, an empty object or the string [example]: what the items of an
    array hold is not described.  Replacing twice changes nothing. *)
Theorem replaced_collapses_arrays (v : jsval) :
  collapsed (replaced v) = true
  /\ replaced (replaced v) = replaced v
  /\ typeof (replaced v) = typeof v.
Proof.
  induction v as [| | b | x | s | items IH | props IH] using jsval_nested_ind;
    try (repeat split; reflexivity).
  - destruct items as [| first rest]; [repeat split |].
    simpl. destruct (String.eqb (typeof first) "object"); repeat split.
  - simpl. split; [| split; [| reflexivity]].
    + induction IH as [| [k w] props (Hw & _) _ IHp]; [reflexivity |].
      simpl in *. now rewrite Hw, IHp.
    + f_equal. induction IH as [| [k w] props (_ & Hw & _) _ IHp]; [reflexivity |].
      simpl in *. now rewrite Hw, IHp.
Qed.

(* ================================================================= *)
(** ** The base prompt of an agent *)

Lemma with_base_prompt_idempotent (basePrompt : string) (msgs : list PromptMessage) :
  LLMAgent.with_base_prompt basePrompt (LLMAgent.with_base_prompt basePrompt msgs)
  = LLMAgent.with_base_prompt basePrompt msgs.
Proof.
  unfold LLMAgent.with_base_prompt.
  destruct (negb (nonempty basePrompt)) eqn:Hb; rewrite ?Hb; [reflexivity |].
  f_equal. rewrite filter_cons_False by exact (fun x => x).
  induction msgs as [| m msgs IH]; [reflexivity |].
  destruct (negb (Role_eqb (role m) developer)) eqn:Hm.
  - rewrite (filter_cons_True _ m msgs) by (rewrite Hm; exact I).
    rewrite filter_cons_True by (rewrite Hm; exact I). now rewrite IH.
  - rewrite (filter_cons_False _ m msgs) by (rewrite Hm; exact (fun x => x)).
    exact IH.
Qed.

Lemma deref_messages_points_to l (h : gmap loc cell) msgs h' :
  deref_messages l h = Some (msgs, h') ->
  exists items, h !! l = Some (CArr items) /\ Forall2 (points_to h) items msgs.
Proof.
  unfold deref_messages. intros Hrun.
  apply hbind_inv in Hrun as (items & h1 & Hitems & Hrun).
  apply read_arr_inv in Hitems as [-> Hl].
  apply read_msgs_inv in Hrun as [_ Hall]. eauto.
Qed.

Section BasePrompt.
Variable self : LLMAgent.t.

(** X20.  [prependBasePrompt] writes to no object of the caller.  With an
    empty base prompt it returns the array it was given, not a copy.  With
    a base prompt it returns a new array: the base prompt as a developer
    message, followed by the messages given that are not developer
    messages, in order.  Applied to its own result it gives the same
    messages again. *)
Theorem prependBasePrompt_replaces_developer_messages (messages : loc)
    (h : gmap loc cell) (items : list loc) (msgs : list PromptMessage) :
  h !! messages = Some (CArr items) ->
  Forall2 (points_to h) items msgs ->
  exists l h' out,
    LLMAgent.prependBasePrompt self messages h = Some (l, h')
    /\ h ⊆ h'
    /\ deref_messages l h' = Some (out, h')
    /\ (LLMAgent.basePrompt self = "" -> l = messages /\ h' = h /\ out = msgs)
    /\ (LLMAgent.basePrompt self <> "" ->
        l <> messages
        /\ out = {| role := developer; content := LLMAgent.basePrompt self |}
                 :: filter (fun m => negb (Role_eqb (role m) developer)) msgs)
    /\ exists l2 h2,
        LLMAgent.prependBasePrompt self l h' = Some (l2, h2)
        /\ deref_messages l2 h2 = Some (out, h2).
Proof.
  intros Hm Hmsgs.
  destruct (prependBasePrompt_messages self messages h items msgs Hm Hmsgs)
    as (l & h' & Hrun & Hout).
  exists l, h', (LLMAgent.with_base_prompt (LLMAgent.basePrompt self) msgs).
  pose proof (prependBasePrompt_frame self _ _ _ _ Hrun) as Hsub.
  split; [exact Hrun |]. split; [exact Hsub |]. split; [exact Hout |].
  split; [| split].
  - intros Hempty. revert Hrun.
    unfold LLMAgent.prependBasePrompt, LLMAgent.with_base_prompt.
    rewrite Hempty. simpl. now intros [= <- <-].
  - intros Hbase. split.
    + revert Hrun. unfold LLMAgent.prependBasePrompt.
      destruct (LLMAgent.basePrompt self) as [| c b] eqn:Hb; [contradiction |].
      simpl. intros Hrun.
      apply hbind_inv in Hrun as (items' & h1 & Hitems & Hrun).
      apply read_arr_inv in Hitems as [-> _].
      apply hbind_inv in Hrun as (system & h1 & Hsystem & Hrun).
      apply alloc_inv in Hsystem as [Hfresh ->].
      apply hbind_inv in Hrun as (kept & h2 & Hkept & Hrun).
      apply filter_refs_inv in Hkept as ->.
      apply alloc_inv in Hrun as [Hfresh' _].
      intros ->. rewrite lookup_insert_ne in Hfresh' by congruence.
      congruence.
    + unfold LLMAgent.with_base_prompt.
      destruct (LLMAgent.basePrompt self); [contradiction | reflexivity].
  - apply deref_messages_points_to in Hout as Hl. destruct Hl as (items' & Hl & Hall).
    destruct (prependBasePrompt_messages self l h' items' _ Hl Hall)
      as (l2 & h2 & Hrun2 & Hout2).
    exists l2, h2. split; [exact Hrun2 |].
    now rewrite with_base_prompt_idempotent in Hout2.
Qed.

End BasePrompt.

Section BasePrompt_examples.
#[local] Existing Instance Json.runtime.
Import Examples.

Lemma prependBasePrompt_replaces_developer_messages_witness :
  exists l h',
    LLMAgent.prependBasePrompt google_agent 2%positive caller_store = Some (l, h')
    /\ l <> 2%positive
    /\ deref_messages l h'
       = Some ([{| role := developer; content := assistant_prompt |}; france], h')
    /\ exists l2 h2,
        LLMAgent.prependBasePrompt google_agent l h' = Some (l2, h2)
        /\ deref_messages l2 h2
           = Some ([{| role := developer; content := assistant_prompt |}; france], h2).
Proof.
  destruct (prependBasePrompt_replaces_developer_messages google_agent 2%positive
              caller_store [1%positive] [france])
    as (l & h' & out & Hrun & _ & Hout & _ & Hbase & Hagain).
  - vm_compute. reflexivity.
  - repeat constructor.
  - destruct Hbase as [Hfresh ->]; [discriminate |].
    exists l, h'. split; [exact Hrun |]. split; [exact Hfresh |].
    split; [exact Hout | exact Hagain].
Defined.

End BasePrompt_examples.

Section AgentOnOpenAI.
Context `{Runtime}.
Variable self : LLMAgent.t.
Variable o : OpenAIProvider.t.

(** X21.  [prompt] of an agent on the OpenAI adapter writes to no object
    of the caller, and the request it sends carries the messages with the
    base prompt, the user identifier of the options when that is not empty
    and the name of the agent otherwise, and JSON mode exactly when the
    example value of the agent requests structured output. *)
Theorem agent_prompt_on_openai (messages : loc) (options : LLMRequestOptions)
    (h : gmap loc cell) (items : list loc) (msgs : list PromptMessage) :
  LLMAgent.providerInstance self = LLMAgent.openai_instance o ->
  LLMAgent.modelName self = GPT4oMini ->
  h !! messages = Some (CArr items) ->
  Forall2 (points_to h) items msgs ->
  exists call h',
    LLMAgent.prompt self messages options h = Some (call, h')
    /\ h ⊆ h'
    /\ forall log req,
        snd (call log) = (log ++ [req])%list ->
        exists r,
          body req = ChatBody r
          /\ OpenAITypes.cr_messages r
             = map (fun m => {| OpenAITypes.wm_role := Role_str (role m);
                                OpenAITypes.wm_content := content m |})
                   (LLMAgent.with_base_prompt (LLMAgent.basePrompt self) msgs)
          /\ OpenAITypes.cr_user r
             = (if truthy_str (user_ options) then user_ options
                else if nonempty (LLMAgent.name self) then Some (LLMAgent.name self)
                else None)
          /\ OpenAITypes.response_format r
             = (if needsStructuredOutput (LLMAgent.sampleObj self)
                then Some OpenAITypes.json_object else None).
Proof.
  intros Hinstance Hmodel Hm Hmsgs.
  destruct (prependBasePrompt_messages self messages h items msgs Hm Hmsgs)
    as (l & h' & Hrun & Hout).
  pose proof (prependBasePrompt_frame self _ _ _ _ Hrun) as Hsub.
  unfold LLMAgent.prompt, mbind, H_bind, hbind. rewrite Hrun, Hout.
  eexists _, h'. split; [reflexivity |]. split; [exact Hsub |].
  intros log req. rewrite Hinstance, Hmodel.
  change (LLMAgent.pi_prompt (LLMAgent.openai_instance o))
    with (OpenAIProvider.prompt o).
  openai_sent req.
  eexists. split; [reflexivity |]. simpl.
  rewrite ?andb_true_r, ?andb_false_r.
  repeat split.
  unfold or_str.
  destruct (truthy_str (user_ options)), (nonempty (LLMAgent.name self));
    reflexivity.
Qed.

End AgentOnOpenAI.

Section AgentOnOpenAI_examples.
#[local] Existing Instance Json.runtime.
Import Examples.

Lemma agent_prompt_on_openai_witness :
  exists call h',
    LLMAgent.prompt openai_agent 2%positive no_options caller_store
    = Some (call, h')
    /\ forall req,
        snd (call []) = [req] ->
        exists r,
          body req = ChatBody r
          /\ OpenAITypes.cr_messages r
             = [{| OpenAITypes.wm_role := "developer";
                   OpenAITypes.wm_content := assistant_prompt |};
                {| OpenAITypes.wm_role := "user";
                   OpenAITypes.wm_content := "What is the capital of France?" |}]
          /\ OpenAITypes.cr_user r = Some "TestAgent".
Proof.
  destruct (agent_prompt_on_openai openai_agent (openai "Paris" "") 2%positive
              no_options caller_store [1%positive] [france])
    as (call & h' & Hrun & _ & Hcall).
  - reflexivity.
  - reflexivity.
  - vm_compute. reflexivity.
  - repeat constructor.
  - exists call, h'. split; [exact Hrun |]. intros req Hreq.
    destruct (Hcall [] req Hreq) as (r & Hbody & Hmessages & Huser & _).
    exists r. split; [exact Hbody |]. split; [exact Hmessages | exact Huser].
Defined.

End AgentOnOpenAI_examples.

Section AgentOnGoogle.
Context `{Runtime}.
Variable self : LLMAgent.t.
Variable g : GoogleProvider.t.


End AgentOnGoogle.

Section AgentOnGoogle_examples.
#[local] Existing Instance Json.runtime.
Import Examples.


End AgentOnGoogle_examples.

(* ================================================================= *)
(** ** Construction of an agent *)

Section Construction.
Context `{Runtime} `{Casing}.
Variable global_fetch : Env.

(** X23.  The constructor gives, for the model string of a provider and a
    model name, an agent of that provider and model on the adapter of the
    provider, with the key, the base address given or the default one of
    the adapter, and the transport given or the global one; the agent keeps
    the example value only when it is truthy, and nothing is written to the
    console otherwise.  For a model string whose part before the first
    slash is neither [google] nor [openai], in particular one without a
    slash, it throws [Unsupported provider] with that part. *)
Theorem constructor_reads_provider_and_model (options : LLMAgent.Options) :
  let transport := default global_fetch (LLMAgent.o_fetchFn options) in
  (forall p m,
      LLMAgent.o_model options = ModelType p m ->
      exists agent console,
        LLMAgent.constructor global_fetch options = inr (Some agent, console)
        /\ LLMAgent.provider agent = p
        /\ LLMAgent.modelName agent = m
        /\ LLMAgent.name agent = LLMAgent.o_name options
        /\ LLMAgent.basePrompt agent = LLMAgent.o_basePrompt options
        /\ LLMAgent.sampleObj agent
           = (if truthy (LLMAgent.o_sampleObj options)
              then LLMAgent.o_sampleObj options else JUndefined)
        /\ (truthy (LLMAgent.o_sampleObj options) = false -> console = [])
        /\ LLMAgent.providerInstance agent
           = match p with
             | Google =>
                 LLMAgent.google_instance
                   {| GoogleProvider.apiKey := LLMAgent.o_apiKey options;
                      GoogleProvider.baseUrl :=
                        default GoogleProvider.default_baseUrl
                          (LLMAgent.o_baseUrl options);
                      GoogleProvider.fetchFn := transport |}
             | OpenAI =>
                 LLMAgent.openai_instance
                   {| OpenAIProvider.apiKey := LLMAgent.o_apiKey options;
                      OpenAIProvider.baseUrl :=
                        default OpenAIProvider.default_baseUrl
                          (LLMAgent.o_baseUrl options);
                      OpenAIProvider.fetchFn := transport |}
             end)
  /\ (forall providerStr rest,
        JS.split "/" (LLMAgent.o_model options) = providerStr :: rest ->
        providerStr <> "google" -> providerStr <> "openai" ->
        LLMAgent.constructor global_fetch options
        = inl (Error ("Unsupported provider: " ++ providerStr)))
  /\ (includes (LLMAgent.o_model options) "/" = false ->
      LLMAgent.o_model options <> "google" ->
      LLMAgent.o_model options <> "openai" ->
      LLMAgent.constructor global_fetch options
      = inl (Error ("Unsupported provider: " ++ LLMAgent.o_model options))).
Proof.
  cbv zeta.
  assert (Hunsupported : forall providerStr rest,
             JS.split "/" (LLMAgent.o_model options) = providerStr :: rest ->
             providerStr <> "google" -> providerStr <> "openai" ->
             LLMAgent.constructor global_fetch options
             = inl (Error ("Unsupported provider: " ++ providerStr))).
  { intros providerStr rest Hsplit Hg Ho. unfold LLMAgent.constructor.
    rewrite Hsplit. simpl. unfold LLMAgent.Provider_of_str. simpl.
    destruct (String.eqb_spec providerStr "google"); [contradiction |].
    destruct (String.eqb_spec providerStr "openai"); [contradiction |].
    reflexivity. }
  split; [| split; [exact Hunsupported |]].
  - intros p m Hmodel. unfold LLMAgent.constructor. rewrite Hmodel.
    destruct p, m; simpl; eexists _, _; (split; [reflexivity |]); simpl;
      repeat split; intros ->; reflexivity.
  - intros Hslash. apply Hunsupported with (rest := []).
    clear -Hslash. induction (LLMAgent.o_model options) as [| c s IH];
      [reflexivity |].
    rewrite includes_cons in Hslash.
    destruct (ascii_dec "/" c) as [| Hc]; [discriminate |].
    simpl. destruct (Ascii.eqb_spec c "/") as [-> |]; [contradiction |].
    now rewrite (IH Hslash).
Qed.

End Construction.

Section BasePromptWarnings.
Context `{Casing}.




End BasePromptWarnings.

Section BasePromptWarnings_examples.
#[local] Existing Instance Json.runtime.
#[local] Existing Instance Examples.ascii_casing.
Import Examples.

(** The base prompt of the tests names the three keys of their example
    value; of an example with nested keys, those that it does not name are
    listed with their paths. *)
Example validateBasePrompt_example :
  LLMAgent.validateBasePrompt
    (LLMAgent.o_basePrompt (agent_options "openai/GPT-4o-mini" test_sample))
    test_sample
  = []
  /\ LLMAgent.validateBasePrompt
       (LLMAgent.o_basePrompt (agent_options "openai/GPT-4o-mini" test_sample))
       (JObj [("Answer", JStr "");
              ("sources", JArr [JObj [("url", JStr ""); ("reasoning", JStr "")]]);
              ("tags", JArr [JStr "a"])])
     = [LLMAgent.warning_sign
        ++ " Warning: The following fields are not mentioned in the base prompt "
        ++ "and may be ignored by the LLM: sources, sources.url, tags";
        "Consider adding these fields to your base prompt for better results."].
Proof. split; vm_compute; reflexivity. Qed.

End BasePromptWarnings_examples.

(* ================================================================= *)
(** ** From [createBatch] to [checkBatch] *)

Lemma string_length_app (a b : string) :
  String.length (a ++ b) = String.length a + String.length b.
Proof.
  induction a as [| c a IH]; [reflexivity |].
  change (String c a ++ b) with (String c (a ++ b)). simpl. now rewrite IH.
Qed.

(** An id with an underscore is not what follows its first underscore. *)
Lemma actualBatchId_shorter (batchId : string) :
  includes batchId "_" = true -> OpenAIProvider.actualBatchId batchId <> batchId.
Proof.
  intros Hin. apply includes_char in Hin as (kind & rest & -> & Hkind).
  change (String "_" rest) with ("_" ++ rest).
  rewrite (proj1 (actualBatchId_spec _) kind rest Hkind eq_refl).
  intros Heq. apply (f_equal String.length) in Heq.
  rewrite !string_length_app in Heq. simpl in Heq. lia.
Qed.

Section CreatedBatch.
Context `{Runtime}.
Variable self : OpenAIProvider.t.

(** X25.  The id that [createBatch] of the OpenAI adapter returns is the id
    that the back end gave to the job, but [checkBatch], [cancelBatch] and
    [retrieveBatch] called with it address the job by the id without what
    precedes its first underscore: the id in the address is the id of the
    job that was created exactly when that id has no underscore. *)
Theorem created_batch_is_addressed_without_prefix
    (prompts : list Types.BatchRequest) (model : ModelName)
    (options : BatchRequestOptions) (sampleObj : jsval)
    (log log' : list Request) (r : CreateBatchResponse) :
  OpenAIProvider.createBatch self prompts model options log = (inr r, log') ->
  exists upload create job,
    log' = (log ++ [upload; create])%list
    /\ fetch_batch_create (OpenAIProvider.fetchFn self) (log ++ [upload])%list create
       = HttpOk job
    /\ batchId r = OpenAITypes.bsr_id job
    /\ (exists req,
          snd (OpenAIProvider.checkBatch self (batchId r) model log')
          = (log' ++ [req])%list
          /\ url req = OpenAIProvider.baseUrl self ++ "/batches/"
                       ++ OpenAIProvider.actualBatchId (OpenAITypes.bsr_id job))
    /\ (exists req,
          snd (OpenAIProvider.cancelBatch self (batchId r) model log')
          = (log' ++ [req])%list
          /\ url req = OpenAIProvider.baseUrl self ++ "/batches/"
                       ++ OpenAIProvider.actualBatchId (OpenAITypes.bsr_id job)
                       ++ "/cancel")
    /\ (exists req later,
          snd (OpenAIProvider.retrieveBatch self (batchId r) model sampleObj log')
          = (log' ++ req :: later)%list
          /\ url req = OpenAIProvider.baseUrl self ++ "/batches/"
                       ++ OpenAIProvider.actualBatchId (OpenAITypes.bsr_id job))
    /\ (includes (OpenAITypes.bsr_id job) "_" = false <->
        OpenAIProvider.actualBatchId (OpenAITypes.bsr_id job)
        = OpenAITypes.bsr_id job)
    /\ (forall kind rest,
          includes kind "_" = false ->
          OpenAITypes.bsr_id job = kind ++ "_" ++ rest ->
          OpenAIProvider.actualBatchId (OpenAITypes.bsr_id job) = rest).
Proof.
  intros Hrun.
  apply createBatch_result in Hrun as (_ & upload & create & job & -> & Hjob & Hid).
  exists upload, create, job. split; [reflexivity |]. split; [exact Hjob |].
  split; [exact Hid |]. rewrite Hid.
  split; [apply checkBatch_call |]. split; [apply cancelBatch_call |].
  split.
  - destruct (retrieveBatch_calls self (OpenAITypes.bsr_id job) model sampleObj
                (log ++ [upload; create])%list) as (req & later & Hlog & Hurl & _).
    exists req, later. split; [exact Hlog | exact Hurl].
  - split; [| intros kind rest; apply actualBatchId_spec].
    split; [apply actualBatchId_spec |].
    intros Hsame. destruct (includes (OpenAITypes.bsr_id job) "_") eqn:Hin;
      [| reflexivity].
    now apply actualBatchId_shorter in Hin.
Qed.

End CreatedBatch.

Section CreatedBatch_examples.
#[local] Existing Instance Json.runtime.
Import Examples.

Lemma created_batch_is_addressed_without_prefix_witness :
  exists r log' req,
    OpenAIProvider.createBatch (openai "" "") capitals GPT4oMini capitals_options []
    = (inr r, log')
    /\ batchId r = "batch_abc123"
    /\ snd (OpenAIProvider.checkBatch (openai "" "") (batchId r) GPT4oMini log')
       = (log' ++ [req])%list
    /\ url req = "https://api.openai.com/v1/batches/abc123".
Proof.
  destruct (OpenAIProvider.createBatch (openai "" "") capitals GPT4oMini
              capitals_options []) as [[e | r] log'] eqn:Hrun;
    [vm_compute in Hrun; discriminate |].
  destruct (created_batch_is_addressed_without_prefix _ _ _ _ JUndefined _ _ _ Hrun)
    as (upload & create & job & _ & Hjob & Hid & (req & Hlog & Hurl) & _ & _ & _
        & Hrest).
  injection Hjob as <-.
  exists r, log', req. split; [reflexivity |]. split; [exact Hid |].
  split; [exact Hlog |].
  rewrite Hurl, (Hrest "batch" "abc123" eq_refl eq_refl). reflexivity.
Defined.

End CreatedBatch_examples.
